(** * seq2seq-vc: dataset layer and decode driver

    A shallow embedding of [seq2seq_vc/datasets/audio_mel_dataset.py] and of
    the argument handling of [seq2seq_vc/bin/vc_decode.py], together with the
    properties of the specification that concern them.

    Python values are modelled by first-order data: paths and utterance ids
    are strings, arrays are a shape with a flat buffer, exceptions are the
    [Raise] branch of a result type, and the effects of the code (calls of an
    injected load function, log records, file-system accesses, the mutation
    of [self.caches]) are threaded through a state-and-exception monad. *)

From Stdlib Require Import ZArith Lia List String Ascii Bool DecimalString.
From stdpp Require Import base list strings gmap sorting.

Import ListNotations.
Local Open Scope string_scope.
Local Open Scope Z_scope.

(* ===================================================================== *)
(** ** Python strings and paths *)
(* ===================================================================== *)

Module Py.

(** [str(z)] for an integer. *)
Definition str_of_Z (z : Z) : string :=
  NilZero.string_of_int (Z.to_int z).

(** [str(n)] for a non-negative integer. *)
Definition str_of_nat (n : nat) : string :=
  NilEmpty.string_of_uint (Nat.to_uint n).

(** [sub in s]. *)
Fixpoint contains (sub s : string) : bool :=
  String.prefix sub s ||
  match s with
  | EmptyString => false
  | String _ s' => contains sub s'
  end.

(** [s.replace(old, new)] for a non-empty [old]: the occurrences of [old]
    are replaced from left to right, without overlap.  [skip] counts the
    characters of an occurrence that are still to be dropped. *)
Fixpoint replace_from (old new : string) (skip : nat) (s : string) : string :=
  match s with
  | EmptyString => EmptyString
  | String c s' =>
      match skip with
      | S k => replace_from old new k s'
      | O =>
          if String.prefix old s
          then new +:+ replace_from old new (Nat.pred (String.length old)) s'
          else String c (replace_from old new O s')
      end
  end.

Definition replace (s old new : string) : string := replace_from old new O s.

(** [s.rfind(c)] for a one-character [c]: the last position, if any. *)
Fixpoint rfind (c : ascii) (s : string) : option nat :=
  match s with
  | EmptyString => None
  | String d s' =>
      match rfind c s' with
      | Some k => Some (S k)
      | None => if Ascii.eqb c d then Some O else None
      end
  end.

(** [os.path.basename(p)]: what follows the last slash. *)
Definition basename (p : string) : string :=
  match rfind "/" p with
  | Some k => String.substring (S k) (String.length p - S k) p
  | None => p
  end.

(** [all(ch == '.' for ch in s)]. *)
Fixpoint all_dots (s : string) : bool :=
  match s with
  | EmptyString => true
  | String c s' => Ascii.eqb c "." && all_dots s'
  end.

(** [os.path.splitext(p)] (posixpath / genericpath._splitext): the extension
    starts at the last dot of the last path component; leading dots of that
    component do not start an extension. *)
Definition splitext (p : string) : string * string :=
  match rfind "." p with
  | None => (p, EmptyString)
  | Some dotIndex =>
      let filenameIndex :=
        match rfind "/" p with Some sepIndex => S sepIndex | None => O end in
      if (filenameIndex <=? dotIndex)%nat
         && negb (all_dots (String.substring filenameIndex
                                             (dotIndex - filenameIndex) p))
      then (String.substring O dotIndex p,
            String.substring dotIndex (String.length p - dotIndex) p)
      else (p, EmptyString)
  end.

(** [s.rstrip('/')]. *)
Fixpoint rstrip_slash (s : string) : string :=
  match s with
  | EmptyString => EmptyString
  | String c s' =>
      match rstrip_slash s' with
      | EmptyString => if Ascii.eqb c "/" then EmptyString else String c EmptyString
      | r => String c r
      end
  end.

(** [os.path.dirname(p)]: what precedes the last slash, without trailing
    slashes unless it consists of slashes only. *)
Definition dirname (p : string) : string :=
  match rfind "/" p with
  | None => EmptyString
  | Some k =>
      let head := String.substring O (S k) p in
      match rstrip_slash head with
      | EmptyString => head
      | r => r
      end
  end.

(** [os.path.join(a, b)] on a POSIX system. *)
Definition join (a b : string) : string :=
  if String.prefix "/" b then b
  else if (String.eqb a EmptyString) then b
  else match String.get (Nat.pred (String.length a)) a with
       | Some c => if Ascii.eqb c "/" then a +:+ b else a +:+ "/" +:+ b
       | None => a +:+ "/" +:+ b
       end.

(** [fnmatch.fnmatchcase(name, pat)] for patterns made of literal
    characters, [*] and [?] (the queries of this repository are of that
    form; bracket classes are not modelled). *)
Fixpoint fnmatch (name pat : string) {struct pat} : bool :=
  match pat with
  | EmptyString =>
      match name with EmptyString => true | _ => false end
  | String p pat' =>
      if Ascii.eqb p "*" then
        (fix star (s : string) : bool :=
           fnmatch s pat' ||
           match s with
           | EmptyString => false
           | String _ s' => star s'
           end) name
      else
        match name with
        | EmptyString => false
        | String c name' =>
            (Ascii.eqb p "?" || Ascii.eqb p c) && fnmatch name' pat'
        end
  end.

(** [fnmatch.filter(names, pat)]. *)
Definition fnmatch_filter (names : list string) (pat : string) : list string :=
  List.filter (fun n => fnmatch n pat) names.

(** [sorted(l)] on a list of strings: ascending in the code-point order of
    [str.__lt__].  The order is total and equal strings are
    indistinguishable, so every correct sort returns this list. *)
Fixpoint insert_sorted (x : string) (l : list string) : list string :=
  match l with
  | [] => [x]
  | y :: l' => if String.leb x y then x :: l else y :: insert_sorted x l'
  end.

Definition sorted (l : list string) : list string :=
  List.fold_right insert_sorted [] l.

End Py.

(* ===================================================================== *)
(** ** Values, exceptions and effects *)
(* ===================================================================== *)

(** A [numpy.ndarray]: its [shape] and its flat buffer.  The dataset layer
    never inspects the elements, which are kept as integer codes. *)
Record ndarray := mk_ndarray { shape : list nat; data : list Z }.

(** The values that [__getitem__] builds and stores: utterance ids, arrays
    and tuples of them. *)
#[warnings="-register-all"]
Inductive pyval :=
| VStr (s : string)
| VArr (a : ndarray)
| VTuple (items : list pyval).

(** The text of an exception or of a log record.  [fset prefix X] is an
    f-string that ends with the [repr] of the set [X] (whose element order
    Python leaves unspecified). *)
Inductive message :=
| Msg (text : string)
| MsgSet (prefix : string) (X : gset string).

Inductive exn :=
| AssertionError (m : message)
| AttributeError (m : message)
| IndexError (m : message)
| TypeError (m : message)
| ValueError (m : message)
| NotImplementedError
| OSError (m : message).

Inductive res (A : Type) :=
| Ok (a : A)
| Raise (e : exn).
Arguments Ok {A} a.
Arguments Raise {A} e.

(** What the code does to the world outside the object. *)
Inductive event :=
| FindFiles (root_dir query : string)       (* find_files(root_dir, query) *)
| Call (fn : string) (path : string)        (* a call of an injected load function *)
| LogWarning (m : message)                  (* logging.warning *)
| LogInfo (m : message)                     (* logging.info *)
| LogBasicConfig (level : string)           (* logging.basicConfig *)
| PathExists (path : string)                (* os.path.exists *)
| MakeDirs (path : string)                  (* os.makedirs *)
| OpenYaml (path : string)                  (* open + yaml.load *)
| ReadHdf5 (path key : string).             (* read_hdf5 *)

(** The state of a run: the object [self] that a method works on and the
    events so far, oldest first. *)
Record proc (Self : Type) := mk_proc { self : Self; trace : list event }.
Arguments mk_proc {Self} self trace.
Arguments self {Self} p.
Arguments trace {Self} p.

(** Computations that read and write the state and may raise.  An exception
    keeps the state reached when it was raised. *)
Definition M (Self A : Type) : Type := proc Self -> res A * proc Self.

Definition ret {Self A} (a : A) : M Self A := fun p => (Ok a, p).

Definition bind {Self A B} (c : M Self A) (k : A -> M Self B) : M Self B :=
  fun p =>
    match c p with
    | (Ok a, p') => k a p'
    | (Raise e, p') => (Raise e, p')
    end.

Definition raise {Self A} (e : exn) : M Self A := fun p => (Raise e, p).

Definition lift {Self A} (r : res A) : M Self A := fun p => (r, p).

Definition emit {Self} (ev : event) : M Self unit :=
  fun p => (Ok tt, mk_proc (self p) (trace p ++ [ev])).

Definition get_self {Self} : M Self Self := fun p => (Ok (self p), p).

Definition put_self {Self} (s : Self) : M Self unit :=
  fun p => (Ok tt, mk_proc s (trace p)).

Declare Scope py_scope.
Delimit Scope py_scope with py.
Notation "x <- c ;; k" := (bind c (fun x => k))
  (at level 100, c at next level, right associativity) : py_scope.
Notation "c ;; k" := (bind c (fun _ => k))
  (at level 100, right associativity) : py_scope.
Local Open Scope py_scope.

(** [for x in l: f(x)], collecting the results. *)
Fixpoint mapM {Self A B} (f : A -> M Self B) (l : list A) : M Self (list B) :=
  match l with
  | [] => ret []
  | x :: l' => y <- f x ;; ys <- mapM f l' ;; ret (y :: ys)
  end.

(** [assert cond, msg]. *)
Definition assert {Self} (cond : bool) (m : message) : M Self unit :=
  if cond then ret tt else raise (AssertionError m).

(** A load function is injected at construction; it maps a path to an array
    or raises, and it returns the same for the same path: the files do not
    change while a dataset is in use.  A call is recorded under the name of
    the parameter it was passed as. *)
Definition load_fn := string -> res ndarray.

Definition call {Self} (name : string) (f : load_fn) (path : string)
  : M Self ndarray :=
  emit (Call name path) ;; lift (f path).

(** [a.shape[0]]. *)
Definition shape0 (a : ndarray) : res nat :=
  match shape a with
  | n :: _ => Ok n
  | [] => Raise (IndexError (Msg "tuple index out of range"))
  end.

(** [len(v)]. *)
Definition py_len (v : pyval) : res nat :=
  match v with
  | VStr s => Ok (String.length s)
  | VTuple items => Ok (List.length items)
  | VArr a =>
      match shape a with
      | n :: _ => Ok n
      | [] => Raise (TypeError (Msg "len() of unsized object"))
      end
  end.

(** The position that a Python index denotes in a sequence of [n] items. *)
Definition norm_index (n : nat) (idx : Z) : option nat :=
  let i := if idx <? 0 then idx + Z.of_nat n else idx in
  if (0 <=? i) && (i <? Z.of_nat n) then Some (Z.to_nat i) else None.

(** [l[idx]]. *)
Definition getitem {A} (l : list A) (idx : Z) : res A :=
  match norm_index (List.length l) idx with
  | Some i =>
      match l !! i with
      | Some x => Ok x
      | None => Raise (IndexError (Msg "list index out of range"))
      end
  | None => Raise (IndexError (Msg "list index out of range"))
  end.

(** [l[idx] = v]. *)
Definition setitem {A} (l : list A) (idx : Z) (v : A) : res (list A) :=
  match norm_index (List.length l) idx with
  | Some i => Ok (<[i := v]> l)
  | None => Raise (IndexError (Msg "list assignment index out of range"))
  end.

(** [for x in l: if f(x): keep x]. *)
Fixpoint filterM {Self A} (f : A -> M Self bool) (l : list A) : M Self (list A) :=
  match l with
  | [] => ret []
  | x :: l' =>
      b <- f x ;; ys <- filterM f l' ;; ret (if b : bool then x :: ys else ys)
  end.

(* ===================================================================== *)
(** ** File discovery *)
(* ===================================================================== *)

(** A directory tree, and a file system that maps the path of a directory
    to what it contains (nothing when the directory does not exist). *)
#[warnings="-register-all"]
Inductive entry :=
| File (name : string)
| Dir (name : string) (children : list entry).

Definition filesystem := string -> list entry.

Definition filenames (es : list entry) : list string :=
  flat_map (fun e => match e with File n => [n] | Dir _ _ => [] end) es.

(** Modelled from the spec: [seq2seq_vc.utils.find_files] is not among the
    sources.  It "recursively finds files under a root directory matching a
    glob-style query" and yields nothing for a root that does not exist: in
    every directory of the tree, top down, the file names that match the
    query, joined to the path of the directory. *)
Fixpoint find_in (query top : string) (e : entry) : list string :=
  match e with
  | File _ => []
  | Dir name children =>
      let root := Py.join top name in
      List.map (Py.join root) (Py.fnmatch_filter (filenames children) query)
      ++ flat_map (find_in query root) children
  end.

Definition walk (fs : filesystem) (root_dir query : string) : list string :=
  List.map (Py.join root_dir) (Py.fnmatch_filter (filenames (fs root_dir)) query)
  ++ flat_map (find_in query root_dir) (fs root_dir).

Definition find_files {Self} (fs : filesystem) (root_dir query : string)
  : M Self (list string) :=
  emit (FindFiles root_dir query) ;; ret (walk fs root_dir query).

(* ===================================================================== *)
(** ** What the five dataset classes share *)
(* ===================================================================== *)

(** [[load_fn(f).shape[0] for f in files]]. *)
Definition lengths_of {Self} (name : string) (load : load_fn)
  (files : list string) : M Self (list nat) :=
  mapM (fun f => a <- call name load f ;; lift (shape0 a)) files.

(** [[idx for idx in range(n) if lengths[idx] > threshold]]. *)
Definition keep_idxs {Self} (n : nat) (lengths : list nat) (threshold : Z)
  : M Self (list nat) :=
  filterM (fun idx => x <- lift (getitem lengths (Z.of_nat idx)) ;;
                      ret (threshold <? Z.of_nat x))
          (seq 0 n).

(** [[files[idx] for idx in idxs]]. *)
Definition select {Self} (files : list string) (idxs : list nat)
  : M Self (list string) :=
  mapM (fun idx => lift (getitem files (Z.of_nat idx))) idxs.

(** The text of the warning about filtered files. *)
Definition filtered_msg (head : string) (before after : nat) : message :=
  Msg (head +:+ " length threshold (" +:+ Py.str_of_nat before +:+ " -> "
       +:+ Py.str_of_nat after +:+ ").").

Definition not_found_msg (kind root_dir : string) : message :=
  Msg ("Not found any " +:+ kind +:+ " files in $" +:+ root_dir +:+ ".").

(** The cache of a dataset object: the flag [allow_cache] and the attribute
    [caches], which exists only when the flag was set at construction.
    The list lives in a manager process and a read of a slot yields a copy
    of what was written to it; the model is about values, in which a copy
    and its original are the same. *)
Class Cache (Self : Type) := {
  cache_enabled : Self -> bool;
  cache_slots : Self -> option (list pyval);
  cache_update : list pyval -> Self -> Self
}.

(** [self.caches]. *)
Definition the_caches {Self} `{Cache Self} : M Self (list pyval) :=
  s <- get_self ;;
  match cache_slots s with
  | Some c => ret c
  | None => raise (AttributeError (Msg "object has no attribute 'caches'"))
  end.

(** The frame that every [__getitem__] puts around the loading of an item:
<<
    if self.allow_cache and len(self.caches[idx]) != 0:
        return self.caches[idx]
    ... build items ...
    if self.allow_cache:
        self.caches[idx] = items
    return items
>> *)
Definition with_cache {Self} `{Cache Self} (idx : Z) (build : M Self pyval)
  : M Self pyval :=
  s <- get_self ;;
  hit <- (if cache_enabled s
          then c <- the_caches ;;
               v <- lift (getitem c idx) ;;
               n <- lift (py_len v) ;;
               ret (negb (n =? 0)%nat)
          else ret false) ;;
  if hit : bool
  then c <- the_caches ;; lift (getitem c idx)
  else
    items <- build ;;
    s <- get_self ;;
    (if cache_enabled s
     then c <- the_caches ;;
          c' <- lift (setitem c idx items) ;;
          put_self (cache_update c' s)
     else ret tt) ;;
    ret items.

(** [self.manager.list()] extended by [[() for _ in range(n)]]. *)
Definition fresh_caches (allow_cache : bool) (n : nat) : option (list pyval) :=
  if allow_cache then Some (replicate n (VTuple [])) else None.

(** The utterance ids of the audio files: [-wave.npy] is stripped when the
    query names [.npy] files, the extension otherwise. *)
Definition audio_utt_ids (audio_query : string) (audio_files : list string)
  : list string :=
  if Py.contains ".npy" audio_query
  then List.map (fun f => Py.replace (Py.basename f) "-wave.npy" EmptyString) audio_files
  else List.map (fun f => fst (Py.splitext (Py.basename f))) audio_files.

(** The same for feature files, with [-feats.npy]. *)
Definition mel_utt_ids (mel_query : string) (mel_files : list string)
  : list string :=
  if Py.contains ".npy" mel_query
  then List.map (fun f => Py.replace (Py.basename f) "-feats.npy" EmptyString) mel_files
  else List.map (fun f => fst (Py.splitext (Py.basename f))) mel_files.

(* ===================================================================== *)
(** ** [class AudioMelDataset] *)
(* ===================================================================== *)

Module AudioMelDataset.

Record t := mk {
  audio_files : list string;
  audio_load_fn : load_fn;
  mel_load_fn : load_fn;
  mel_files : list string;
  utt_ids : list string;
  return_utt_id : bool;
  allow_cache : bool;
  caches : option (list pyval)
}.

Definition set_caches (c : list pyval) (s : t) : t :=
  mk (audio_files s) (audio_load_fn s) (mel_load_fn s) (mel_files s)
     (utt_ids s) (return_utt_id s) (allow_cache s) (Some c).

#[global] Instance cache : Cache t :=
  {| cache_enabled := allow_cache;
     cache_slots := caches;
     cache_update := set_caches |}.

Definition __init__ (fs : filesystem) (root_dir audio_query mel_query : string)
  (audio_load_fn mel_load_fn : load_fn)
  (audio_length_threshold mel_length_threshold : option Z)
  (return_utt_id allow_cache : bool) : M unit t :=
  (* find all of audio and mel files *)
  audio_files <- (l <- find_files fs root_dir audio_query ;; ret (Py.sorted l)) ;;
  mel_files <- (l <- find_files fs root_dir mel_query ;; ret (Py.sorted l)) ;;
  (* filter by threshold *)
  am <- match audio_length_threshold with
        | Some threshold =>
            audio_lengths <- lengths_of "audio_load_fn" audio_load_fn audio_files ;;
            idxs <- keep_idxs (length audio_files) audio_lengths threshold ;;
            (if negb (length audio_files =? length idxs)%nat
             then emit (LogWarning
                          (filtered_msg "Some files are filtered by audio"
                                        (length audio_files) (length idxs)))
             else ret tt) ;;
            audio_files' <- select audio_files idxs ;;
            mel_files' <- select mel_files idxs ;;
            ret (audio_files', mel_files')
        | None => ret (audio_files, mel_files)
        end ;;
  am <- match mel_length_threshold with
        | Some threshold =>
            mel_lengths <- lengths_of "mel_load_fn" mel_load_fn (snd am) ;;
            idxs <- keep_idxs (length (snd am)) mel_lengths threshold ;;
            (if negb (length (snd am) =? length idxs)%nat
             then emit (LogWarning
                          (filtered_msg "Some files are filtered by mel"
                                        (length (snd am)) (length idxs)))
             else ret tt) ;;
            audio_files' <- select (fst am) idxs ;;
            mel_files' <- select (snd am) idxs ;;
            ret (audio_files', mel_files')
        | None => ret am
        end ;;
  let audio_files := fst am in
  let mel_files := snd am in
  (* assert the number of files *)
  assert (negb (length audio_files =? 0)%nat) (not_found_msg "audio" root_dir) ;;
  assert (length audio_files =? length mel_files)%nat
         (Msg ("Number of audio and mel files are different ("
               +:+ Py.str_of_nat (length audio_files) +:+ " vs "
               +:+ Py.str_of_nat (length mel_files) +:+ ").")) ;;
  ret {| audio_files := audio_files;
         audio_load_fn := audio_load_fn;
         mel_load_fn := mel_load_fn;
         mel_files := mel_files;
         utt_ids := audio_utt_ids audio_query audio_files;
         return_utt_id := return_utt_id;
         allow_cache := allow_cache;
         caches := fresh_caches allow_cache (length audio_files) |}.

(** The part of [__getitem__] between the two cache tests. *)
Definition load_items (idx : Z) : M t pyval :=
  s <- get_self ;;
  utt_id <- lift (getitem (utt_ids s) idx) ;;
  audio <- (f <- lift (getitem (audio_files s) idx) ;;
            call "audio_load_fn" (audio_load_fn s) f) ;;
  mel <- (f <- lift (getitem (mel_files s) idx) ;;
          call "mel_load_fn" (mel_load_fn s) f) ;;
  ret (if return_utt_id s
       then VTuple [VStr utt_id; VArr audio; VArr mel]
       else VTuple [VArr audio; VArr mel]).

Definition __getitem__ (idx : Z) : M t pyval := with_cache idx (load_items idx).

Definition __len__ : M t nat := s <- get_self ;; ret (length (audio_files s)).

End AudioMelDataset.

(* ===================================================================== *)
(** ** [class AudioDataset] *)
(* ===================================================================== *)

Module AudioDataset.

Record t := mk {
  audio_files : list string;
  audio_load_fn : load_fn;
  return_utt_id : bool;
  utt_ids : list string;
  allow_cache : bool;
  caches : option (list pyval)
}.

Definition set_caches (c : list pyval) (s : t) : t :=
  mk (audio_files s) (audio_load_fn s) (return_utt_id s) (utt_ids s)
     (allow_cache s) (Some c).

#[global] Instance cache : Cache t :=
  {| cache_enabled := allow_cache;
     cache_slots := caches;
     cache_update := set_caches |}.

Definition __init__ (fs : filesystem) (root_dir audio_query : string)
  (audio_length_threshold : option Z) (audio_load_fn : load_fn)
  (return_utt_id allow_cache : bool) : M unit t :=
  (* find all of audio and mel files *)
  audio_files <- (l <- find_files fs root_dir audio_query ;; ret (Py.sorted l)) ;;
  (* filter by threshold *)
  audio_files <-
    match audio_length_threshold with
    | Some threshold =>
        audio_lengths <- lengths_of "audio_load_fn" audio_load_fn audio_files ;;
        idxs <- keep_idxs (length audio_files) audio_lengths threshold ;;
        (if negb (length audio_files =? length idxs)%nat
         then (* logging.waning(...) *)
              raise (AttributeError
                       (Msg "module 'logging' has no attribute 'waning'"))
         else ret tt) ;;
        select audio_files idxs
    | None => ret audio_files
    end ;;
  (* assert the number of files *)
  assert (negb (length audio_files =? 0)%nat) (not_found_msg "audio" root_dir) ;;
  ret {| audio_files := audio_files;
         audio_load_fn := audio_load_fn;
         return_utt_id := return_utt_id;
         utt_ids := audio_utt_ids audio_query audio_files;
         allow_cache := allow_cache;
         caches := fresh_caches allow_cache (length audio_files) |}.

Definition load_items (idx : Z) : M t pyval :=
  s <- get_self ;;
  utt_id <- lift (getitem (utt_ids s) idx) ;;
  audio <- (f <- lift (getitem (audio_files s) idx) ;;
            call "audio_load_fn" (audio_load_fn s) f) ;;
  ret (if return_utt_id s
       then VTuple [VStr utt_id; VArr audio]
       else VArr audio).

Definition __getitem__ (idx : Z) : M t pyval := with_cache idx (load_items idx).

Definition __len__ : M t nat := s <- get_self ;; ret (length (audio_files s)).

End AudioDataset.

(* ===================================================================== *)
(** ** [class MelDataset] *)
(* ===================================================================== *)

Module MelDataset.

Record t := mk {
  mel_files : list string;
  mel_load_fn : load_fn;
  utt_ids : list string;
  return_utt_id : bool;
  allow_cache : bool;
  caches : option (list pyval)
}.

Definition set_caches (c : list pyval) (s : t) : t :=
  mk (mel_files s) (mel_load_fn s) (utt_ids s) (return_utt_id s)
     (allow_cache s) (Some c).

#[global] Instance cache : Cache t :=
  {| cache_enabled := allow_cache;
     cache_slots := caches;
     cache_update := set_caches |}.

Definition __init__ (fs : filesystem) (root_dir mel_query : string)
  (mel_length_threshold : option Z) (mel_load_fn : load_fn)
  (return_utt_id allow_cache : bool) : M unit t :=
  (* find all of the mel files *)
  mel_files <- (l <- find_files fs root_dir mel_query ;; ret (Py.sorted l)) ;;
  (* filter by threshold *)
  mel_files <-
    match mel_length_threshold with
    | Some threshold =>
        mel_lengths <- lengths_of "mel_load_fn" mel_load_fn mel_files ;;
        idxs <- keep_idxs (length mel_files) mel_lengths threshold ;;
        (if negb (length mel_files =? length idxs)%nat
         then emit (LogWarning
                      (filtered_msg "Some files are filtered by mel"
                                    (length mel_files) (length idxs)))
         else ret tt) ;;
        select mel_files idxs
    | None => ret mel_files
    end ;;
  (* assert the number of files *)
  assert (negb (length mel_files =? 0)%nat) (not_found_msg "mel" root_dir) ;;
  ret {| mel_files := mel_files;
         mel_load_fn := mel_load_fn;
         utt_ids := mel_utt_ids mel_query mel_files;
         return_utt_id := return_utt_id;
         allow_cache := allow_cache;
         caches := fresh_caches allow_cache (length mel_files) |}.

Definition load_items (idx : Z) : M t pyval :=
  s <- get_self ;;
  utt_id <- lift (getitem (utt_ids s) idx) ;;
  mel <- (f <- lift (getitem (mel_files s) idx) ;;
          call "mel_load_fn" (mel_load_fn s) f) ;;
  ret (if return_utt_id s
       then VTuple [VStr utt_id; VArr mel]
       else VArr mel).

Definition __getitem__ (idx : Z) : M t pyval := with_cache idx (load_items idx).

Definition __len__ : M t nat := s <- get_self ;; ret (length (mel_files s)).

End MelDataset.

(* ===================================================================== *)
(** ** [class ParallelVCMelDataset] *)
(* ===================================================================== *)

Module ParallelVCMelDataset.

Record t := mk {
  src_mel_files : list string;
  trg_mel_files : list string;
  src_load_fn : load_fn;
  trg_load_fn : load_fn;
  utt_ids : list string;
  mel_files : list (string * string);
  return_utt_id : bool;
  allow_cache : bool;
  caches : option (list pyval)
}.

Definition set_caches (c : list pyval) (s : t) : t :=
  mk (src_mel_files s) (trg_mel_files s) (src_load_fn s) (trg_load_fn s)
     (utt_ids s) (mel_files s) (return_utt_id s) (allow_cache s) (Some c).

#[global] Instance cache : Cache t :=
  {| cache_enabled := allow_cache;
     cache_slots := caches;
     cache_update := set_caches |}.

(** [[os.path.splitext(os.path.basename(f))[0] for f in files]]. *)
Definition stems (files : list string) : list string :=
  List.map (fun f => fst (Py.splitext (Py.basename f))) files.

Definition __init__ (fs : filesystem) (src_root_dir trg_root_dir mel_query : string)
  (src_load_fn trg_load_fn : load_fn)
  (return_utt_id allow_cache : bool) : M unit t :=
  (* find all of the mel files *)
  src_mel_files <- (l <- find_files fs src_root_dir mel_query ;; ret (Py.sorted l)) ;;
  trg_mel_files <- (l <- find_files fs trg_root_dir mel_query ;; ret (Py.sorted l)) ;;
  (* assert the number of files *)
  assert (negb (length src_mel_files =? 0)%nat) (not_found_msg "mel" src_root_dir) ;;
  assert (negb (length trg_mel_files =? 0)%nat) (not_found_msg "mel" trg_root_dir) ;;
  (* make sure the utt ids match *)
  let src_utt_ids := Py.sorted (stems src_mel_files) in
  let trg_utt_ids := Py.sorted (stems trg_mel_files) in
  let src_set : gset string := list_to_set src_utt_ids in
  let trg_set : gset string := list_to_set trg_utt_ids in
  assert (bool_decide (src_set = trg_set))
         (MsgSet (Py.str_of_nat (size src_set) +:+ " "
                  +:+ Py.str_of_nat (size trg_set))
                 (src_set ∖ trg_set)) ;;
  let mel_files := zip src_mel_files trg_mel_files in
  ret {| src_mel_files := src_mel_files;
         trg_mel_files := trg_mel_files;
         src_load_fn := src_load_fn;
         trg_load_fn := trg_load_fn;
         utt_ids := src_utt_ids;
         mel_files := mel_files;
         return_utt_id := return_utt_id;
         allow_cache := allow_cache;
         caches := fresh_caches allow_cache (length mel_files) |}.

Definition load_items (idx : Z) : M t pyval :=
  s <- get_self ;;
  utt_id <- lift (getitem (utt_ids s) idx) ;;
  src_mel <- (fs <- lift (getitem (mel_files s) idx) ;;
              call "src_load_fn" (src_load_fn s) (fst fs)) ;;
  trg_mel <- (fs <- lift (getitem (mel_files s) idx) ;;
              call "trg_load_fn" (trg_load_fn s) (snd fs)) ;;
  ret (if return_utt_id s
       then VTuple [VStr utt_id; VArr src_mel; VArr trg_mel]
       else VTuple [VArr src_mel; VArr trg_mel]).

Definition __getitem__ (idx : Z) : M t pyval := with_cache idx (load_items idx).

Definition __len__ : M t nat := s <- get_self ;; ret (length (mel_files s)).

End ParallelVCMelDataset.

(* ===================================================================== *)
(** ** [class SourceVCMelDataset] *)
(* ===================================================================== *)

Module SourceVCMelDataset.

Record t := mk {
  src_mel_files : list string;
  mel_load_fn : load_fn;
  utt_ids : list string;
  return_utt_id : bool;
  allow_cache : bool;
  caches : option (list pyval)
}.

Definition set_caches (c : list pyval) (s : t) : t :=
  mk (src_mel_files s) (mel_load_fn s) (utt_ids s) (return_utt_id s)
     (allow_cache s) (Some c).

#[global] Instance cache : Cache t :=
  {| cache_enabled := allow_cache;
     cache_slots := caches;
     cache_update := set_caches |}.

Definition __init__ (fs : filesystem) (src_root_dir mel_query : string)
  (mel_load_fn : load_fn) (return_utt_id allow_cache : bool) : M unit t :=
  (* find all of the mel files *)
  src_mel_files <- (l <- find_files fs src_root_dir mel_query ;; ret (Py.sorted l)) ;;
  (* assert the number of files *)
  assert (negb (length src_mel_files =? 0)%nat) (not_found_msg "mel" src_root_dir) ;;
  ret {| src_mel_files := src_mel_files;
         mel_load_fn := mel_load_fn;
         utt_ids := List.map (fun f => fst (Py.splitext (Py.basename f)))
                             src_mel_files;
         return_utt_id := return_utt_id;
         allow_cache := allow_cache;
         caches := fresh_caches allow_cache (length src_mel_files) |}.

Definition load_items (idx : Z) : M t pyval :=
  s <- get_self ;;
  utt_id <- lift (getitem (utt_ids s) idx) ;;
  src_mel <- (f <- lift (getitem (src_mel_files s) idx) ;;
              call "mel_load_fn" (mel_load_fn s) f) ;;
  ret (if return_utt_id s
       then VTuple [VStr utt_id; VArr src_mel]
       else VArr src_mel).

Definition __getitem__ (idx : Z) : M t pyval := with_cache idx (load_items idx).

Definition __len__ : M t nat := s <- get_self ;; ret (length (src_mel_files s)).

End SourceVCMelDataset.

(* ===================================================================== *)
(** ** [bin/vc_decode.py]: from the command line to the dataset *)
(* ===================================================================== *)

Module VcDecode.

(** The namespace that [parser.parse_args()] returns. *)
Record args := mk_args {
  feats_scp : option string;
  dumpdir : option string;
  trg_stats : string;
  outdir : string;
  checkpoint : string;
  config : option string;
  src_feat_type : string;
  trg_feat_type : string;
  verbose : Z
}.

(** The values of the configuration dictionary: what the command line
    holds, the target statistics, and any other YAML value, kept by its
    [str]. *)
Inductive yval :=
| YNone
| YStr (s : string)
| YInt (z : Z)
| YStats (mean scale : ndarray)
| YOther (str : string).

Definition str_of_opt (o : option string) : yval :=
  match o with Some s => YStr s | None => YNone end.

(** [str(value)], as the f-string of the log record formats it; the text of
    an array is immaterial here. *)
Definition str_of_yval (v : yval) : string :=
  match v with
  | YNone => "None"
  | YStr s => s
  | YInt z => Py.str_of_Z z
  | YStats _ _ => "{'mean': ..., 'scale': ...}"
  | YOther s => s
  end.

(** A [dict] keeps its keys in insertion order. *)
Definition dict := list (string * yval).

(** [d[k] = v]. *)
Fixpoint dict_set (k : string) (v : yval) (d : dict) : dict :=
  match d with
  | [] => [(k, v)]
  | (k', v') :: d' =>
      if String.eqb k k' then (k, v) :: d' else (k', v') :: dict_set k v d'
  end.

(** [d.update(other)]. *)
Definition dict_update (d other : dict) : dict :=
  List.fold_left (fun acc kv => dict_set (fst kv) (snd kv) acc) other d.

(** [vars(args)]. *)
Definition vars (a : args) : dict :=
  [ ("feats_scp", str_of_opt (feats_scp a));
    ("dumpdir", str_of_opt (dumpdir a));
    ("trg_stats", YStr (trg_stats a));
    ("outdir", YStr (outdir a));
    ("checkpoint", YStr (checkpoint a));
    ("config", str_of_opt (config a));
    ("src_feat_type", YStr (src_feat_type a));
    ("trg_feat_type", YStr (trg_feat_type a));
    ("verbose", YInt (verbose a)) ].

(** What the driver finds outside: the directory trees, which paths exist,
    whether a directory can be made, what the YAML file at a path holds and
    what [read_hdf5(path, key)] returns. *)
Record world := mk_world {
  fs : filesystem;
  path_exists : string -> bool;
  makedirs : string -> res unit;
  yaml_load : string -> res dict;
  read_hdf5 : string -> string -> res ndarray
}.

Definition os_path_exists (w : world) (path : string) : M unit bool :=
  emit (PathExists path) ;; ret (path_exists w path).

Definition os_makedirs (w : world) (path : string) : M unit unit :=
  emit (MakeDirs path) ;; lift (makedirs w path).

Definition open_yaml (w : world) (path : string) : M unit dict :=
  emit (OpenYaml path) ;; lift (yaml_load w path).

Definition do_read_hdf5 (w : world) (path key : string) : M unit ndarray :=
  emit (ReadHdf5 path key) ;; lift (read_hdf5 w path key).

(** [main], up to the construction of the dataset.  What follows it (the
    restoration of the model, the vocoder and the generation loop) belongs
    to external collaborators and is passed as [generation]. *)
Definition main (w : world) (a : args)
  (generation : dict -> SourceVCMelDataset.t -> M unit unit) : M unit unit :=
  (* set logger *)
  (if 1 <? verbose a then emit (LogBasicConfig "DEBUG")
   else if 0 <? verbose a then emit (LogBasicConfig "INFO")
   else (emit (LogBasicConfig "WARN") ;;
         emit (LogWarning (Msg "Skip DEBUG/INFO messages")))) ;;
  (* check directory existence *)
  e <- os_path_exists w (outdir a) ;;
  (if negb e then os_makedirs w (outdir a) else ret tt) ;;
  (* load config *)
  let config_path :=
    match config a with
    | None =>
        let dirname := Py.dirname (checkpoint a) in
        Py.join dirname "config.yml"
    | Some c => c
    end in
  let a := mk_args (feats_scp a) (dumpdir a) (trg_stats a) (outdir a)
                   (checkpoint a) (Some config_path)
                   (src_feat_type a) (trg_feat_type a) (verbose a) in
  cfg <- open_yaml w config_path ;;
  let cfg := dict_update cfg (vars a) in
  mapM (fun kv => emit (LogInfo (Msg (fst kv +:+ " = " +:+ str_of_yval (snd kv)))))
       cfg ;;
  (* load target stats for denormalization *)
  mean <- do_read_hdf5 w (trg_stats a) "mean" ;;
  scale <- do_read_hdf5 w (trg_stats a) "scale" ;;
  let cfg := dict_set "trg_stats" (YStats mean scale) cfg in
  (* check arguments *)
  (if (bool_decide (feats_scp a <> None) && bool_decide (dumpdir a <> None))
      || (bool_decide (feats_scp a = None) && bool_decide (dumpdir a = None))
   then raise (ValueError (Msg "Please specify either --dumpdir or --feats-scp."))
   else ret tt) ;;
  (* get dataset *)
  dataset <- match dumpdir a with
             | Some d =>
                 let mel_query := "*.h5" in
                 let mel_load_fn := fun x => read_hdf5 w x (src_feat_type a) in
                 SourceVCMelDataset.__init__ (fs w) d mel_query mel_load_fn
                                             true false
             | None => raise NotImplementedError
             end ;;
  emit (LogInfo (Msg ("The number of features to be decoded = "
                      +:+ Py.str_of_nat (length (SourceVCMelDataset.src_mel_files dataset))
                      +:+ "."))) ;;
  generation cfg dataset.

End VcDecode.

(* ===================================================================== *)
(** ** [bin/vc_decode.py]: the loop over the dataset *)
(* ===================================================================== *)

(** The loop of [main] over the dataset,
<<
    for idx, (utt_id, x) in enumerate(pbar, 1): ...
>>
    where [pbar] iterates over [dataset].  The dataset defines
    [__getitem__] and no [__iter__], so that the iteration follows the
    sequence protocol: it calls [dataset[0]], [dataset[1]], ... and ends
    at the first [IndexError]; any other exception leaves the loop.  What
    the loop does with an item (inference, plots and output files) belongs
    to external collaborators and is passed as [body].  [fuel] bounds the
    number of calls of [__getitem__]; the result is [false] when the bound
    is reached before the end. *)
Fixpoint decode_loop (fuel : nat) (body : nat -> pyval -> M unit unit)
  (dataset : SourceVCMelDataset.t) (i : nat) : M unit bool :=
  match fuel with
  | O => ret false
  | S fuel' =>
      fun p =>
        match SourceVCMelDataset.__getitem__ (Z.of_nat i)
                (mk_proc dataset (trace p)) with
        | (Ok item, q) =>
            (body (S i) item ;; decode_loop fuel' body (self q) (S i))
              (mk_proc tt (trace q))
        | (Raise (IndexError _), q) => (Ok true, mk_proc tt (trace q))
        | (Raise e, q) => (Raise e, mk_proc tt (trace q))
        end
  end.

(* ===================================================================== *)
(** ** Running a computation *)
(* ===================================================================== *)

(** [Class(...)]: run a constructor in a fresh process. *)
Definition new {Self} (init : M unit Self) : res Self * list event :=
  let r := init (mk_proc tt []) in (fst r, trace (snd r)).

(** What a computation returns and what it emits when it is started on the
    object [s]. *)
Definition value_of {Self A} (c : M Self A) (s : Self) : res A :=
  fst (c (mk_proc s [])).

Definition events_of {Self A} (c : M Self A) (s : Self) : list event :=
  trace (snd (c (mk_proc s []))).

(** A computation that leaves the object alone and only appends events. *)
Definition readonly {Self A} (c : M Self A) : Prop :=
  forall p, c p = (value_of c (self p),
                   mk_proc (self p) (trace p ++ events_of c (self p))).

(* ===================================================================== *)
(** * The vocabulary of the properties *)
(* ===================================================================== *)

(** ** The order of [sorted] *)

Definition str_le (a b : string) : Prop := String.leb a b = true.

(** ** The cache protocol *)

(** What the three operations of a cache must satisfy; every dataset class
    meets it by the shape of its record. *)
Class CacheLaws (Self : Type) `{Cache Self} := {
  cache_update_slots : forall c s, cache_slots (cache_update c s) = Some c;
  cache_update_enabled : forall c s,
      cache_enabled (cache_update c s) = cache_enabled s;
  cache_update_same : forall c s,
      cache_slots s = Some c -> cache_update c s = s;
  cache_update_update : forall c c' s,
      cache_update c (cache_update c' s) = cache_update c s
}.

(** The ways in which a run of [with_cache] can go: the cache is disabled
    and the items are built; an error comes from the cache itself; the
    slot holds an item of non-zero length, which is returned; the slot is
    free and building the items raises; the slot is free and the items
    are built and stored. *)
Inductive outcome {Self : Type} `{Cache Self} (build : M Self pyval)
  (idx : Z) (p : proc Self) : res pyval * proc Self -> Prop :=
| out_disabled :
    cache_enabled (self p) = false ->
    outcome build idx p
            (value_of build (self p),
             mk_proc (self p) (trace p ++ events_of build (self p)))
| out_error e :
    cache_enabled (self p) = true ->
    outcome build idx p (Raise e, p)
| out_hit c v n :
    cache_enabled (self p) = true -> cache_slots (self p) = Some c ->
    getitem c idx = Ok v -> py_len v = Ok (S n) ->
    outcome build idx p (Ok v, p)
| out_miss_raise c v e :
    cache_enabled (self p) = true -> cache_slots (self p) = Some c ->
    getitem c idx = Ok v -> py_len v = Ok O ->
    value_of build (self p) = Raise e ->
    outcome build idx p
            (Raise e, mk_proc (self p) (trace p ++ events_of build (self p)))
| out_miss_store c v i items :
    cache_enabled (self p) = true -> cache_slots (self p) = Some c ->
    getitem c idx = Ok v -> py_len v = Ok O ->
    norm_index (length c) idx = Some i -> c !! i = Some v ->
    value_of build (self p) = Ok items ->
    outcome build idx p
            (Ok items,
             mk_proc (cache_update (<[i := items]> c) (self p))
                     (trace p ++ events_of build (self p))).

(** The objects that a sequence of [get] calls leads to from [s0]; a call
    that raises counts as well. *)
Inductive after_gets {Self} (get : Z -> M Self pyval) (s0 : Self)
  : Self -> Prop :=
| after_none : after_gets get s0 s0
| after_get s idx tr :
    after_gets get s0 s ->
    after_gets get s0 (self (snd (get idx (mk_proc s tr)))).

Definition is_call (ev : event) : Prop := exists name path, ev = Call name path.

(** What the generic arguments need to know of a class: how the items of
    an index are loaded ([items]), which objects are well formed ([wf]) and
    what a stored item looks like ([shaped]). *)
Class DatasetFacts {Self : Type} `{CacheLaws Self}
  (items : Z -> M Self pyval) (wf : Self -> Prop)
  (shaped : Self -> pyval -> Prop) := {
  items_readonly : forall idx, readonly (items idx);
  items_frame_value : forall idx c s,
      value_of (items idx) (cache_update c s) = value_of (items idx) s;
  items_calls : forall idx s v,
      value_of (items idx) s = Ok v ->
      events_of (items idx) s <> [] /\ Forall is_call (events_of (items idx) s);
  items_shaped : forall idx s v, value_of (items idx) s = Ok v -> shaped s v;
  shaped_frame : forall c s v, shaped s v -> shaped (cache_update c s) v;
  shaped_sentinel : forall s, ~ shaped s (VTuple []);
  wf_frame : forall c i v s,
      wf s -> cache_slots s = Some c -> wf (cache_update (<[i := v]> c) s);
  items_coherent : forall s c idx idx' i v,
      wf s -> cache_slots s = Some c ->
      norm_index (length c) idx = Some i ->
      norm_index (length c) idx' = Some i ->
      value_of (items idx) s = Ok v -> py_len v = Ok O ->
      value_of (items idx') s = Ok v
}.

(** The invariant of the cache: a slot holds the sentinel or a stored
    item, and a stored item of length zero is the one that loading its
    index yields. *)
Definition cache_inv {Self : Type} `{Cache Self}
  (items : Z -> M Self pyval) (wf : Self -> Prop)
  (shaped : Self -> pyval -> Prop) (s : Self) : Prop :=
  wf s /\
  forall c, cache_slots s = Some c ->
  forall i w, c !! i = Some w ->
    w = VTuple [] \/
    (shaped s w /\
     (py_len w = Ok O ->
      forall idx, norm_index (length c) idx = Some i ->
                  value_of (items idx) s = Ok w)).

(** ** The shapes of an item *)

(** The item of a class with one array: the bare array, or the utterance
    id and the array. *)
Definition single_shaped (with_id : bool) (v : pyval) : Prop :=
  if with_id then exists u a, v = VTuple [VStr u; VArr a]
  else exists a, v = VArr a.

(** The item of a class with two arrays: a tuple in both cases. *)
Definition pair_shaped (with_id : bool) (v : pyval) : Prop :=
  if with_id then exists u a m, v = VTuple [VStr u; VArr a; VArr m]
  else exists a m, v = VTuple [VArr a; VArr m].

(** The item has a length other than zero. *)
Definition sized (with_id : bool) (v : pyval) : Prop :=
  with_id = true \/ exists n, py_len v = Ok (S n).

(** ** Objects made by the constructors *)

(** The objects of the classes with one array are well formed when their
    lists of ids, of files and of cache slots have one length; the classes
    with two arrays need no such condition. *)
Definition AudioDataset_wf (s : AudioDataset.t) : Prop :=
  length (AudioDataset.utt_ids s) = length (AudioDataset.audio_files s) /\
  forall c, AudioDataset.caches s = Some c ->
            length c = length (AudioDataset.audio_files s).

Definition MelDataset_wf (s : MelDataset.t) : Prop :=
  length (MelDataset.utt_ids s) = length (MelDataset.mel_files s) /\
  forall c, MelDataset.caches s = Some c ->
            length c = length (MelDataset.mel_files s).

Definition SourceVCMelDataset_wf (s : SourceVCMelDataset.t) : Prop :=
  length (SourceVCMelDataset.utt_ids s)
  = length (SourceVCMelDataset.src_mel_files s) /\
  forall c, SourceVCMelDataset.caches s = Some c ->
            length c = length (SourceVCMelDataset.src_mel_files s).

Definition AudioMelDataset_constructed (s : AudioMelDataset.t) : Prop :=
  exists fs root_dir audio_query mel_query audio_load_fn mel_load_fn
         audio_length_threshold mel_length_threshold return_utt_id allow_cache
         p p',
    AudioMelDataset.__init__ fs root_dir audio_query mel_query audio_load_fn
      mel_load_fn audio_length_threshold mel_length_threshold return_utt_id
      allow_cache p = (Ok s, p').

Definition AudioDataset_constructed (s : AudioDataset.t) : Prop :=
  exists fs root_dir audio_query audio_length_threshold audio_load_fn
         return_utt_id allow_cache p p',
    AudioDataset.__init__ fs root_dir audio_query audio_length_threshold
      audio_load_fn return_utt_id allow_cache p = (Ok s, p').

Definition MelDataset_constructed (s : MelDataset.t) : Prop :=
  exists fs root_dir mel_query mel_length_threshold mel_load_fn
         return_utt_id allow_cache p p',
    MelDataset.__init__ fs root_dir mel_query mel_length_threshold
      mel_load_fn return_utt_id allow_cache p = (Ok s, p').

Definition ParallelVCMelDataset_constructed (s : ParallelVCMelDataset.t)
  : Prop :=
  exists fs src_root_dir trg_root_dir mel_query src_load_fn trg_load_fn
         return_utt_id allow_cache p p',
    ParallelVCMelDataset.__init__ fs src_root_dir trg_root_dir mel_query
      src_load_fn trg_load_fn return_utt_id allow_cache p = (Ok s, p').

Definition SourceVCMelDataset_constructed (s : SourceVCMelDataset.t) : Prop :=
  exists fs src_root_dir mel_query mel_load_fn return_utt_id allow_cache p p',
    SourceVCMelDataset.__init__ fs src_root_dir mel_query mel_load_fn
      return_utt_id allow_cache p = (Ok s, p').

(** ** Calling [get] twice, the shape of an item, and the frame of [get] *)

(** Without the cache, a call that returns loads (it appends at least one
    call of an injected load function to the trace and nothing else), and
    the next call does the same and returns an equal value. *)
Definition get_reloads {Self} `{Cache Self} (get : Z -> M Self pyval) : Prop :=
  forall idx p v p1,
    cache_enabled (self p) = false ->
    get idx p = (Ok v, p1) ->
    exists calls,
      calls <> [] /\ Forall is_call calls /\
      p1 = mk_proc (self p) (trace p ++ calls) /\
      get idx p1 = (Ok v, mk_proc (self p) (trace p1 ++ calls)).

(** With the cache, a returned item that is [sized] is in the slot after
    the call, and the next call returns it and changes neither the object
    nor the trace: nothing is loaded. *)
Definition get_replays {Self} `{Cache Self} (get : Z -> M Self pyval)
  (sized : Self -> pyval -> Prop) : Prop :=
  forall idx p v p1,
    cache_enabled (self p) = true ->
    get idx p = (Ok v, p1) ->
    sized (self p) v ->
    (exists c1, cache_slots (self p1) = Some c1 /\ getitem c1 idx = Ok v) /\
    get idx p1 = (Ok v, p1).


(** On an object that was constructed and then used, everything but the
    cache is as the constructor left it (the two objects are equal once
    their caches are overwritten with the same list), and a call either
    leaves the object as it is or returns [v] and writes [v] to the slot
    of its index, which held the empty tuple. *)
Definition get_fills_only {Self} `{Cache Self} (constructed : Self -> Prop)
  (get : Z -> M Self pyval) : Prop :=
  forall s0 s,
    constructed s0 -> after_gets get s0 s ->
    (forall c, cache_update c s = cache_update c s0) /\
    forall idx tr,
      self (snd (get idx (mk_proc s tr))) = s \/
      (cache_enabled s = true /\
       exists c i v,
         cache_slots s = Some c /\
         norm_index (length c) idx = Some i /\
         c !! i = Some (VTuple []) /\
         fst (get idx (mk_proc s tr)) = Ok v /\
         self (snd (get idx (mk_proc s tr))) = cache_update (<[i := v]> c) s).

(** [length()] is the number of files that the constructor kept. *)
Definition len_is_fixed {Self} (constructed : Self -> Prop)
  (get : Z -> M Self pyval) (len : M Self nat) (files : Self -> nat) : Prop :=
  forall s0 s tr,
    constructed s0 -> after_gets get s0 s ->
    len (mk_proc s tr) = (Ok (files s0), mk_proc s tr).

(** ** The length filter *)

(** [load_fn(f).shape[0] > threshold], false when it cannot be computed. *)
Definition exceeds (load : load_fn) (threshold : Z) (f : string) : bool :=
  match load f with
  | Ok a =>
      match shape a with
      | n :: _ => threshold <? Z.of_nat n
      | [] => false
      end
  | Raise _ => false
  end.

(** A file passes a threshold that is [None]. *)
Definition passes (load : load_fn) (threshold : option Z) (f : string) : bool :=
  match threshold with
  | Some t => exceeds load t f
  | None => true
  end.

(** ** The parallel and the source-only dataset *)

(** The utterance ids of the files found under a root. *)
Definition ids (fs : filesystem) (root_dir mel_query : string) : gset string :=
  list_to_set (ParallelVCMelDataset.stems (walk fs root_dir mel_query)).

(** [[dataset[i] for i in range(n)]]. *)
Definition first_items (n : nat) : M SourceVCMelDataset.t (list pyval) :=
  mapM (fun i => SourceVCMelDataset.__getitem__ (Z.of_nat i)) (seq 0 n).

(** ** The decode driver *)

Section DriverVocabulary.
Import VcDecode.

(** The records that configuring the logger emits. *)
Definition logger_events (a : args) : list event :=
  if 1 <? verbose a then [LogBasicConfig "DEBUG"]
  else if 0 <? verbose a then [LogBasicConfig "INFO"]
  else [LogBasicConfig "WARN"; LogWarning (Msg "Skip DEBUG/INFO messages")].

(** The path of the configuration file. *)
Definition config_path (a : args) : string :=
  match config a with
  | None => Py.join (Py.dirname (checkpoint a)) "config.yml"
  | Some c => c
  end.

(** The records of [logging.info] about the merged configuration. *)
Definition config_events (a : args) (cfg : dict) : list event :=
  List.map (fun kv => LogInfo (Msg (fst kv +:+ " = " +:+ str_of_yval (snd kv))))
    (dict_update cfg
       (vars (mk_args (feats_scp a) (dumpdir a) (trg_stats a) (outdir a)
                      (checkpoint a) (Some (config_path a))
                      (src_feat_type a) (trg_feat_type a) (verbose a)))).

(** What [main] has done when it comes to check the flags, if nothing
    failed before. *)
Definition io_before_check (w : world) (a : args) (cfg : dict) : list event :=
  logger_events a
  ++ [PathExists (outdir a)]
  ++ (if path_exists w (outdir a) then [] else [MakeDirs (outdir a)])
  ++ [OpenYaml (config_path a)]
  ++ config_events a cfg
  ++ [ReadHdf5 (trg_stats a) "mean"; ReadHdf5 (trg_stats a) "scale"].

(** An event of the dataset: the search of a root or the load of a file. *)
Definition dataset_event (ev : event) : Prop :=
  match ev with
  | FindFiles _ _ | Call _ _ => True
  | _ => False
  end.

(** Both input flags are given, or neither. *)
Definition bad_flags (a : args) : Prop :=
  (feats_scp a <> None /\ dumpdir a <> None) \/
  (feats_scp a = None /\ dumpdir a = None).

End DriverVocabulary.

(** ** Concrete corpora *)

(** A load function that reads from a table of files. *)
Definition load_table (tbl : list (string * ndarray)) : load_fn :=
  fun path =>
    match List.find (fun kv => String.eqb (fst kv) path) tbl with
    | Some kv => Ok (snd kv)
    | None => Raise (OSError (Msg "No such file or directory"))
    end.

(** A file system with the given tree under each of the listed roots. *)
Definition roots (tbl : list (string * list entry)) : filesystem :=
  fun root =>
    match List.find (fun kv => String.eqb (fst kv) root) tbl with
    | Some kv => snd kv
    | None => []
    end.

(** Features of [t] frames and 80 channels; [tag] tells arrays apart. *)
Definition mel (t : nat) (tag : Z) : ndarray := mk_ndarray [t; 80%nat] [tag].

Definition wave (n : nat) (tag : Z) : ndarray := mk_ndarray [n] [tag].

(** A corpus of three utterances, with a stray file beside them. *)
Definition corpus : filesystem :=
  roots [("dump", [File "u3.h5"; File "u1.h5"; File "u2.h5"; File "notes.txt"])].

Definition waves : load_fn :=
  load_table [("dump/u1.h5", wave 1 1); ("dump/u2.h5", wave 50 2);
              ("dump/u3.h5", wave 80 3)].

Definition mels : load_fn :=
  load_table [("dump/u1.h5", mel 1 1); ("dump/u2.h5", mel 20 2);
              ("dump/u3.h5", mel 3 3)].

(** One feature file without a single frame, read with the cache enabled
    and without utterance ids. *)
Definition empty_mel_ds : MelDataset.t :=
  MelDataset.mk ["dump/u1-feats.npy"]
                (load_table [("dump/u1-feats.npy", mel 0 1)])
                ["u1"] false true (Some [VTuple []]).

(** One feature file of three frames, read with the cache enabled and
    without utterance ids. *)
Definition one_mel_ds : MelDataset.t :=
  MelDataset.mk ["dump/u1-feats.npy"]
                (load_table [("dump/u1-feats.npy", mel 3 1)])
                ["u1"] false true (Some [VTuple []]).

(** The file without a frame, read with the cache enabled and with
    utterance ids. *)
Definition empty_mel_ds_ids : MelDataset.t :=
  MelDataset.mk ["dump/u1-feats.npy"]
                (load_table [("dump/u1-feats.npy", mel 0 1)])
                ["u1"] true true (Some [VTuple []]).

(** One file that holds an array without dimensions, read with the cache
    enabled and without utterance ids. *)
Definition scalar_mel_ds : MelDataset.t :=
  MelDataset.mk ["dump/u1-feats.npy"]
                (load_table [("dump/u1-feats.npy", mk_ndarray [] [1])])
                ["u1"] false true (Some [VTuple []]).

(** A source root with one sub-directory per speaker session and a flat
    target root, with the same two utterances. *)
Definition nested_corpus : filesystem :=
  roots [("src", [Dir "a" [File "y-feats.npy"]; Dir "b" [File "x-feats.npy"]]);
         ("trg", [File "x-feats.npy"; File "y-feats.npy"])].

Definition nested_mels : load_fn :=
  load_table [("src/a/y-feats.npy", mel 5 1); ("src/b/x-feats.npy", mel 6 2);
              ("trg/x-feats.npy", mel 7 3); ("trg/y-feats.npy", mel 8 4)].

(** Source ids [a], [b] against target ids [a], [c]. *)
Definition mismatched_corpus : filesystem :=
  roots [("src", [File "a.npy"; File "b.npy"]);
         ("trg", [File "a.npy"; File "c.npy"])].

Definition three_feats : list entry :=
  [File "u1-feats.npy"; File "u2-feats.npy"; File "u3-feats.npy"].

(** A run of the driver with neither [--feats-scp] nor [--dumpdir]: the
    output directory does not exist yet, the configuration and the
    statistics are readable. *)
Definition bare_world : VcDecode.world :=
  VcDecode.mk_world (roots []) (fun _ => false) (fun _ => Ok tt)
    (fun _ => Ok [("model_type", VcDecode.YOther "VTN")])
    (fun _ _ => Ok (mel 1 0)).

Definition bare_args : VcDecode.args :=
  VcDecode.mk_args None None "stats.h5" "exp/out" "exp/checkpoint-100.pkl"
                   None "feats" "feats" 1.

(** ** Further vocabulary: positions, constructors that filter, the driver *)

(** The item of a class with one array. *)
Definition single_item (with_id : bool) (u : string) (a : ndarray) : pyval :=
  if with_id then VTuple [VStr u; VArr a] else VArr a.

(** The item of a class with two arrays. *)
Definition pair_item (with_id : bool) (u : string) (a m : ndarray) : pyval :=
  if with_id then VTuple [VStr u; VArr a; VArr m] else VTuple [VArr a; VArr m].

(** A parallel dataset with an utterance id per pair of files: the source
    root holds no more files than the target root. *)
Definition ParallelVCMelDataset_paired (s : ParallelVCMelDataset.t) : Prop :=
  ParallelVCMelDataset_constructed s /\
  length (ParallelVCMelDataset.utt_ids s)
  = length (ParallelVCMelDataset.mel_files s).

(** The cache is there when it is enabled, with [n] slots. *)
Definition slots_ready {Self} `{Cache Self} (n : nat) (s : Self) : Prop :=
  (cache_enabled s = true -> cache_slots s <> None) /\
  forall c, cache_slots s = Some c -> length c = n.

(** An index that denotes no position is rejected: the call raises the
    [IndexError] of a list, loads nothing and leaves the object as it is. *)
Definition get_rejects {Self} (constructed : Self -> Prop)
  (get : Z -> M Self pyval) (len : Self -> nat) : Prop :=
  forall s0 s idx tr,
    constructed s0 -> after_gets get s0 s ->
    norm_index (len s0) idx = None ->
    get idx (mk_proc s tr)
    = (Raise (IndexError (Msg "list index out of range")), mk_proc s tr).

(** Two indices that denote one position are interchangeable. *)
Definition get_by_position {Self} (constructed : Self -> Prop)
  (get : Z -> M Self pyval) (len : Self -> nat) : Prop :=
  forall s0 p idx idx' i,
    constructed s0 -> after_gets get s0 (self p) ->
    norm_index (len s0) idx = Some i -> norm_index (len s0) idx' = Some i ->
    get idx p = get idx' p.

(** Every stored item is the one that loading its index yields. *)
Definition cache_faithful {Self : Type} `{Cache Self}
  (items : Z -> M Self pyval) (good : Self -> Prop) (s : Self) : Prop :=
  good s /\
  forall c, cache_slots s = Some c ->
  forall i w, c !! i = Some w ->
    w = VTuple [] \/
    forall idx, norm_index (length c) idx = Some i ->
                value_of (items idx) s = Ok w.

(** What a call returns, whatever the cache holds, is what the part of
    [__getitem__] that loads returns on the object as constructed. *)
Definition get_is_load {Self} (constructed : Self -> Prop)
  (get items : Z -> M Self pyval) : Prop :=
  forall s0 s idx tr v p1,
    constructed s0 -> after_gets get s0 s ->
    get idx (mk_proc s tr) = (Ok v, p1) ->
    value_of (items idx) s0 = Ok v.

(** Conversely, what that part returns is what a call returns, when it has
    a length (as every value has but an array without dimensions). *)
Definition get_returns_load {Self} (constructed : Self -> Prop)
  (get items : Z -> M Self pyval) : Prop :=
  forall s0 s idx tr v n,
    constructed s0 -> after_gets get s0 s ->
    value_of (items idx) s0 = Ok v -> py_len v = Ok n ->
    fst (get idx (mk_proc s tr)) = Ok v.

(** A file that the load function turns into an array with at least one
    dimension, so that its length can be measured. *)
Definition measurable (load : load_fn) (f : string) : Prop :=
  exists a n dims, load f = Ok a /\ shape a = n :: dims.

(** What the filter of a constructor emits: a call per file and, when a
    file is dropped, the warning with the two counts. *)
Definition filter_events (name head : string) (files kept : list string)
  : list event :=
  List.map (Call name) files
  ++ (if (length files =? length kept)%nat then []
      else [LogWarning (filtered_msg head (length files) (length kept))]).

(** What one stage of the filter emits: nothing when its threshold is
    [None]. *)
Definition stage_events (name head : string) (threshold : option Z)
  (files kept : list string) : list event :=
  match threshold with
  | Some _ => filter_events name head files kept
  | None => []
  end.

Section DriverRunVocabulary.
Import VcDecode.

(** The namespace after [args.config] has been resolved. *)
Definition resolved (a : args) : args :=
  mk_args (feats_scp a) (dumpdir a) (trg_stats a) (outdir a) (checkpoint a)
          (Some (config_path a)) (src_feat_type a) (trg_feat_type a)
          (verbose a).

(** The configuration that the driver works with: the file's, updated with
    the command line, with the target statistics under [trg_stats]. *)
Definition merged_config (a : args) (cfg : dict) (mean scale : ndarray)
  : dict :=
  dict_set "trg_stats" (YStats mean scale) (dict_update cfg (vars (resolved a))).

(** [d.get(k)]. *)
Fixpoint dict_get (k : string) (d : dict) : option yval :=
  match d with
  | [] => None
  | (k', v) :: d' => if String.eqb k k' then Some v else dict_get k d'
  end.

(** The dataset that the driver decodes: the [*.h5] files under the dump
    directory, read with the source feature type as key, with utterance
    ids and without cache. *)
Definition decode_dataset (w : world) (a : args) (d : string)
  : SourceVCMelDataset.t :=
  let files := Py.sorted (walk (fs w) d "*.h5") in
  SourceVCMelDataset.mk files (fun x => read_hdf5 w x (src_feat_type a))
    (List.map (fun f => fst (Py.splitext (Py.basename f))) files)
    true false None.

(** The output directory is there or can be made, and the configuration
    file and the target statistics can be read. *)
Definition io_ok (w : world) (a : args) (cfg : dict) (mean scale : ndarray)
  : Prop :=
  (path_exists w (outdir a) = true \/ makedirs w (outdir a) = Ok tt) /\
  yaml_load w (config_path a) = Ok cfg /\
  read_hdf5 w (trg_stats a) "mean" = Ok mean /\
  read_hdf5 w (trg_stats a) "scale" = Ok scale.

End DriverRunVocabulary.

(** How the loop ends over files that are read in turn: normally after
    the last file, normally at a file whose reading raises [IndexError],
    and with the error at a file whose reading raises another error. *)
Fixpoint loop_result (load : load_fn) (files : list string) : res bool :=
  match files with
  | [] => Ok true
  | f :: files' =>
      match load f with
      | Ok _ => loop_result load files'
      | Raise (IndexError _) => Ok true
      | Raise e => Raise e
      end
  end.

(** What the loop emits: for each file in turn the call that reads it and
    what the body emits on the item [(utt_id, array)] with the number of
    the item, counted from [i + 1]; nothing after a file whose reading
    fails. *)
Fixpoint loop_events (load : load_fn) (body : nat -> pyval -> M unit unit)
  (i : nat) (files : list string) : list event :=
  match files with
  | [] => []
  | f :: files' =>
      Call "mel_load_fn" f ::
      match load f with
      | Ok x =>
          events_of
            (body (S i)
                  (VTuple [VStr (fst (Py.splitext (Py.basename f))); VArr x]))
            tt
          ++ loop_events load body (S i) files'
      | Raise _ => []
      end
  end.

(** A run of the driver on a dump directory with two feature files; the
    output directory exists. *)
Definition dump_world : VcDecode.world :=
  VcDecode.mk_world
    (roots [("dump", [File "b.h5"; File "a.h5"; File "notes.txt"])])
    (fun _ => true) (fun _ => Ok tt)
    (fun _ => Ok [("model_type", VcDecode.YOther "VTN")])
    (fun path key =>
       if String.eqb key "feats"
       then load_table [("dump/a.h5", mel 4 1); ("dump/b.h5", mel 5 2)] path
       else Ok (mel 1 0)).

Definition dump_args : VcDecode.args :=
  VcDecode.mk_args None (Some "dump") "stats.h5" "exp/out"
                   "exp/checkpoint-100.pkl" None "feats" "feats" 1.

(** A run with [--feats-scp] alone. *)
Definition scp_args : VcDecode.args :=
  VcDecode.mk_args (Some "feats.scp") None "stats.h5" "exp/out"
                   "exp/checkpoint-100.pkl" None "feats" "feats" 1.

(** A world without a configuration file. *)
Definition unconfigured_world : VcDecode.world :=
  VcDecode.mk_world (roots []) (fun _ => true) (fun _ => Ok tt)
    (fun _ => Raise (OSError (Msg "No such file or directory")))
    (fun _ _ => Ok (mel 1 0)).

(** Of the three files of [corpus], only the first can be read. *)
Definition first_only : load_fn := load_table [("dump/u1.h5", wave 1 1)].

(* ===================================================================== *)
(** * Properties *)
(* ===================================================================== *)

(** ** The Python primitives on examples *)

Example basename_nested : Py.basename "dump/spk/u1-feats.npy" = "u1-feats.npy".
Proof. reflexivity. Qed.

Example basename_plain : Py.basename "u1.h5" = "u1.h5".
Proof. reflexivity. Qed.

Example splitext_feats : Py.splitext "u1-feats.npy" = ("u1-feats", ".npy").
Proof. reflexivity. Qed.

Example splitext_dotfile : Py.splitext "d/.bashrc" = ("d/.bashrc", EmptyString).
Proof. reflexivity. Qed.

Example splitext_dir_dot : Py.splitext "a.b/c" = ("a.b/c", EmptyString).
Proof. reflexivity. Qed.

Example replace_wave : Py.replace "u1-wave.npy" "-wave.npy" EmptyString = "u1".
Proof. reflexivity. Qed.

Example replace_twice : Py.replace "abab" "ab" "c" = "cc".
Proof. reflexivity. Qed.

Example contains_npy :
  Py.contains ".npy" "*-feats.npy" = true /\ Py.contains ".npy" "*.h5" = false.
Proof. split; reflexivity. Qed.

Example fnmatch_queries :
  Py.fnmatch "u1-feats.npy" "*-feats.npy" = true /\
  Py.fnmatch "u1-wave.npy" "*-feats.npy" = false /\
  Py.fnmatch "u1.h5" "*.h5" = true /\
  Py.fnmatch "u1.h5x" "*.h5" = false.
Proof. repeat split. Qed.

Example sorted_by_code_point :
  Py.sorted ["b/x"; "a/y"; "a-b"; "a."] = ["a-b"; "a."; "a/y"; "b/x"].
Proof. reflexivity. Qed.

Example join_slash :
  Py.join "dump" "u1.h5" = "dump/u1.h5" /\
  Py.join "dump/" "u1.h5" = "dump/u1.h5" /\
  Py.join EmptyString "u1.h5" = "u1.h5".
Proof. repeat split. Qed.

Example dirname_checkpoint :
  Py.dirname "exp/checkpoint-100.pkl" = "exp" /\
  Py.dirname "checkpoint.pkl" = EmptyString /\
  Py.dirname "/a//b///c" = "/a//b".
Proof. repeat split. Qed.

Example negative_index : getitem [10; 20; 30] (-1) = Ok 30.
Proof. reflexivity. Qed.

Example index_out_of_range :
  getitem [10; 20; 30] 3
  = Raise (IndexError (Msg "list index out of range")).
Proof. reflexivity. Qed.

(** ** The monad *)

Section MonadFacts.
Context {Self : Type}.

Lemma readonly_ret {A} (a : A) : readonly (ret (Self:=Self) a).
Proof. intros [s tr]; unfold ret; simpl. rewrite app_nil_r. reflexivity. Qed.

Lemma readonly_lift {A} (r : res A) : readonly (lift (Self:=Self) r).
Proof. intros [s tr]; unfold lift; simpl. rewrite app_nil_r. reflexivity. Qed.

Lemma readonly_raise {A} (e : exn) : readonly (raise (Self:=Self) (A:=A) e).
Proof. intros [s tr]; unfold raise; simpl. rewrite app_nil_r. reflexivity. Qed.

Lemma readonly_emit (ev : event) : readonly (emit (Self:=Self) ev).
Proof. intros [s tr]; reflexivity. Qed.

Lemma readonly_get_self : readonly (get_self (Self:=Self)).
Proof. intros [s tr]; unfold get_self; simpl. rewrite app_nil_r. reflexivity. Qed.

Lemma readonly_bind {A B} (c : M Self A) (k : A -> M Self B) :
  readonly c -> (forall a, readonly (k a)) -> readonly (bind c k).
Proof.
  intros Hc Hk [s tr].
  unfold value_of, events_of, bind; simpl.
  rewrite (Hc (mk_proc s tr)), (Hc (mk_proc s [])); simpl.
  destruct (value_of c s) as [a|e]; simpl; [|reflexivity].
  rewrite (Hk a (mk_proc s (tr ++ events_of c s))).
  rewrite (Hk a (mk_proc s (events_of c s))); simpl.
  rewrite app_assoc. reflexivity.
Qed.

Lemma readonly_call name (f : load_fn) path :
  readonly (call (Self:=Self) name f path).
Proof.
  apply readonly_bind; [apply readonly_emit | intros; apply readonly_lift].
Qed.

Lemma readonly_if {A} (b : bool) (c1 c2 : M Self A) :
  readonly c1 -> readonly c2 -> readonly (if b then c1 else c2).
Proof. destruct b; auto. Qed.

Lemma readonly_mapM {A B} (f : A -> M Self B) l :
  (forall a, readonly (f a)) -> readonly (mapM f l).
Proof.
  intros Hf. induction l as [|x l IH]; simpl.
  - apply readonly_ret.
  - apply readonly_bind; [apply Hf|]. intros y.
    apply readonly_bind; [apply IH|]. intros ys. apply readonly_ret.
Qed.

Lemma readonly_filterM {A} (f : A -> M Self bool) l :
  (forall a, readonly (f a)) -> readonly (filterM f l).
Proof.
  intros Hf. induction l as [|x l IH]; simpl.
  - apply readonly_ret.
  - apply readonly_bind; [apply Hf|]. intros y.
    apply readonly_bind; [apply IH|]. intros ys. apply readonly_ret.
Qed.

Lemma readonly_assert (b : bool) m : readonly (assert (Self:=Self) b m).
Proof. destruct b; [apply readonly_ret | apply readonly_raise]. Qed.

End MonadFacts.

Create HintDb readonly.
#[export] Hint Resolve readonly_ret readonly_lift readonly_raise readonly_emit
  readonly_get_self readonly_call readonly_assert : readonly.
#[export] Hint Extern 2 (readonly (bind _ _)) =>
  apply readonly_bind; [|intros] : readonly.
#[export] Hint Extern 2 (readonly (if _ then _ else _)) =>
  apply readonly_if : readonly.
#[export] Hint Extern 2 (readonly (mapM _ _)) =>
  apply readonly_mapM; intros : readonly.
#[export] Hint Extern 2 (readonly (filterM _ _)) =>
  apply readonly_filterM; intros : readonly.
#[export] Hint Extern 3 (readonly (match ?x with _ => _ end)) =>
  destruct x : readonly.

(** ** Python indexing *)

Lemma getitem_norm {A} (l : list A) idx x :
  getitem l idx = Ok x ->
  exists i, norm_index (length l) idx = Some i /\ l !! i = Some x.
Proof.
  unfold getitem. destruct (norm_index (length l) idx) as [i|]; [|discriminate].
  destruct (l !! i) eqn:E; [|discriminate].
  intros [= ->]. eauto.
Qed.

Ltac zbool :=
  repeat match goal with
    | H : (_ && _) = true |- _ => apply andb_prop in H; destruct H
    | H : (_ && _) = false |- _ => apply andb_false_iff in H; destruct H
    | H : (_ <? _) = true |- _ => apply Z.ltb_lt in H
    | H : (_ <? _) = false |- _ => apply Z.ltb_ge in H
    | H : (_ <=? _) = true |- _ => apply Z.leb_le in H
    | H : (_ <=? _) = false |- _ => apply Z.leb_gt in H
    end.

Lemma norm_index_lt n idx i : norm_index n idx = Some i -> (i < n)%nat.
Proof.
  unfold norm_index. destruct (idx <? 0) eqn:E;
    destruct (_ && _) eqn:E2; try discriminate;
    intros [= <-]; zbool; lia.
Qed.

Lemma norm_index_of_nat n (i : nat) :
  norm_index n (Z.of_nat i) = if decide (i < n)%nat then Some i else None.
Proof.
  unfold norm_index.
  destruct (Z.of_nat i <? 0) eqn:E; [zbool; lia|].
  destruct (_ && _) eqn:E2; zbool; case_decide; try lia;
    rewrite ?Nat2Z.id; reflexivity.
Qed.

Lemma getitem_of_nat {A} (l : list A) (i : nat) :
  getitem l (Z.of_nat i) =
  match l !! i with
  | Some x => Ok x
  | None => Raise (IndexError (Msg "list index out of range"))
  end.
Proof.
  unfold getitem. rewrite norm_index_of_nat.
  case_decide as Hi.
  - reflexivity.
  - rewrite lookup_ge_None_2 by lia. reflexivity.
Qed.

Lemma setitem_getitem {A} (l : list A) idx v i :
  norm_index (length l) idx = Some i ->
  setitem l idx v = Ok (<[i := v]> l) /\
  getitem (<[i := v]> l) idx = Ok v.
Proof.
  intros Hn. unfold setitem, getitem. rewrite length_insert, Hn.
  split; [reflexivity|].
  rewrite list_lookup_insert_eq; [reflexivity|].
  eapply norm_index_lt; eauto.
Qed.

(** ** The cache protocol *)

Section CacheFacts.
Context {Self : Type} `{CacheLaws Self}.
Variable build : M Self pyval.
Hypothesis build_readonly : readonly build.

Lemma with_cache_disabled idx p :
  cache_enabled (self p) = false ->
  with_cache idx build p =
  (value_of build (self p),
   mk_proc (self p) (trace p ++ events_of build (self p))).
Proof.
  intros Hoff. destruct p as [s tr]; simpl in *.
  unfold with_cache, bind, get_self, ret; simpl. rewrite Hoff.
  rewrite (build_readonly (mk_proc s tr)); simpl.
  destruct (value_of build s); simpl; [rewrite Hoff|]; reflexivity.
Qed.

Lemma with_cache_no_attribute idx p :
  cache_enabled (self p) = true -> cache_slots (self p) = None ->
  with_cache idx build p =
  (Raise (AttributeError (Msg "object has no attribute 'caches'")), p).
Proof.
  intros Hon Hc. destruct p as [s tr]; simpl in *.
  unfold with_cache, the_caches, bind, get_self, ret, raise; simpl.
  rewrite Hon; simpl. rewrite Hc. reflexivity.
Qed.

Lemma with_cache_bad_index idx p c e :
  cache_enabled (self p) = true -> cache_slots (self p) = Some c ->
  getitem c idx = Raise e ->
  with_cache idx build p = (Raise e, p).
Proof.
  intros Hon Hc Hg. destruct p as [s tr]; simpl in *.
  unfold with_cache, the_caches, bind, get_self, ret, raise, lift; simpl.
  rewrite Hon; simpl. rewrite Hc, Hg. reflexivity.
Qed.

Lemma with_cache_unsized idx p c v e :
  cache_enabled (self p) = true -> cache_slots (self p) = Some c ->
  getitem c idx = Ok v -> py_len v = Raise e ->
  with_cache idx build p = (Raise e, p).
Proof.
  intros Hon Hc Hg Hl. destruct p as [s tr]; simpl in *.
  unfold with_cache, the_caches, bind, get_self, ret, raise, lift; simpl.
  rewrite Hon; simpl. rewrite Hc, Hg, Hl. reflexivity.
Qed.

Lemma with_cache_hit idx p c v n :
  cache_enabled (self p) = true -> cache_slots (self p) = Some c ->
  getitem c idx = Ok v -> py_len v = Ok (S n) ->
  with_cache idx build p = (Ok v, p).
Proof.
  intros Hon Hc Hg Hl. destruct p as [s tr]; simpl in *.
  unfold with_cache, the_caches, bind, get_self, ret, raise, lift; simpl.
  rewrite Hon; simpl. rewrite Hc, Hg, Hl; simpl. rewrite Hc, Hg. reflexivity.
Qed.

Lemma with_cache_miss idx p c v i :
  cache_enabled (self p) = true -> cache_slots (self p) = Some c ->
  getitem c idx = Ok v -> py_len v = Ok O ->
  norm_index (length c) idx = Some i ->
  with_cache idx build p =
  match value_of build (self p) with
  | Ok items =>
      (Ok items,
       mk_proc (cache_update (<[i := items]> c) (self p))
               (trace p ++ events_of build (self p)))
  | Raise e =>
      (Raise e, mk_proc (self p) (trace p ++ events_of build (self p)))
  end.
Proof.
  intros Hon Hc Hg Hl Hn. destruct p as [s tr]; simpl in *.
  unfold with_cache, the_caches, bind, get_self, ret, raise, lift; simpl.
  rewrite Hon; simpl. rewrite Hc, Hg, Hl; simpl.
  rewrite (build_readonly (mk_proc s tr)); simpl.
  destruct (value_of build s) as [items|e]; simpl; [|reflexivity].
  rewrite Hon; simpl. rewrite Hc.
  destruct (setitem_getitem c idx items i Hn) as [-> _]. reflexivity.
Qed.

Lemma with_cache_outcome idx p :
  outcome build idx p (with_cache idx build p).
Proof.
  destruct (cache_enabled (self p)) eqn:Hon.
  2:{ rewrite with_cache_disabled by assumption. constructor; assumption. }
  destruct (cache_slots (self p)) as [c|] eqn:Hc.
  2:{ rewrite with_cache_no_attribute by assumption.
      constructor; assumption. }
  destruct (getitem c idx) as [v|e] eqn:Hg.
  2:{ erewrite with_cache_bad_index by eassumption.
      constructor; assumption. }
  destruct (py_len v) as [[|n]|e] eqn:Hl.
  - destruct (getitem_norm _ _ _ Hg) as (i & Hn & Hi).
    erewrite with_cache_miss by eassumption.
    destruct (value_of build (self p)) eqn:Hv.
    + eapply out_miss_store; eassumption.
    + eapply out_miss_raise; eassumption.
  - erewrite with_cache_hit by eassumption.
    eapply out_hit; eassumption.
  - erewrite with_cache_unsized by eassumption.
    constructor; assumption.
Qed.

End CacheFacts.

(** ** The order of [sorted] *)

Lemma ascii_compare_refl c : Ascii.compare c c = Eq.
Proof. unfold Ascii.compare. apply N.compare_refl. Qed.

Lemma ascii_compare_lt_trans x y z :
  Ascii.compare x y = Lt -> Ascii.compare y z = Lt -> Ascii.compare x z = Lt.
Proof.
  unfold Ascii.compare. rewrite !N.compare_lt_iff. apply N.lt_trans.
Qed.

Lemma string_compare_refl s : String.compare s s = Eq.
Proof.
  induction s as [|c s IH]; simpl; [reflexivity|].
  rewrite ascii_compare_refl. exact IH.
Qed.

Lemma string_compare_app p a b :
  String.compare (p +:+ a) (p +:+ b) = String.compare a b.
Proof.
  induction p as [|c p IH]; simpl; [reflexivity|].
  rewrite ascii_compare_refl. exact IH.
Qed.

Lemma string_leb_app p a b : String.leb (p +:+ a) (p +:+ b) = String.leb a b.
Proof. unfold String.leb. rewrite string_compare_app. reflexivity. Qed.

Lemma string_compare_trans a :
  forall b c,
    String.compare a b <> Gt -> String.compare b c <> Gt ->
    String.compare a c <> Gt.
Proof.
  induction a as [|x a IH]; intros [|y b] [|z c]; simpl; try congruence.
  destruct (Ascii.compare x y) eqn:Exy; try congruence;
    destruct (Ascii.compare y z) eqn:Eyz; try congruence.
  - apply Ascii.compare_eq_iff in Exy, Eyz. subst.
    rewrite ascii_compare_refl. apply IH.
  - apply Ascii.compare_eq_iff in Exy. subst. rewrite Eyz. congruence.
  - apply Ascii.compare_eq_iff in Eyz. subst. rewrite Exy. congruence.
  - rewrite (ascii_compare_lt_trans _ _ _ Exy Eyz). congruence.
Qed.

Lemma string_leb_le a b : String.leb a b = true <-> String.compare a b <> Gt.
Proof. unfold String.leb. destruct (String.compare a b); split; congruence. Qed.

#[global] Instance str_le_trans : Transitive str_le.
Proof.
  intros a b c. unfold str_le. rewrite !string_leb_le.
  apply string_compare_trans.
Qed.

#[global] Instance str_le_antisym : AntiSymm (=) str_le.
Proof. intros a b. apply String.leb_antisym. Qed.

Lemma str_le_total a b : str_le a b \/ str_le b a.
Proof. apply String.leb_total. Qed.

Lemma insert_sorted_perm x l : Py.insert_sorted x l ≡ₚ x :: l.
Proof.
  induction l as [|y l IH]; simpl; [reflexivity|].
  destruct (String.leb x y); [reflexivity|].
  rewrite IH. apply Permutation_swap.
Qed.

Lemma sorted_perm l : Py.sorted l ≡ₚ l.
Proof.
  induction l as [|x l IH]; simpl; [reflexivity|].
  fold (Py.sorted l). rewrite insert_sorted_perm, IH. reflexivity.
Qed.

Lemma insert_sorted_Sorted x l :
  Sorted str_le l -> Sorted str_le (Py.insert_sorted x l).
Proof.
  induction 1 as [|y l Hs IH Hd]; simpl.
  - repeat constructor.
  - destruct (String.leb x y) eqn:E.
    + constructor; [constructor; assumption|]. constructor. exact E.
    + constructor; [exact IH|].
      assert (Hyx : str_le y x).
      { destruct (str_le_total x y) as [H|H]; [|exact H].
        unfold str_le in H. congruence. }
      destruct Hd as [|z l Hyz]; simpl.
      * constructor. exact Hyx.
      * destruct (String.leb x z); constructor; assumption.
Qed.

Lemma sorted_Sorted l : Sorted str_le (Py.sorted l).
Proof.
  induction l as [|x l IH]; simpl; [constructor|].
  apply insert_sorted_Sorted. exact IH.
Qed.

(** [sorted] returns the one sorted arrangement of its argument. *)
Lemma sorted_unique l l' :
  l ≡ₚ l' -> Sorted str_le l' -> Py.sorted l = l'.
Proof.
  intros Hp Hs. apply (Sorted_unique str_le); [apply sorted_Sorted|exact Hs|].
  rewrite sorted_perm. exact Hp.
Qed.

Lemma sorted_length l : length (Py.sorted l) = length l.
Proof. apply Permutation_length, sorted_perm. Qed.

Lemma sorted_nil l : Py.sorted l = [] -> l = [].
Proof.
  intros E. apply length_zero_iff_nil. rewrite <- sorted_length, E. reflexivity.
Qed.

(** ** What holds of every dataset class *)

Section DatasetGeneric.
Context {Self : Type} `{CacheLaws Self}.
Context (items : Z -> M Self pyval) (wf : Self -> Prop)
        (shaped : Self -> pyval -> Prop).
Context `{!DatasetFacts items wf shaped}.

Lemma get_outcome idx p : outcome (items idx) idx p (with_cache idx (items idx) p).
Proof. apply with_cache_outcome, items_readonly. Qed.

Lemma cache_inv_get idx p :
  cache_inv items wf shaped (self p) -> cache_inv items wf shaped (self (snd (with_cache idx (items idx) p))).
Proof.
  intros [Hwf Hinv].
  destruct (get_outcome idx p)
    as [Hoff|e Hon|c v n Hon Hc Hg Hl|c v e Hon Hc Hg Hl Hv
        |c v i its Hon Hc Hg Hl Hn Hi Hv]; simpl; try (split; assumption).
  split; [apply wf_frame; assumption|].
  intros c'. rewrite cache_update_slots. intros [= <-] j w Hj.
  rewrite length_insert.
  destruct (decide (i = j)) as [->|Hne].
  - rewrite list_lookup_insert_eq in Hj by (eapply lookup_lt_Some; eauto).
    injection Hj as <-. right. split.
    + apply shaped_frame. eapply items_shaped; eauto.
    + intros Hlen idx' Hn'. rewrite items_frame_value.
      apply (items_coherent (self p) c idx idx' j its); assumption.
  - rewrite list_lookup_insert_ne in Hj by assumption.
    destruct (Hinv c Hc j w Hj) as [->|[Hs Hz]]; [left; reflexivity|].
    right. split; [apply shaped_frame; assumption|].
    intros Hlen idx' Hn'. rewrite items_frame_value. auto.
Qed.

Lemma cache_inv_after s0 s :
  cache_inv items wf shaped s0 -> after_gets (fun idx => with_cache idx (items idx)) s0 s -> cache_inv items wf shaped s.
Proof.
  intros Hs0. induction 1 as [|s idx tr _ IH]; [assumption|].
  apply (cache_inv_get idx (mk_proc s tr)), IH.
Qed.

(** Without the cache, every call loads again and returns the same. *)
Lemma get_uncached idx p v p1 :
  cache_enabled (self p) = false ->
  with_cache idx (items idx) p = (Ok v, p1) ->
  exists calls,
    calls <> [] /\ Forall is_call calls /\
    p1 = mk_proc (self p) (trace p ++ calls) /\
    with_cache idx (items idx) p1 = (Ok v, mk_proc (self p) (trace p1 ++ calls)).
Proof.
  intros Hoff.
  rewrite (with_cache_disabled (items idx) (items_readonly idx))
    by assumption.
  intros [= Hv <-]. exists (events_of (items idx) (self p)).
  destruct (items_calls idx (self p) v Hv) as [Hne Hall].
  repeat split; try assumption.
  rewrite (with_cache_disabled (items idx) (items_readonly idx))
    by assumption.
  simpl. rewrite Hv. reflexivity.
Qed.

(** With the cache, an item of non-zero length is stored by the call that
    returns it, and the next call returns it from the slot, loading
    nothing and changing nothing. *)
Lemma get_cached idx p v p1 n :
  cache_enabled (self p) = true ->
  with_cache idx (items idx) p = (Ok v, p1) ->
  py_len v = Ok (S n) ->
  (exists c1, cache_slots (self p1) = Some c1 /\ getitem c1 idx = Ok v) /\
  with_cache idx (items idx) p1 = (Ok v, p1).
Proof.
  intros Hon Hget Hlen.
  pose proof (get_outcome idx p) as Hout. rewrite Hget in Hout.
  inversion Hout as [Hoff|e Hon' E|c w m _ Hc Hg Hl E|c w e _ Hc Hg Hl Hv E
                     |c w i its _ Hc Hg Hl Hn Hi Hv E]; subst.
  - congruence.
  - split; [eauto|].
    eapply (with_cache_hit (items idx)); eauto.
  - destruct (setitem_getitem c idx v i Hn) as [_ Hg'].
    assert (Hs : cache_slots (cache_update (<[i:=v]> c) (self p))
                 = Some (<[i:=v]> c)) by apply cache_update_slots.
    split; [eauto|].
    eapply (with_cache_hit (items idx)); simpl; eauto.
    rewrite cache_update_enabled. assumption.
Qed.


(** A call changes the object only by filling a slot that holds the
    sentinel. *)
Lemma get_frame idx p :
  cache_inv items wf shaped (self p) ->
  self (snd (with_cache idx (items idx) p)) = self p \/
  (cache_enabled (self p) = true /\
   exists c i v,
     cache_slots (self p) = Some c /\
     norm_index (length c) idx = Some i /\
     c !! i = Some (VTuple []) /\
     fst (with_cache idx (items idx) p) = Ok v /\
     self (snd (with_cache idx (items idx) p)) = cache_update (<[i := v]> c) (self p)).
Proof.
  intros [Hwf Hinv].
  destruct (get_outcome idx p)
    as [Hoff|e Hon|c v n Hon Hc Hg Hl|c v e Hon Hc Hg Hl Hv
        |c v i its Hon Hc Hg Hl Hn Hi Hv]; simpl; auto.
  destruct (Hinv c Hc i v Hi) as [->|[Hs Hz]].
  - right. split; [assumption|]. exists c, i, its. auto.
  - left. specialize (Hz Hl idx Hn). rewrite Hv in Hz. injection Hz as ->.
    rewrite list_insert_id by assumption.
    apply cache_update_same; assumption.
Qed.

(** Nothing but the cache ever changes. *)
Lemma after_gets_config s0 s :
  after_gets (fun idx => with_cache idx (items idx)) s0 s ->
  forall c, cache_update c s = cache_update c s0.
Proof.
  induction 1 as [|s idx tr _ IH]; [reflexivity|].
  intros c0.
  destruct (get_outcome idx (mk_proc s tr))
    as [Hoff|e Hon|c v n Hon Hc Hg Hl|c v e Hon Hc Hg Hl Hv
        |c v i its Hon Hc Hg Hl Hn Hi Hv]; simpl; auto.
  rewrite cache_update_update. apply IH.
Qed.

(** With the cache, a returned item comes from a slot, where its length
    is not zero, or has just been loaded. *)
Lemma get_cached_origin idx p v p1 :
  cache_enabled (self p) = true ->
  with_cache idx (items idx) p = (Ok v, p1) ->
  (exists n, py_len v = Ok (S n)) \/ shaped (self p) v.
Proof.
  intros Hon Hget.
  pose proof (get_outcome idx p) as Hout. rewrite Hget in Hout.
  inversion Hout as [Hoff|e Hon' E|c w m _ Hc Hg Hl E|c w e _ Hc Hg Hl Hv E
                     |c w i its _ Hc Hg Hl Hn Hi Hv E]; subst.
  - congruence.
  - left. eauto.
  - right. eapply items_shaped; eauto.
Qed.

Lemma cache_inv_fresh s :
  wf s ->
  (forall c i w, cache_slots s = Some c -> c !! i = Some w -> w = VTuple []) ->
  cache_inv items wf shaped s.
Proof. intros Hwf Hs. split; [assumption|]. intros c Hc i w Hi. eauto. Qed.

End DatasetGeneric.

(** ** The shapes of an item *)

Lemma single_shaped_sentinel b : ~ single_shaped b (VTuple []).
Proof. destruct b; simpl; [intros (?&?&?)|intros (?&?)]; discriminate. Qed.

Lemma pair_shaped_sentinel b : ~ pair_shaped b (VTuple []).
Proof. destruct b; simpl; [intros (?&?&?&?)|intros (?&?&?)]; discriminate. Qed.

Lemma pair_shaped_len b v : pair_shaped b v -> exists n, py_len v = Ok (S n).
Proof.
  destruct b; simpl; [intros (?&?&?&->)|intros (?&?&->)]; simpl; eauto.
Qed.

Lemma getitem_same_position {A} (l : list A) n idx idx' i :
  length l = n ->
  norm_index n idx = Some i -> norm_index n idx' = Some i ->
  getitem l idx = getitem l idx'.
Proof. intros <- H1 H2. unfold getitem. rewrite H1, H2. reflexivity. Qed.

(** Unfolds a computation that is run on a given state. *)
Ltac run :=
  unfold call, assert in *;
  unfold value_of, events_of, bind, get_self, put_self, lift, emit,
         ret, raise in *;
  simpl in *.

(** ** [MelDataset] *)

Section MelDatasetFacts.
Import MelDataset.

#[global] Instance MelDataset_cache_laws : CacheLaws t.
Proof.
  split; try reflexivity.
  intros c [] E; simpl in E; subst; reflexivity.
Qed.

Lemma MelDataset_load_items idx s :
  load_items idx (mk_proc s []) =
  match getitem (utt_ids s) idx with
  | Raise e => (Raise e, mk_proc s [])
  | Ok u =>
      match getitem (mel_files s) idx with
      | Raise e => (Raise e, mk_proc s [])
      | Ok f =>
          (match mel_load_fn s f with
           | Ok a => Ok (if return_utt_id s
                         then VTuple [VStr u; VArr a] else VArr a)
           | Raise e => Raise e
           end, mk_proc s [Call "mel_load_fn" f])
      end
  end.
Proof.
  unfold load_items. run.
  destruct (getitem (utt_ids s) idx); [|reflexivity].
  destruct (getitem (mel_files s) idx); [|reflexivity]. simpl.
  destruct (mel_load_fn s _); reflexivity.
Qed.

#[global] Instance MelDataset_facts :
  DatasetFacts load_items MelDataset_wf
               (fun s => single_shaped (return_utt_id s)).
Proof.
  split.
  - intros idx. unfold load_items. auto 10 with readonly.
  - intros idx c s. unfold value_of.
    rewrite !MelDataset_load_items. simpl.
    destruct (getitem (utt_ids s) idx); [|reflexivity].
    destruct (getitem (mel_files s) idx); reflexivity.
  - intros idx s v. unfold value_of, events_of.
    rewrite MelDataset_load_items.
    destruct (getitem (utt_ids s) idx); [|discriminate].
    destruct (getitem (mel_files s) idx); [|discriminate]. simpl.
    intros _. split; [discriminate|].
    repeat constructor. red. eauto.
  - intros idx s v. unfold value_of. rewrite MelDataset_load_items.
    destruct (getitem (utt_ids s) idx); [|discriminate].
    destruct (getitem (mel_files s) idx); [|discriminate]. simpl.
    destruct (mel_load_fn s _); [|discriminate].
    intros [= <-]. unfold single_shaped. destruct (return_utt_id s); eauto.
  - intros c s v Hs. exact Hs.
  - intros s. apply single_shaped_sentinel.
  - intros c i v s [Hu Hc] E. split; [exact Hu|].
    simpl. intros c' [= <-]. rewrite length_insert. apply Hc, E.
  - intros s c idx idx' i v [Hu Hc] E Hn Hn' Hv _.
    simpl in E. specialize (Hc c E).
    unfold value_of in *. rewrite MelDataset_load_items in *.
    rewrite <- (getitem_same_position (utt_ids s) (length c) idx idx' i)
      by congruence.
    rewrite <- (getitem_same_position (mel_files s) (length c) idx idx' i)
      by congruence.
    exact Hv.
Qed.

End MelDatasetFacts.

(** Case analysis on every [match] of the goal. *)
Ltac cases :=
  repeat match goal with
    | |- context [match ?x with _ => _ end] =>
        lazymatch x with
        | context [match _ with _ => _ end] => fail
        | _ => destruct x eqn:?; simpl in *; try discriminate
        end
    end;
  try reflexivity.

(** ** [AudioDataset] *)

Section AudioDatasetFacts.
Import AudioDataset.

#[global] Instance AudioDataset_cache_laws : CacheLaws t.
Proof.
  split; try reflexivity.
  intros c [] E; simpl in E; subst; reflexivity.
Qed.

Lemma AudioDataset_load_items idx s :
  load_items idx (mk_proc s []) =
  match getitem (utt_ids s) idx with
  | Raise e => (Raise e, mk_proc s [])
  | Ok u =>
      match getitem (audio_files s) idx with
      | Raise e => (Raise e, mk_proc s [])
      | Ok f =>
          (match audio_load_fn s f with
           | Ok a => Ok (if return_utt_id s
                         then VTuple [VStr u; VArr a] else VArr a)
           | Raise e => Raise e
           end, mk_proc s [Call "audio_load_fn" f])
      end
  end.
Proof. unfold load_items. run. cases. Qed.

#[global] Instance AudioDataset_facts :
  DatasetFacts load_items AudioDataset_wf
               (fun s => single_shaped (return_utt_id s)).
Proof.
  split.
  - intros idx. unfold load_items. auto 10 with readonly.
  - intros idx c s. unfold value_of.
    rewrite !AudioDataset_load_items. simpl. cases.
  - intros idx s v. unfold value_of, events_of.
    rewrite AudioDataset_load_items. cases; try done.
    all: intros _; split; [discriminate|repeat constructor; red; eauto].
  - intros idx s v. unfold value_of. rewrite AudioDataset_load_items.
    unfold single_shaped. cases; try done; intros [= <-]; eauto.
  - intros c s v Hs. exact Hs.
  - intros s. apply single_shaped_sentinel.
  - intros c i v s [Hu Hc] E. split; [exact Hu|].
    simpl. intros c' [= <-]. rewrite length_insert. apply Hc, E.
  - intros s c idx idx' i v [Hu Hc] E Hn Hn' Hv _.
    simpl in E. specialize (Hc c E).
    unfold value_of in *. rewrite AudioDataset_load_items in *.
    rewrite <- (getitem_same_position (utt_ids s) (length c) idx idx' i)
      by congruence.
    rewrite <- (getitem_same_position (audio_files s) (length c) idx idx' i)
      by congruence.
    exact Hv.
Qed.

End AudioDatasetFacts.

(** ** [SourceVCMelDataset] *)

Section SourceVCMelDatasetFacts.
Import SourceVCMelDataset.

#[global] Instance SourceVCMelDataset_cache_laws : CacheLaws t.
Proof.
  split; try reflexivity.
  intros c [] E; simpl in E; subst; reflexivity.
Qed.

Lemma SourceVCMelDataset_load_items idx s :
  load_items idx (mk_proc s []) =
  match getitem (utt_ids s) idx with
  | Raise e => (Raise e, mk_proc s [])
  | Ok u =>
      match getitem (src_mel_files s) idx with
      | Raise e => (Raise e, mk_proc s [])
      | Ok f =>
          (match mel_load_fn s f with
           | Ok a => Ok (if return_utt_id s
                         then VTuple [VStr u; VArr a] else VArr a)
           | Raise e => Raise e
           end, mk_proc s [Call "mel_load_fn" f])
      end
  end.
Proof. unfold load_items. run. cases. Qed.

#[global] Instance SourceVCMelDataset_facts :
  DatasetFacts load_items SourceVCMelDataset_wf
               (fun s => single_shaped (return_utt_id s)).
Proof.
  split.
  - intros idx. unfold load_items. auto 10 with readonly.
  - intros idx c s. unfold value_of.
    rewrite !SourceVCMelDataset_load_items. simpl. cases.
  - intros idx s v. unfold value_of, events_of.
    rewrite SourceVCMelDataset_load_items. cases; try done.
    all: intros _; split; [discriminate|repeat constructor; red; eauto].
  - intros idx s v. unfold value_of. rewrite SourceVCMelDataset_load_items.
    unfold single_shaped. cases; try done; intros [= <-]; eauto.
  - intros c s v Hs. exact Hs.
  - intros s. apply single_shaped_sentinel.
  - intros c i v s [Hu Hc] E. split; [exact Hu|].
    simpl. intros c' [= <-]. rewrite length_insert. apply Hc, E.
  - intros s c idx idx' i v [Hu Hc] E Hn Hn' Hv _.
    simpl in E. specialize (Hc c E).
    unfold value_of in *. rewrite SourceVCMelDataset_load_items in *.
    rewrite <- (getitem_same_position (utt_ids s) (length c) idx idx' i)
      by congruence.
    rewrite <- (getitem_same_position (src_mel_files s) (length c) idx idx' i)
      by congruence.
    exact Hv.
Qed.

End SourceVCMelDatasetFacts.

(** ** [AudioMelDataset] *)

Section AudioMelDatasetFacts.
Import AudioMelDataset.

#[global] Instance AudioMelDataset_cache_laws : CacheLaws t.
Proof.
  split; try reflexivity.
  intros c [] E; simpl in E; subst; reflexivity.
Qed.

Lemma AudioMelDataset_load_items idx s :
  load_items idx (mk_proc s []) =
  match getitem (utt_ids s) idx with
  | Raise e => (Raise e, mk_proc s [])
  | Ok u =>
      match getitem (audio_files s) idx with
      | Raise e => (Raise e, mk_proc s [])
      | Ok fa =>
          match audio_load_fn s fa with
          | Raise e => (Raise e, mk_proc s [Call "audio_load_fn" fa])
          | Ok a =>
              match getitem (mel_files s) idx with
              | Raise e => (Raise e, mk_proc s [Call "audio_load_fn" fa])
              | Ok fm =>
                  (match mel_load_fn s fm with
                   | Ok m => Ok (if return_utt_id s
                                 then VTuple [VStr u; VArr a; VArr m]
                                 else VTuple [VArr a; VArr m])
                   | Raise e => Raise e
                   end,
                   mk_proc s [Call "audio_load_fn" fa; Call "mel_load_fn" fm])
              end
          end
      end
  end.
Proof. unfold load_items. run. cases. Qed.

#[global] Instance AudioMelDataset_facts :
  DatasetFacts load_items (fun _ => True)
               (fun s => pair_shaped (return_utt_id s)).
Proof.
  split.
  - intros idx. unfold load_items. auto 10 with readonly.
  - intros idx c s. unfold value_of.
    rewrite !AudioMelDataset_load_items. simpl. cases.
  - intros idx s v. unfold value_of, events_of.
    rewrite AudioMelDataset_load_items. cases; try done.
    all: intros _; split; [discriminate|repeat constructor; red; eauto].
  - intros idx s v. unfold value_of. rewrite AudioMelDataset_load_items.
    unfold pair_shaped. cases; try done; intros [= <-]; eauto.
  - intros c s v Hs. exact Hs.
  - intros s. apply pair_shaped_sentinel.
  - trivial.
  - intros s c idx idx' i v _ _ _ _ Hv Hl. exfalso.
    revert Hv. unfold value_of. rewrite AudioMelDataset_load_items.
    cases; try done; intros [= <-]; simpl in Hl; discriminate Hl.
Qed.

End AudioMelDatasetFacts.

(** ** [ParallelVCMelDataset] *)

Section ParallelVCMelDatasetFacts.
Import ParallelVCMelDataset.

#[global] Instance ParallelVCMelDataset_cache_laws : CacheLaws t.
Proof.
  split; try reflexivity.
  intros c [] E; simpl in E; subst; reflexivity.
Qed.

Lemma ParallelVCMelDataset_load_items idx s :
  load_items idx (mk_proc s []) =
  match getitem (utt_ids s) idx with
  | Raise e => (Raise e, mk_proc s [])
  | Ok u =>
      match getitem (mel_files s) idx with
      | Raise e => (Raise e, mk_proc s [])
      | Ok fs =>
          match src_load_fn s (fst fs) with
          | Raise e => (Raise e, mk_proc s [Call "src_load_fn" (fst fs)])
          | Ok a =>
              (match trg_load_fn s (snd fs) with
               | Ok m => Ok (if return_utt_id s
                             then VTuple [VStr u; VArr a; VArr m]
                             else VTuple [VArr a; VArr m])
               | Raise e => Raise e
               end,
               mk_proc s [Call "src_load_fn" (fst fs);
                          Call "trg_load_fn" (snd fs)])
          end
      end
  end.
Proof. unfold load_items. run. cases. Qed.

#[global] Instance ParallelVCMelDataset_facts :
  DatasetFacts load_items (fun _ => True)
               (fun s => pair_shaped (return_utt_id s)).
Proof.
  split.
  - intros idx. unfold load_items. auto 10 with readonly.
  - intros idx c s. unfold value_of.
    rewrite !ParallelVCMelDataset_load_items. simpl. cases.
  - intros idx s v. unfold value_of, events_of.
    rewrite ParallelVCMelDataset_load_items. cases; try done.
    all: intros _; split; [discriminate|repeat constructor; red; eauto].
  - intros idx s v. unfold value_of. rewrite ParallelVCMelDataset_load_items.
    unfold pair_shaped. cases; try done; intros [= <-]; eauto.
  - intros c s v Hs. exact Hs.
  - intros s. apply pair_shaped_sentinel.
  - trivial.
  - intros s c idx idx' i v _ _ _ _ Hv Hl. exfalso.
    revert Hv. unfold value_of. rewrite ParallelVCMelDataset_load_items.
    cases; try done; intros [= <-]; simpl in Hl; discriminate Hl.
Qed.

End ParallelVCMelDatasetFacts.

(** ** Objects made by the constructors *)

Lemma fresh_caches_sentinel b n c i w :
  fresh_caches b n = Some c -> c !! i = Some w -> w = VTuple [].
Proof.
  unfold fresh_caches. destruct b; [|discriminate]. intros [= <-] Hi.
  apply lookup_replicate in Hi as [-> _]. reflexivity.
Qed.

Lemma fresh_caches_length b n c :
  fresh_caches b n = Some c -> length c = n.
Proof.
  unfold fresh_caches. destruct b; [|discriminate]. intros [= <-].
  apply length_replicate.
Qed.

Lemma audio_utt_ids_length q l : length (audio_utt_ids q l) = length l.
Proof. unfold audio_utt_ids. destruct (Py.contains _ _); apply length_map. Qed.

Lemma mel_utt_ids_length q l : length (mel_utt_ids q l) = length l.
Proof. unfold mel_utt_ids. destruct (Py.contains _ _); apply length_map. Qed.

(** Case analysis on every step of a computation that is run. *)
Ltac steps :=
  repeat match goal with
    | |- context [match ?x with _ => _ end] =>
        lazymatch x with
        | context [match _ with _ => _ end] => fail
        | _ => destruct x as [|] eqn:?; simpl in *; try discriminate
        end
    | |- context [let (_, _) := ?x in _] =>
        lazymatch x with
        | context [match _ with _ => _ end] => fail
        | _ => destruct x as [[|] ?] eqn:?; simpl in *; try discriminate
        end
    end;
  try done.

Ltac nat_tests :=
  repeat match goal with
    | H : negb _ = true |- _ => apply negb_true_iff in H
    | H : negb _ = false |- _ => apply negb_false_iff in H
    | H : (_ =? _)%nat = true |- _ => apply Nat.eqb_eq in H
    | H : (_ =? _)%nat = false |- _ => apply Nat.eqb_neq in H
    end.

Ltac nonempty := intros E; rewrite E in *; simpl in *; done.

(** What a successful construction returns, whatever the files are. *)

Lemma AudioMelDataset_init_inv fs root aq mq ald mld at_ mt r c p s p' :
  AudioMelDataset.__init__ fs root aq mq ald mld at_ mt r c p = (Ok s, p') ->
  exists af mf,
    s = AudioMelDataset.mk af ald mld mf (audio_utt_ids aq af) r c
                           (fresh_caches c (length af)) /\
    af <> [] /\ length af = length mf.
Proof.
  unfold AudioMelDataset.__init__, find_files. run. steps.
  all: intros [= <- <-]; eexists _, _; split; [reflexivity|]; nat_tests.
  all: split; [nonempty|assumption].
Qed.

Lemma AudioDataset_init_inv fs root aq at_ ald r c p s p' :
  AudioDataset.__init__ fs root aq at_ ald r c p = (Ok s, p') ->
  exists af,
    s = AudioDataset.mk af ald r (audio_utt_ids aq af) c
                        (fresh_caches c (length af)) /\
    af <> [].
Proof.
  unfold AudioDataset.__init__, find_files. run. steps.
  all: intros [= <- <-]; eexists; split; [reflexivity|]; nat_tests.
  all: nonempty.
Qed.

Lemma MelDataset_init_inv fs root mq mt mld r c p s p' :
  MelDataset.__init__ fs root mq mt mld r c p = (Ok s, p') ->
  exists mf,
    s = MelDataset.mk mf mld (mel_utt_ids mq mf) r c
                      (fresh_caches c (length mf)) /\
    mf <> [].
Proof.
  unfold MelDataset.__init__, find_files. run. steps.
  all: intros [= <- <-]; eexists; split; [reflexivity|]; nat_tests.
  all: nonempty.
Qed.

Lemma SourceVCMelDataset_init_inv fs root mq mld r c p s p' :
  SourceVCMelDataset.__init__ fs root mq mld r c p = (Ok s, p') ->
  s = SourceVCMelDataset.mk
        (Py.sorted (walk fs root mq)) mld
        (List.map (fun f => fst (Py.splitext (Py.basename f)))
                  (Py.sorted (walk fs root mq)))
        r c (fresh_caches c (length (Py.sorted (walk fs root mq)))) /\
  walk fs root mq <> [] /\
  p' = mk_proc tt (trace p ++ [FindFiles root mq]).
Proof.
  unfold SourceVCMelDataset.__init__, find_files. run. steps.
  intros [= <- <-]. nat_tests.
  repeat split; [nonempty | destruct p as [[] ?]; reflexivity].
Qed.

Lemma ParallelVCMelDataset_init_inv fs src trg mq sld tld r c p s p' :
  ParallelVCMelDataset.__init__ fs src trg mq sld tld r c p = (Ok s, p') ->
  let sf := Py.sorted (walk fs src mq) in
  let tf := Py.sorted (walk fs trg mq) in
  s = ParallelVCMelDataset.mk sf tf sld tld
        (Py.sorted (ParallelVCMelDataset.stems sf)) (zip sf tf) r c
        (fresh_caches c (length (zip sf tf))) /\
  sf <> [] /\ tf <> [] /\
  (list_to_set (Py.sorted (ParallelVCMelDataset.stems sf)) : gset string)
  = list_to_set (Py.sorted (ParallelVCMelDataset.stems tf)).
Proof.
  unfold ParallelVCMelDataset.__init__, find_files. run. steps.
  intros [= <- <-]. nat_tests.
  match goal with H : bool_decide _ = true |- _ =>
    apply bool_decide_eq_true in H end.
  repeat split; try assumption; nonempty.
Qed.

(** A constructor leaves a well-formed object with an empty cache. *)

Lemma AudioMelDataset_constructed_inv s :
  AudioMelDataset_constructed s ->
  cache_inv AudioMelDataset.load_items (fun _ => True)
            (fun s => pair_shaped (AudioMelDataset.return_utt_id s)) s.
Proof.
  intros (fs & root & aq & mq & ald & mld & at_ & mt & r & c & p & p' & E).
  apply AudioMelDataset_init_inv in E as (af & mf & -> & _ & _).
  apply cache_inv_fresh; [exact I|].
  simpl. intros c0 i w E. eapply fresh_caches_sentinel; eauto.
Qed.

Lemma ParallelVCMelDataset_constructed_inv s :
  ParallelVCMelDataset_constructed s ->
  cache_inv ParallelVCMelDataset.load_items (fun _ => True)
            (fun s => pair_shaped (ParallelVCMelDataset.return_utt_id s)) s.
Proof.
  intros (fs & src & trg & mq & sld & tld & r & c & p & p' & E).
  apply ParallelVCMelDataset_init_inv in E as (-> & _).
  apply cache_inv_fresh; [exact I|].
  simpl. intros c0 i w E. eapply fresh_caches_sentinel; eauto.
Qed.

Lemma AudioDataset_constructed_inv s :
  AudioDataset_constructed s ->
  cache_inv AudioDataset.load_items AudioDataset_wf
            (fun s => single_shaped (AudioDataset.return_utt_id s)) s.
Proof.
  intros (fs & root & aq & at_ & ald & r & c & p & p' & E).
  apply AudioDataset_init_inv in E as (af & -> & _).
  apply cache_inv_fresh.
  - split; simpl; [apply audio_utt_ids_length|].
    intros c0. apply fresh_caches_length.
  - simpl. intros c0 i w E. eapply fresh_caches_sentinel; eauto.
Qed.

Lemma MelDataset_constructed_inv s :
  MelDataset_constructed s ->
  cache_inv MelDataset.load_items MelDataset_wf
            (fun s => single_shaped (MelDataset.return_utt_id s)) s.
Proof.
  intros (fs & root & mq & mt & mld & r & c & p & p' & E).
  apply MelDataset_init_inv in E as (mf & -> & _).
  apply cache_inv_fresh.
  - split; simpl; [apply mel_utt_ids_length|].
    intros c0. apply fresh_caches_length.
  - simpl. intros c0 i w E. eapply fresh_caches_sentinel; eauto.
Qed.

Lemma SourceVCMelDataset_constructed_inv s :
  SourceVCMelDataset_constructed s ->
  cache_inv SourceVCMelDataset.load_items SourceVCMelDataset_wf
            (fun s => single_shaped (SourceVCMelDataset.return_utt_id s)) s.
Proof.
  intros (fs & root & mq & mld & r & c & p & p' & E).
  apply SourceVCMelDataset_init_inv in E as (-> & _).
  apply cache_inv_fresh.
  - split; simpl; [apply length_map|].
    intros c0. apply fresh_caches_length.
  - simpl. intros c0 i w E. eapply fresh_caches_sentinel; eauto.
Qed.

(** ** Calling [get] twice, the shape of an item, and the frame of [get] *)

Section DatasetClaims.
Context {Self : Type} `{CacheLaws Self}.
Context (items : Z -> M Self pyval) (wf : Self -> Prop)
        (shaped : Self -> pyval -> Prop).
Context `{!DatasetFacts items wf shaped}.
Context (constructed : Self -> Prop).
Hypothesis constructed_inv :
  forall s, constructed s -> cache_inv items wf shaped s.

Lemma facts_get_reloads :
  get_reloads (fun idx => with_cache idx (items idx)).
Proof. intros idx p v p1. apply (get_uncached items wf shaped). Qed.

Lemma facts_get_replays (good : Self -> pyval -> Prop) :
  (forall s v, good s v -> shaped s v -> exists n, py_len v = Ok (S n)) ->
  get_replays (fun idx => with_cache idx (items idx)) good.
Proof.
  intros Hgood idx p v p1 Hon Hget Hv.
  destruct (get_cached_origin items wf shaped idx p v p1 Hon Hget)
    as [[n Hn]|Hs].
  - eapply (get_cached items wf shaped); eauto.
  - destruct (Hgood _ _ Hv Hs) as [n Hn].
    eapply (get_cached items wf shaped); eauto.
Qed.


Lemma facts_get_fills_only :
  get_fills_only constructed (fun idx => with_cache idx (items idx)).
Proof.
  intros s0 s Hc Hafter. split.
  - apply (after_gets_config items wf shaped). exact Hafter.
  - intros idx tr.
    apply (get_frame items wf shaped idx (mk_proc s tr)).
    simpl. eapply (cache_inv_after items wf shaped); eauto.
Qed.

End DatasetClaims.

(* ===================================================================== *)
(** * The claims *)
(* ===================================================================== *)

(** ** C8 *)

Lemma sized_single b v :
  sized b v -> single_shaped b v -> exists n, py_len v = Ok (S n).
Proof.
  intros [->|Hn] Hs; [|exact Hn].
  destruct Hs as (u & a & ->). simpl. eauto.
Qed.

(** C8, where the code departs from it.  The cache is read with the test
    [len(self.caches[idx]) != 0], which takes a stored array of length
    zero for the empty tuple that marks a free slot.  On a [MelDataset]
    made by its constructor with [allow_cache=True] and
    [return_utt_id=False] over one file that holds an array of shape
    (0, 80), the first [get(0)] loads the file and stores the array, and
    the second [get(0)] calls the load function again, where the claim has
    it return what the first call stored.  With [return_utt_id=True] the
    same file is stored as the tuple [(utt_id, array)] and the second call
    returns it without loading.  On a stored array without dimensions the
    test itself fails: the second call raises [TypeError] and loads
    nothing.
    Elsewhere the five classes do what the claim says, for every index:
    with caching disabled, a call of [get] that returns has invoked the
    injected load function, and the next call invokes it again and
    returns an equal value; with caching enabled, a call that returns an
    item of non-zero length leaves it in the slot of the index, and the
    next call returns that stored value without invoking the load function
    and without changing the object.  The items of the two-array classes
    and the items with an utterance id always have non-zero length; a bare
    array has it when its first dimension is not zero. *)
Theorem C8_get_twice :
  (let f := "dump/u1-feats.npy" in
   let fs := roots [("dump", [File "u1-feats.npy"])] in
   let first := MelDataset.__getitem__ 0 (mk_proc empty_mel_ds []) in
   let second := MelDataset.__getitem__ 0 (snd first) in
   new (MelDataset.__init__ fs "dump" "*-feats.npy" None
          (MelDataset.mel_load_fn empty_mel_ds) false true)
   = (Ok empty_mel_ds, [FindFiles "dump" "*-feats.npy"]) /\
   first = (Ok (VArr (mel 0 1)),
            mk_proc (MelDataset.set_caches [VArr (mel 0 1)] empty_mel_ds)
                    [Call "mel_load_fn" f]) /\
   second = (Ok (VArr (mel 0 1)),
             mk_proc (self (snd first))
                     [Call "mel_load_fn" f; Call "mel_load_fn" f])) /\
  (let f := "dump/u1-feats.npy" in
   let fs := roots [("dump", [File "u1-feats.npy"])] in
   let item := VTuple [VStr "u1"; VArr (mel 0 1)] in
   let first := MelDataset.__getitem__ 0 (mk_proc empty_mel_ds_ids []) in
   let second := MelDataset.__getitem__ 0 (snd first) in
   new (MelDataset.__init__ fs "dump" "*-feats.npy" None
          (MelDataset.mel_load_fn empty_mel_ds_ids) true true)
   = (Ok empty_mel_ds_ids, [FindFiles "dump" "*-feats.npy"]) /\
   first = (Ok item,
            mk_proc (MelDataset.set_caches [item] empty_mel_ds_ids)
                    [Call "mel_load_fn" f]) /\
   second = (Ok item, snd first)) /\
  (let f := "dump/u1-feats.npy" in
   let fs := roots [("dump", [File "u1-feats.npy"])] in
   let first := MelDataset.__getitem__ 0 (mk_proc scalar_mel_ds []) in
   let second := MelDataset.__getitem__ 0 (snd first) in
   new (MelDataset.__init__ fs "dump" "*-feats.npy" None
          (MelDataset.mel_load_fn scalar_mel_ds) false true)
   = (Ok scalar_mel_ds, [FindFiles "dump" "*-feats.npy"]) /\
   first = (Ok (VArr (mk_ndarray [] [1])),
            mk_proc (MelDataset.set_caches [VArr (mk_ndarray [] [1])]
                                           scalar_mel_ds)
                    [Call "mel_load_fn" f]) /\
   second = (Raise (TypeError (Msg "len() of unsized object")), snd first)) /\
  (get_reloads AudioMelDataset.__getitem__ /\
   get_replays AudioMelDataset.__getitem__ (fun _ _ => True)) /\
  (get_reloads AudioDataset.__getitem__ /\
   get_replays AudioDataset.__getitem__
     (fun s => sized (AudioDataset.return_utt_id s))) /\
  (get_reloads MelDataset.__getitem__ /\
   get_replays MelDataset.__getitem__
     (fun s => sized (MelDataset.return_utt_id s))) /\
  (get_reloads ParallelVCMelDataset.__getitem__ /\
   get_replays ParallelVCMelDataset.__getitem__ (fun _ _ => True)) /\
  (get_reloads SourceVCMelDataset.__getitem__ /\
   get_replays SourceVCMelDataset.__getitem__
     (fun s => sized (SourceVCMelDataset.return_utt_id s))).
Proof.
  split; [vm_compute; repeat split|].
  split; [vm_compute; repeat split|].
  split; [vm_compute; repeat split|].
  split; [|split; [|split; [|split]]]; split.
  - exact (facts_get_reloads AudioMelDataset.load_items _ _).
  - apply (facts_get_replays AudioMelDataset.load_items _ _).
    intros s v _. apply pair_shaped_len.
  - exact (facts_get_reloads AudioDataset.load_items _ _).
  - apply (facts_get_replays AudioDataset.load_items _ _).
    intros s v. apply sized_single.
  - exact (facts_get_reloads MelDataset.load_items _ _).
  - apply (facts_get_replays MelDataset.load_items _ _).
    intros s v. apply sized_single.
  - exact (facts_get_reloads ParallelVCMelDataset.load_items _ _).
  - apply (facts_get_replays ParallelVCMelDataset.load_items _ _).
    intros s v _. apply pair_shaped_len.
  - exact (facts_get_reloads SourceVCMelDataset.load_items _ _).
  - apply (facts_get_replays SourceVCMelDataset.load_items _ _).
    intros s v. apply sized_single.
Qed.

Lemma one_mel_ds_constructed : MelDataset_constructed one_mel_ds.
Proof.
  exists (roots [("dump", [File "u1-feats.npy"])]), "dump", "*-feats.npy",
         None, (load_table [("dump/u1-feats.npy", mel 3 1)]), false, true,
         (mk_proc tt []), (mk_proc tt [FindFiles "dump" "*-feats.npy"]).
  vm_compute. reflexivity.
Qed.

(** C8 where the cache works: the second call on [one_mel_ds], whose file
    holds three frames, returns the stored array and leaves the trace of
    the first call as it is. *)
Lemma C8_witness :
  let p := mk_proc one_mel_ds [] in
  let v := VArr (mel 3 1) in
  let p1 := snd (MelDataset.__getitem__ 0 p) in
  cache_enabled (self p) = true /\
  MelDataset.__getitem__ 0 p = (Ok v, p1) /\
  sized (MelDataset.return_utt_id (self p)) v /\
  ((exists c1, cache_slots (self p1) = Some c1 /\ getitem c1 0 = Ok v) /\
   MelDataset.__getitem__ 0 p1 = (Ok v, p1)).
Proof.
  intros p v p1.
  assert (H1 : cache_enabled (self p) = true) by reflexivity.
  assert (H2 : MelDataset.__getitem__ 0 p = (Ok v, p1))
    by (vm_compute; reflexivity).
  assert (H3 : sized (MelDataset.return_utt_id (self p)) v)
    by (right; exists 2%nat; reflexivity).
  split; [exact H1|]. split; [exact H2|]. split; [exact H3|].
  exact (proj2 (proj1 (proj2 (proj2 (proj2 (proj2 (proj2 C8_get_twice))))))
           0 p v p1 H1 H2 H3).
Defined.

(** ** C9 *)




(** ** C10 *)

(** C10: for each of the five dataset classes, on a dataset that was
    constructed and then subjected to any sequence of [get] calls: the
    file lists, the utterance ids, the load functions and the flags are
    those that the constructor set; a further [get(i)] either leaves the
    object as it is or, with caching enabled and the empty tuple in slot
    [i], writes the item that it returns into slot [i] and changes nothing
    else; and [length()] returns the number of files fixed at
    construction. *)
Theorem C10_get_frame :
  (get_fills_only AudioMelDataset_constructed AudioMelDataset.__getitem__ /\
   len_is_fixed AudioMelDataset_constructed AudioMelDataset.__getitem__
     AudioMelDataset.__len__
     (fun s0 => length (AudioMelDataset.audio_files s0))) /\
  (get_fills_only AudioDataset_constructed AudioDataset.__getitem__ /\
   len_is_fixed AudioDataset_constructed AudioDataset.__getitem__
     AudioDataset.__len__
     (fun s0 => length (AudioDataset.audio_files s0))) /\
  (get_fills_only MelDataset_constructed MelDataset.__getitem__ /\
   len_is_fixed MelDataset_constructed MelDataset.__getitem__
     MelDataset.__len__
     (fun s0 => length (MelDataset.mel_files s0))) /\
  (get_fills_only ParallelVCMelDataset_constructed
     ParallelVCMelDataset.__getitem__ /\
   len_is_fixed ParallelVCMelDataset_constructed
     ParallelVCMelDataset.__getitem__ ParallelVCMelDataset.__len__
     (fun s0 => length (ParallelVCMelDataset.mel_files s0))) /\
  (get_fills_only SourceVCMelDataset_constructed
     SourceVCMelDataset.__getitem__ /\
   len_is_fixed SourceVCMelDataset_constructed
     SourceVCMelDataset.__getitem__ SourceVCMelDataset.__len__
     (fun s0 => length (SourceVCMelDataset.src_mel_files s0))).
Proof.
  split; [|split; [|split; [|split]]]; split.
  - exact (facts_get_fills_only AudioMelDataset.load_items _ _ _
             AudioMelDataset_constructed_inv).
  - intros s0 s tr _ Hafter.
    apply (after_gets_config AudioMelDataset.load_items _ _) with (c := [])
      in Hafter.
    apply (f_equal AudioMelDataset.audio_files) in Hafter. simpl in Hafter.
    unfold AudioMelDataset.__len__. run. rewrite Hafter. reflexivity.
  - exact (facts_get_fills_only AudioDataset.load_items _ _ _
             AudioDataset_constructed_inv).
  - intros s0 s tr _ Hafter.
    apply (after_gets_config AudioDataset.load_items _ _) with (c := [])
      in Hafter.
    apply (f_equal AudioDataset.audio_files) in Hafter. simpl in Hafter.
    unfold AudioDataset.__len__. run. rewrite Hafter. reflexivity.
  - exact (facts_get_fills_only MelDataset.load_items _ _ _
             MelDataset_constructed_inv).
  - intros s0 s tr _ Hafter.
    apply (after_gets_config MelDataset.load_items _ _) with (c := [])
      in Hafter.
    apply (f_equal MelDataset.mel_files) in Hafter. simpl in Hafter.
    unfold MelDataset.__len__. run. rewrite Hafter. reflexivity.
  - exact (facts_get_fills_only ParallelVCMelDataset.load_items _ _ _
             ParallelVCMelDataset_constructed_inv).
  - intros s0 s tr _ Hafter.
    apply (after_gets_config ParallelVCMelDataset.load_items _ _) with (c := [])
      in Hafter.
    apply (f_equal ParallelVCMelDataset.mel_files) in Hafter. simpl in Hafter.
    unfold ParallelVCMelDataset.__len__. run. rewrite Hafter. reflexivity.
  - exact (facts_get_fills_only SourceVCMelDataset.load_items _ _ _
             SourceVCMelDataset_constructed_inv).
  - intros s0 s tr _ Hafter.
    apply (after_gets_config SourceVCMelDataset.load_items _ _) with (c := [])
      in Hafter.
    apply (f_equal SourceVCMelDataset.src_mel_files) in Hafter.
    simpl in Hafter.
    unfold SourceVCMelDataset.__len__. run. rewrite Hafter. reflexivity.
Qed.

(** ** The length filter: the files of a constructed dataset *)

Section FilterFacts.
Context {Self : Type}.

Lemma lengths_of_ok name load files (p p' : proc Self) lens :
  lengths_of name load files p = (Ok lens, p') ->
  Forall2 (fun f n => forall t, exceeds load t f = (t <? Z.of_nat n)) files lens.
Proof.
  unfold lengths_of. revert p p' lens.
  induction files as [|f files IH]; intros p p' lens; simpl.
  - unfold ret. intros [= <- <-]. constructor.
  - run. destruct (load f) as [a|e] eqn:El; [|discriminate].
    destruct (shape0 a) as [n|e] eqn:Es; [|discriminate].
    match goal with
    | |- context [mapM ?g files ?q] =>
        destruct (mapM g files q) as [[lens'|e] p''] eqn:Em;
        [|discriminate]
    end.
    intros [= <- <-]. constructor; [|eapply IH; exact Em].
    intros t. unfold exceeds. rewrite El.
    unfold shape0 in Es. destruct (shape a); [discriminate|].
    injection Es as ->. reflexivity.
Qed.

Lemma keep_idxs_seq lens threshold k m (p : proc Self) :
  (k + m <= length lens)%nat ->
  filterM (fun idx => x <- lift (getitem lens (Z.of_nat idx)) ;;
                      ret (threshold <? Z.of_nat x)) (seq k m) p =
  (Ok (List.filter
         (fun i => match lens !! i with
                   | Some x => threshold <? Z.of_nat x
                   | None => false
                   end) (seq k m)), p).
Proof.
  revert k. induction m as [|m IH]; intros k Hk; simpl; [reflexivity|].
  run. rewrite getitem_of_nat.
  destruct (lens !! k) as [x|] eqn:E.
  2:{ apply lookup_ge_None in E. lia. }
  simpl. rewrite IH by lia. destruct (threshold <? Z.of_nat x); reflexivity.
Qed.

Lemma keep_idxs_ok n lens threshold (p : proc Self) :
  (n <= length lens)%nat ->
  keep_idxs n lens threshold p =
  (Ok (List.filter
         (fun i => match lens !! i with
                   | Some x => threshold <? Z.of_nat x
                   | None => false
                   end) (seq 0 n)), p).
Proof. intros. apply keep_idxs_seq. lia. Qed.

Lemma select_ok (files : list string) idxs (p p' : proc Self) r :
  select files idxs p = (Ok r, p') ->
  p' = p /\ Forall2 (fun i f => files !! i = Some f) idxs r.
Proof.
  unfold select. revert p p' r.
  induction idxs as [|i idxs IH]; intros p p' r; simpl.
  - unfold ret. intros [= <- <-]. split; constructor.
  - run. rewrite getitem_of_nat.
    destruct (files !! i) as [f|] eqn:E; [|discriminate].
    match goal with
    | |- context [mapM ?g idxs ?q] =>
        destruct (mapM g idxs q) as [[r'|e] p''] eqn:Em; [|discriminate]
    end.
    intros [= <- <-]. destruct (IH _ _ _ Em) as [-> HF].
    split; [reflexivity|]. constructor; assumption.
Qed.

End FilterFacts.

(** Reading two lists at the retained indices of the first is filtering
    the pairs of the two lists. *)
Lemma picked_pairs {A B} (q : A -> bool) (X : list A) :
  forall (Y : list B) (Q : nat -> bool) X' Y',
    (forall i x, X !! i = Some x -> Q i = q x) ->
    Forall2 (fun i f => X !! i = Some f)
            (List.filter Q (seq 0 (length X))) X' ->
    Forall2 (fun i f => Y !! i = Some f)
            (List.filter Q (seq 0 (length X))) Y' ->
    X' = (List.filter (fun xy => q (fst xy)) (zip X Y)).*1 /\
    Y' = (List.filter (fun xy => q (fst xy)) (zip X Y)).*2.
Proof.
  induction X as [|x X IH]; intros Y Q X' Y' HQ HX HY; simpl in *.
  - inversion HX; inversion HY; subst. split; reflexivity.
  - rewrite <- seq_shift in HX, HY.
    rewrite (HQ O x eq_refl) in HX, HY.
    assert (Hf : List.filter Q (List.map S (seq 0 (length X))) =
                 List.map S (List.filter (fun i => Q (S i)) (seq 0 (length X)))).
    { generalize (seq 0 (length X)). intros l.
      induction l as [|i l IHl]; simpl; [reflexivity|].
      destruct (Q (S i)); simpl; rewrite IHl; reflexivity. }
    rewrite Hf in HX, HY.
    assert (HQ' : forall i x0, X !! i = Some x0 -> Q (S i) = q x0)
      by (intros i x0 Hi; apply (HQ (S i)); exact Hi).
    destruct (q x) eqn:Eq.
    + inversion HX as [|? x' ? X0' Hx0 HX0]; subst.
      inversion HY as [|? y' ? Y0' Hy0 HY0]; subst.
      simpl in Hx0. injection Hx0 as <-.
      destruct Y as [|y Y]; [discriminate|]. simpl in Hy0.
      injection Hy0 as <-.
      apply Forall2_fmap_l in HX0, HY0.
      destruct (IH Y _ _ _ HQ' HX0 HY0) as [-> ->].
      simpl. rewrite Eq. split; reflexivity.
    + apply Forall2_fmap_l in HX, HY.
      destruct Y as [|y Y].
      * simpl.
        remember (List.filter (fun i => Q (S i)) (seq 0 (length X))) as idxs0.
        destruct HY as [|i y l Yr Hy0 _]; [|discriminate Hy0].
        inversion HX. split; reflexivity.
      * destruct (IH Y _ _ _ HQ' HX HY) as [-> ->].
        simpl. rewrite Eq. split; reflexivity.
Qed.

Lemma filter_stage {Self} name load (X Y : list string) threshold
  lens idxs X' Y' (p p1 p2 p3 p4 p5 p6 p7 : proc Self) :
  lengths_of name load X p = (Ok lens, p1) ->
  keep_idxs (length X) lens threshold p2 = (Ok idxs, p3) ->
  select X idxs p4 = (Ok X', p5) ->
  select Y idxs p6 = (Ok Y', p7) ->
  X' = (List.filter (fun xy => exceeds load threshold (fst xy)) (zip X Y)).*1 /\
  Y' = (List.filter (fun xy => exceeds load threshold (fst xy)) (zip X Y)).*2.
Proof.
  intros Hl Hk HX HY.
  apply lengths_of_ok in Hl.
  pose proof (Forall2_length _ _ _ Hl) as Hlen.
  rewrite keep_idxs_ok in Hk by lia. injection Hk as <- _.
  apply select_ok in HX as [_ HX]. apply select_ok in HY as [_ HY].
  eapply picked_pairs; [|exact HX|exact HY].
  intros i x Hi. simpl.
  destruct (Forall2_lookup_l _ _ _ _ _ Hl Hi) as (n & -> & Hn).
  symmetry. apply Hn.
Qed.

Lemma filter_zip_diag {A} (q : A -> bool) (X : list A) :
  (List.filter (fun xy => q (fst xy)) (zip X X)).*1 = List.filter q X.
Proof.
  induction X as [|x X IH]; simpl; [reflexivity|].
  destruct (q x); simpl; [f_equal|]; exact IH.
Qed.

Lemma filter_zip_swap {A B} (q : B -> bool) (X : list A) (Y : list B) :
  (List.filter (fun yx => q (fst yx)) (zip Y X)).*1 =
  (List.filter (fun xy => q (snd xy)) (zip X Y)).*2 /\
  (List.filter (fun yx => q (fst yx)) (zip Y X)).*2 =
  (List.filter (fun xy => q (snd xy)) (zip X Y)).*1.
Proof.
  revert Y. induction X as [|x X IH]; intros [|y Y]; simpl; try (split; reflexivity).
  destruct (IH Y) as [E1 E2].
  destruct (q y); simpl; (split; [|]); try f_equal; assumption.
Qed.

Lemma filter_filter {A} (f g : A -> bool) (l : list A) :
  List.filter g (List.filter f l) = List.filter (fun x => f x && g x) l.
Proof.
  induction l as [|x l IH]; simpl; [reflexivity|].
  destruct (f x); simpl; [destruct (g x)|]; rewrite IH; reflexivity.
Qed.

Lemma filter_true {A} (l : list A) : List.filter (fun _ => true) l = l.
Proof. induction l; simpl; congruence. Qed.

Lemma MelDataset_init_files fs root mq mt mld r c p s p' :
  MelDataset.__init__ fs root mq mt mld r c p = (Ok s, p') ->
  MelDataset.mel_files s =
  List.filter (passes mld mt) (Py.sorted (walk fs root mq)).
Proof.
  unfold MelDataset.__init__, find_files. run. steps.
  all: intros [= <- <-]; simpl.
  3: symmetry; apply filter_true.
  all: rewrite <- filter_zip_diag.
  all: eapply proj1, filter_stage; eauto.
Qed.

Lemma AudioDataset_init_files fs root aq at_ ald r c p s p' :
  AudioDataset.__init__ fs root aq at_ ald r c p = (Ok s, p') ->
  AudioDataset.audio_files s =
  List.filter (passes ald at_) (Py.sorted (walk fs root aq)).
Proof.
  unfold AudioDataset.__init__, find_files. run. steps.
  all: intros [= <- <-]; simpl.
  2: symmetry; apply filter_true.
  all: rewrite <- filter_zip_diag.
  all: eapply proj1, filter_stage; eauto.
Qed.

(** The second filter of [AudioMelDataset] measures the second list. *)
Lemma filter_stage_snd {Self} name load (X Y : list string) threshold
  lens idxs X' Y' (p p1 p2 p3 p4 p5 p6 p7 : proc Self) :
  lengths_of name load Y p = (Ok lens, p1) ->
  keep_idxs (length Y) lens threshold p2 = (Ok idxs, p3) ->
  select X idxs p4 = (Ok X', p5) ->
  select Y idxs p6 = (Ok Y', p7) ->
  X' = (List.filter (fun xy => exceeds load threshold (snd xy)) (zip X Y)).*1 /\
  Y' = (List.filter (fun xy => exceeds load threshold (snd xy)) (zip X Y)).*2.
Proof.
  intros Hl Hk HX HY.
  destruct (filter_stage _ _ _ _ _ _ _ _ _ _ _ _ _ _ _ _ _ Hl Hk HY HX)
    as [-> ->].
  destruct (filter_zip_swap (exceeds load threshold) X Y) as [E1 E2].
  split; assumption.
Qed.

Lemma AudioMelDataset_init_files fs root aq mq ald mld at_ mt r c p s p' :
  AudioMelDataset.__init__ fs root aq mq ald mld at_ mt r c p = (Ok s, p') ->
  let kept :=
    List.filter (fun am => passes ald at_ (fst am) && passes mld mt (snd am))
                (zip (Py.sorted (walk fs root aq)) (Py.sorted (walk fs root mq)))
  in
  AudioMelDataset.audio_files s = kept.*1 /\
  AudioMelDataset.mel_files s = kept.*2.
Proof.
  intros Hinit kept. subst kept. revert Hinit.
  destruct at_ as [ta|], mt as [tm|];
    unfold AudioMelDataset.__init__, find_files; run; steps;
    intros [= <- <-]; simpl.
  all: repeat match goal with
         | H1 : lengths_of "audio_load_fn" _ ?X _ = (Ok ?lens, _),
           H2 : keep_idxs _ ?lens _ _ = (Ok ?idxs, _),
           H3 : select ?X ?idxs _ = (Ok _, _),
           H4 : select ?Y ?idxs _ = (Ok _, _) |- _ =>
             lazymatch Y with
             | X => fail
             | _ =>
                 destruct (filter_stage _ _ _ _ _ _ _ _ _ _ _ _ _ _ _ _ _
                             H1 H2 H3 H4) as [? ?];
                 clear H1 H2 H3 H4; subst
             end
         | H1 : lengths_of "mel_load_fn" _ ?Y _ = (Ok ?lens, _),
           H2 : keep_idxs _ ?lens _ _ = (Ok ?idxs, _),
           H3 : select ?X ?idxs _ = (Ok _, _),
           H4 : select ?Y ?idxs _ = (Ok _, _) |- _ =>
             lazymatch X with
             | Y => fail
             | _ =>
                 destruct (filter_stage_snd _ _ _ _ _ _ _ _ _ _ _ _ _ _ _ _ _
                             H1 H2 H3 H4) as [? ?];
                 clear H1 H2 H3 H4; subst
             end
         end.
  all: rewrite ?zip_fst_snd, ?filter_filter.
  all: try (split; reflexivity).
  all: nat_tests.
  1, 2: rewrite (List.filter_ext
                   (fun am : string * string => exceeds ald ta (fst am) && true)
                   (fun xy => exceeds ald ta (fst xy)))
          by (intros; apply andb_true_r);
        split; reflexivity.
  rewrite filter_true, fst_zip, snd_zip by lia. split; reflexivity.
Qed.

(** ** C5 and C6: the audio-only dataset when files are filtered *)

(** With no matching file, every constructor fails on its assertion, with
    a message that names the root, after nothing but the search. *)
Lemma empty_corpus_is_fatal fs root :
  (forall aq mq ald mld at_ mt r c,
      walk fs root aq = [] -> walk fs root mq = [] ->
      new (AudioMelDataset.__init__ fs root aq mq ald mld at_ mt r c)
      = (Raise (AssertionError (not_found_msg "audio" root)),
         [FindFiles root aq; FindFiles root mq])) /\
  (forall aq at_ ald r c,
      walk fs root aq = [] ->
      new (AudioDataset.__init__ fs root aq at_ ald r c)
      = (Raise (AssertionError (not_found_msg "audio" root)),
         [FindFiles root aq])) /\
  (forall mq mt mld r c,
      walk fs root mq = [] ->
      new (MelDataset.__init__ fs root mq mt mld r c)
      = (Raise (AssertionError (not_found_msg "mel" root)),
         [FindFiles root mq])) /\
  (forall trg mq sld tld r c,
      walk fs root mq = [] ->
      new (ParallelVCMelDataset.__init__ fs root trg mq sld tld r c)
      = (Raise (AssertionError (not_found_msg "mel" root)),
         [FindFiles root mq; FindFiles trg mq])) /\
  (forall src mq sld tld r c,
      walk fs src mq <> [] -> walk fs root mq = [] ->
      new (ParallelVCMelDataset.__init__ fs src root mq sld tld r c)
      = (Raise (AssertionError (not_found_msg "mel" root)),
         [FindFiles src mq; FindFiles root mq])) /\
  (forall mq mld r c,
      walk fs root mq = [] ->
      new (SourceVCMelDataset.__init__ fs root mq mld r c)
      = (Raise (AssertionError (not_found_msg "mel" root)),
         [FindFiles root mq])).
Proof.
  repeat split.
  - intros aq mq ald mld at_ mt r c Ha Hm.
    unfold new, AudioMelDataset.__init__, find_files. run.
    rewrite Ha, Hm. destruct at_, mt; reflexivity.
  - intros aq at_ ald r c Ha.
    unfold new, AudioDataset.__init__, find_files. run.
    rewrite Ha. destruct at_; reflexivity.
  - intros mq mt mld r c Hm.
    unfold new, MelDataset.__init__, find_files. run.
    rewrite Hm. destruct mt; reflexivity.
  - intros trg mq sld tld r c Hm.
    unfold new, ParallelVCMelDataset.__init__, find_files. run.
    rewrite Hm. reflexivity.
  - intros src mq sld tld r c Hs Hm.
    unfold new, ParallelVCMelDataset.__init__, find_files. run.
    rewrite Hm. simpl.
    destruct (Py.sorted (walk fs src mq)) eqn:E; [|reflexivity].
    apply sorted_nil in E. contradiction.
  - intros mq mld r c Hm.
    unfold new, SourceVCMelDataset.__init__, find_files. run.
    rewrite Hm. reflexivity.
Qed.

(** C5, where the code departs from it: the constructor of [AudioDataset]
    over a root whose three files are all shorter than the threshold
    raises [AttributeError] (the misspelt [logging.waning]), an error that
    does not name the root, before it reaches the assertion on the number
    of files; on the same corpus the constructors of [MelDataset] and of
    [AudioMelDataset] warn and then fail on the assertion, with the
    message that names the root. *)
Theorem C5_audio_filter_removes_all :
  new (AudioDataset.__init__ corpus "dump" "*.h5" (Some 100) waves false false)
  = (Raise (AttributeError (Msg "module 'logging' has no attribute 'waning'")),
     [FindFiles "dump" "*.h5";
      Call "audio_load_fn" "dump/u1.h5"; Call "audio_load_fn" "dump/u2.h5";
      Call "audio_load_fn" "dump/u3.h5"]) /\
  new (MelDataset.__init__ corpus "dump" "*.h5" (Some 100) waves false false)
  = (Raise (AssertionError (Msg "Not found any mel files in $dump.")),
     [FindFiles "dump" "*.h5";
      Call "mel_load_fn" "dump/u1.h5"; Call "mel_load_fn" "dump/u2.h5";
      Call "mel_load_fn" "dump/u3.h5";
      LogWarning
        (Msg "Some files are filtered by mel length threshold (3 -> 0).")]) /\
  new (AudioMelDataset.__init__ corpus "dump" "*.h5" "*.h5" waves mels
         (Some 100) None false false)
  = (Raise (AssertionError (Msg "Not found any audio files in $dump.")),
     [FindFiles "dump" "*.h5"; FindFiles "dump" "*.h5";
      Call "audio_load_fn" "dump/u1.h5"; Call "audio_load_fn" "dump/u2.h5";
      Call "audio_load_fn" "dump/u3.h5";
      LogWarning
        (Msg "Some files are filtered by audio length threshold (3 -> 0).")]).
Proof. repeat split; vm_compute; reflexivity. Qed.

(** C6, where the code departs from it: the constructor of [AudioDataset]
    over three files of which one is shorter than the threshold emits no
    warning and does not complete; it raises [AttributeError] (the misspelt
    [logging.waning]).  On the same corpus the constructor of [MelDataset]
    emits the warning with the counts and returns the dataset of the two
    files that are left. *)
Theorem C6_audio_warning_raises :
  new (AudioDataset.__init__ corpus "dump" "*.h5" (Some 10) waves false false)
  = (Raise (AttributeError (Msg "module 'logging' has no attribute 'waning'")),
     [FindFiles "dump" "*.h5";
      Call "audio_load_fn" "dump/u1.h5"; Call "audio_load_fn" "dump/u2.h5";
      Call "audio_load_fn" "dump/u3.h5"]) /\
  new (MelDataset.__init__ corpus "dump" "*.h5" (Some 10) waves false false)
  = (Ok (MelDataset.mk ["dump/u2.h5"; "dump/u3.h5"] waves ["u2"; "u3"]
                       false false None),
     [FindFiles "dump" "*.h5";
      Call "mel_load_fn" "dump/u1.h5"; Call "mel_load_fn" "dump/u2.h5";
      Call "mel_load_fn" "dump/u3.h5";
      LogWarning
        (Msg "Some files are filtered by mel length threshold (3 -> 2).")]).
Proof. split; vm_compute; reflexivity. Qed.

(** ** C2: the pairs of the parallel dataset *)

(** C2, where the code departs from it: the two roots hold the same
    utterance ids, so the constructor succeeds; the files are paired by
    their position in the two lists sorted by path, and [get(0)] returns
    the source array of [y-feats] with the target array of [x-feats],
    under the id [x-feats]. *)
Theorem C2_pairs_by_position :
  let ds := ParallelVCMelDataset.mk
              ["src/a/y-feats.npy"; "src/b/x-feats.npy"]
              ["trg/x-feats.npy"; "trg/y-feats.npy"]
              nested_mels nested_mels ["x-feats"; "y-feats"]
              [("src/a/y-feats.npy", "trg/x-feats.npy");
               ("src/b/x-feats.npy", "trg/y-feats.npy")]
              true false None in
  new (ParallelVCMelDataset.__init__ nested_corpus "src" "trg" "*-feats.npy"
         nested_mels nested_mels true false)
  = (Ok ds, [FindFiles "src" "*-feats.npy"; FindFiles "trg" "*-feats.npy"]) /\
  ParallelVCMelDataset.__getitem__ 0 (mk_proc ds [])
  = (Ok (VTuple [VStr "x-feats"; VArr (mel 5 1); VArr (mel 7 3)]),
     mk_proc ds [Call "src_load_fn" "src/a/y-feats.npy";
                 Call "trg_load_fn" "trg/x-feats.npy"]) /\
  ParallelVCMelDataset.stems ["src/a/y-feats.npy"] = ["y-feats"] /\
  ParallelVCMelDataset.stems ["trg/x-feats.npy"] = ["x-feats"].
Proof. vm_compute. repeat split; reflexivity. Qed.

(** ** C3: the message about unequal id sets *)

Lemma ids_sorted fs root mq :
  list_to_set (Py.sorted (ParallelVCMelDataset.stems
                            (Py.sorted (walk fs root mq)))) = ids fs root mq.
Proof.
  unfold ids. apply set_eq. intros x. rewrite !elem_of_list_to_set.
  rewrite sorted_perm. unfold ParallelVCMelDataset.stems.
  rewrite !list_elem_of_In, !in_map_iff.
  split; intros (y & Hy & Hin); exists y; split; try assumption.
  - apply list_elem_of_In. apply list_elem_of_In in Hin.
    rewrite <- sorted_perm. exact Hin.
  - apply list_elem_of_In. apply list_elem_of_In in Hin.
    rewrite sorted_perm. exact Hin.
Qed.

(** C3, as stated, fails: for the source ids [{a, b}] and the target ids
    [{a, c}] the message of the error holds the two sizes and the set
    [{b}]; the id [c], which only the target has, is not in it. *)
Lemma C3_counterexample :
  new (ParallelVCMelDataset.__init__ mismatched_corpus "src" "trg" "*.npy"
         nested_mels nested_mels false false)
  = (Raise (AssertionError (MsgSet "2 2" {["b"]})),
     [FindFiles "src" "*.npy"; FindFiles "trg" "*.npy"]) /\
  ids mismatched_corpus "src" "*.npy" = {["a"; "b"]} /\
  ids mismatched_corpus "trg" "*.npy" = {["a"; "c"]} /\
  "c" ∉ ({["b"]} : gset string).
Proof.
  split; [vm_compute; reflexivity|].
  split; [vm_compute; reflexivity|].
  split; [vm_compute; reflexivity|].
  vm_compute. discriminate.
Qed.

(** C3 (amended): when both roots hold matching files and their sets of
    utterance ids differ, the constructor raises an [AssertionError]
    before any file is loaded; its message is made of the sizes of the two
    sets and of the set of the ids that are in the source and not in the
    target.  The ids that are only in the target are not reported. *)
Theorem C3_one_sided_difference fs src trg mq sld tld r c :
  walk fs src mq <> [] ->
  walk fs trg mq <> [] ->
  ids fs src mq <> ids fs trg mq ->
  new (ParallelVCMelDataset.__init__ fs src trg mq sld tld r c)
  = (Raise (AssertionError
              (MsgSet (Py.str_of_nat (size (ids fs src mq)) +:+ " "
                       +:+ Py.str_of_nat (size (ids fs trg mq)))
                      (ids fs src mq ∖ ids fs trg mq))),
     [FindFiles src mq; FindFiles trg mq]).
Proof.
  intros Hs Ht Hne.
  unfold new, ParallelVCMelDataset.__init__, find_files. run.
  assert (Hs' : negb (length (Py.sorted (walk fs src mq)) =? 0)%nat = true).
  { rewrite sorted_length. destruct (walk fs src mq); [contradiction|reflexivity]. }
  assert (Ht' : negb (length (Py.sorted (walk fs trg mq)) =? 0)%nat = true).
  { rewrite sorted_length. destruct (walk fs trg mq); [contradiction|reflexivity]. }
  rewrite Hs', Ht', !ids_sorted. simpl.
  rewrite bool_decide_eq_false_2 by exact Hne. reflexivity.
Qed.

(** C3 at work on the source ids [{a, b}] and the target ids [{a, c}]. *)
Lemma C3_witness :
  walk mismatched_corpus "src" "*.npy" <> [] /\
  walk mismatched_corpus "trg" "*.npy" <> [] /\
  ids mismatched_corpus "src" "*.npy" <> ids mismatched_corpus "trg" "*.npy" /\
  new (ParallelVCMelDataset.__init__ mismatched_corpus "src" "trg" "*.npy"
         nested_mels nested_mels false false)
  = (Raise (AssertionError
              (MsgSet (Py.str_of_nat (size (ids mismatched_corpus "src" "*.npy"))
                       +:+ " "
                       +:+ Py.str_of_nat
                             (size (ids mismatched_corpus "trg" "*.npy")))
                      (ids mismatched_corpus "src" "*.npy"
                       ∖ ids mismatched_corpus "trg" "*.npy"))),
     [FindFiles "src" "*.npy"; FindFiles "trg" "*.npy"]).
Proof.
  assert (H1 : walk mismatched_corpus "src" "*.npy" <> [])
    by (vm_compute; discriminate).
  assert (H2 : walk mismatched_corpus "trg" "*.npy" <> [])
    by (vm_compute; discriminate).
  assert (H3 : ids mismatched_corpus "src" "*.npy"
               <> ids mismatched_corpus "trg" "*.npy").
  { intros E. assert (Hb : "b" ∈ ids mismatched_corpus "trg" "*.npy").
    { rewrite <- E. vm_compute. reflexivity. }
    revert Hb. vm_compute. discriminate. }
  split; [exact H1|]. split; [exact H2|]. split; [exact H3|].
  exact (C3_one_sided_difference mismatched_corpus "src" "trg" "*.npy"
           nested_mels nested_mels false false H1 H2 H3).
Defined.

(** ** Paths under a root *)

Lemma append_cons x (a b : string) : String x a +:+ b = String x (a +:+ b).
Proof. reflexivity. Qed.

Lemma append_assoc (a b c : string) : (a +:+ b) +:+ c = a +:+ (b +:+ c).
Proof.
  induction a as [|x a IH]; [reflexivity|].
  rewrite !append_cons. f_equal. exact IH.
Qed.

Lemma append_length (a b : string) :
  String.length (a +:+ b) = (String.length a + String.length b)%nat.
Proof.
  induction a as [|x a IH]; [reflexivity|].
  rewrite append_cons. simpl. f_equal. exact IH.
Qed.

Lemma last_char a c :
  String.get (Nat.pred (String.length a)) a = Some c ->
  exists q, a = q +:+ String c EmptyString.
Proof.
  induction a as [|x a IH]; simpl; [discriminate|].
  destruct a as [|y a].
  - simpl. intros [= ->]. exists EmptyString. reflexivity.
  - simpl in *. intros H. destruct (IH H) as [q Hq].
    exists (String x q). rewrite append_cons, <- Hq. reflexivity.
Qed.

(** Joining a root and a relative name puts a fixed prefix, empty or
    ending with a slash, before the name. *)
Lemma join_prefix root :
  exists P,
    (P = EmptyString \/ exists q, P = q +:+ "/") /\
    forall n, String.prefix "/" n = false -> Py.join root n = P +:+ n.
Proof.
  unfold Py.join.
  destruct (String.eqb root EmptyString) eqn:Er.
  { exists EmptyString. split; [left; reflexivity|].
    intros n ->. reflexivity. }
  destruct (String.get (Nat.pred (String.length root)) root) as [c|] eqn:Eg.
  - destruct (Ascii.eqb c "/") eqn:Ec.
    + apply Ascii.eqb_eq in Ec. subst c.
      exists root. split; [right; apply last_char; exact Eg|].
      intros n ->. reflexivity.
    + exists (root +:+ "/"). split; [right; eauto|].
      intros n ->. rewrite append_assoc. reflexivity.
  - exists (root +:+ "/"). split; [right; eauto|].
    intros n ->. rewrite append_assoc. reflexivity.
Qed.

Lemma rfind_app c a b :
  Py.rfind c (a +:+ b) =
  match Py.rfind c b with
  | Some k => Some (String.length a + k)%nat
  | None => Py.rfind c a
  end.
Proof.
  induction a as [|x a IH].
  - change (EmptyString +:+ b) with b. destruct (Py.rfind c b); reflexivity.
  - rewrite append_cons. simpl. rewrite IH.
    destruct (Py.rfind c b); reflexivity.
Qed.

Lemma substring_all s : String.substring 0 (String.length s) s = s.
Proof. induction s as [|x s IH]; simpl; [reflexivity|]. f_equal. exact IH. Qed.

Lemma substring_drop a b :
  String.substring (String.length a) (String.length b) (a +:+ b) = b.
Proof.
  induction a as [|x a IH].
  - change (EmptyString +:+ b) with b. apply substring_all.
  - rewrite append_cons. simpl. exact IH.
Qed.

Lemma rfind_cons c d s :
  Py.rfind c (String d s) =
  match Py.rfind c s with
  | Some k => Some (S k)
  | None => if Ascii.eqb c d then Some O else None
  end.
Proof. reflexivity. Qed.

Lemma rfind_none_prefix n : Py.rfind "/" n = None -> String.prefix "/" n = false.
Proof.
  destruct n as [|c n]; [reflexivity|].
  rewrite rfind_cons.
  destruct (Py.rfind "/" n); [discriminate|].
  destruct (Ascii.eqb "/" c) eqn:E; [discriminate|].
  intros _. apply Ascii.eqb_neq in E.
  change (String.prefix "/" (String c n))
    with (if ascii_dec "/" c then String.prefix EmptyString n else false).
  destruct (ascii_dec "/" c); [contradiction|reflexivity].
Qed.

(** The base name of a name under a root is the name. *)
Lemma basename_join root n :
  Py.rfind "/" n = None -> Py.basename (Py.join root n) = n.
Proof.
  intros Hn. destruct (join_prefix root) as (P & HP & Hj).
  rewrite Hj by (apply rfind_none_prefix; exact Hn).
  unfold Py.basename. rewrite rfind_app, Hn.
  destruct HP as [->|[q ->]].
  - reflexivity.
  - rewrite rfind_app. simpl.
    rewrite !append_length. simpl.
    replace (String.length q + 1 + String.length n - S (String.length q + 0))%nat
      with (String.length n) by lia.
    replace (S (String.length q + 0)) with (String.length (q +:+ "/"))
      by (rewrite append_length; simpl; lia).
    apply substring_drop.
Qed.

Lemma insert_sorted_prefix P x l :
  Py.insert_sorted (P +:+ x) (List.map (String.append P) l) =
  List.map (String.append P) (Py.insert_sorted x l).
Proof.
  induction l as [|y l IH]; simpl; [reflexivity|].
  rewrite string_leb_app. destruct (String.leb x y); simpl; [reflexivity|].
  rewrite IH. reflexivity.
Qed.

Lemma sorted_prefix P l :
  Py.sorted (List.map (String.append P) l) =
  List.map (String.append P) (Py.sorted l).
Proof.
  induction l as [|x l IH]; simpl; [reflexivity|].
  fold (Py.sorted (List.map (String.append P) l)). fold (Py.sorted l).
  rewrite IH. apply insert_sorted_prefix.
Qed.

(** Sorting the paths of relative names under a root sorts the names. *)
Lemma sorted_join root l :
  Forall (fun n => String.prefix "/" n = false) l ->
  Py.sorted (List.map (Py.join root) l) = List.map (Py.join root) (Py.sorted l).
Proof.
  intros Hl. destruct (join_prefix root) as (P & _ & Hj).
  assert (E : forall k, Forall (fun n => String.prefix "/" n = false) k ->
                        List.map (Py.join root) k = List.map (String.append P) k).
  { intros k Hk. induction Hk as [|n k Hn _ IH]; simpl; [reflexivity|].
    rewrite Hj, IH by exact Hn. reflexivity. }
  rewrite (E l Hl), sorted_prefix. symmetry. apply E.
  rewrite Forall_forall in *. intros n Hn. apply Hl.
  rewrite <- sorted_perm. exact Hn.
Qed.

(** ** C1: the source-only dataset over three feature files *)

(** C1, as stated, fails: over the directory [dump] with the three files,
    the utterance ids of the items are the file names without their
    extension, [u1-feats], [u2-feats] and [u3-feats]; the marker [-feats]
    is not stripped. *)
Lemma C1_counterexample :
  let ld := load_table [("dump/u1-feats.npy", mel 4 1);
                        ("dump/u2-feats.npy", mel 5 2);
                        ("dump/u3-feats.npy", mel 6 3)] in
  let ds := SourceVCMelDataset.mk
              ["dump/u1-feats.npy"; "dump/u2-feats.npy"; "dump/u3-feats.npy"]
              ld ["u1-feats"; "u2-feats"; "u3-feats"] true false None in
  new (SourceVCMelDataset.__init__ (roots [("dump", three_feats)]) "dump"
         "*-feats.npy" ld true false)
  = (Ok ds, [FindFiles "dump" "*-feats.npy"]) /\
  value_of (first_items 3) ds
  = Ok [VTuple [VStr "u1-feats"; VArr (mel 4 1)];
        VTuple [VStr "u2-feats"; VArr (mel 5 2)];
        VTuple [VStr "u3-feats"; VArr (mel 6 3)]] /\
  value_of (first_items 3) ds
  <> Ok [VTuple [VStr "u1"; VArr (mel 4 1)];
         VTuple [VStr "u2"; VArr (mel 5 2)];
         VTuple [VStr "u3"; VArr (mel 6 3)]].
Proof. vm_compute. repeat split; discriminate. Qed.

Lemma sorted_perm_eq l l' : l ≡ₚ l' -> Py.sorted l = Py.sorted l'.
Proof.
  intros Hp. apply sorted_unique; [|apply sorted_Sorted].
  rewrite Hp. symmetry. apply sorted_perm.
Qed.

Lemma walk_perm fs root mq es :
  fs root ≡ₚ es ->
  walk fs root mq ≡ₚ
  List.map (Py.join root) (Py.fnmatch_filter (filenames es) mq)
  ++ flat_map (find_in mq root) es.
Proof.
  intros Hp. unfold walk. apply Permutation_app.
  - apply Permutation_map. unfold Py.fnmatch_filter, filenames.
    assert (Hf : flat_map (fun e => match e with File n => [n] | Dir _ _ => [] end)
                          (fs root)
                 ≡ₚ flat_map (fun e => match e with File n => [n] | Dir _ _ => [] end)
                             es)
      by (apply Permutation_flat_map; exact Hp).
    revert Hf. generalize (flat_map (fun e => match e with File n => [n] | Dir _ _ => [] end) (fs root)).
    generalize (flat_map (fun e => match e with File n => [n] | Dir _ _ => [] end) es).
    intros k l Hlk. induction Hlk as [|x l k _ IH|x y l|l k m _ IH1 _ IH2]; simpl.
    + reflexivity.
    + destruct (Py.fnmatch x mq); [constructor|]; exact IH.
    + destruct (Py.fnmatch x mq), (Py.fnmatch y mq);
        try reflexivity. apply Permutation_swap.
    + etransitivity; eassumption.
  - apply Permutation_flat_map. exact Hp.
Qed.

(** The files of the three-file directory, sorted. *)
Lemma three_feats_sorted fs root :
  fs root ≡ₚ three_feats ->
  Py.sorted (walk fs root "*-feats.npy") =
  [Py.join root "u1-feats.npy"; Py.join root "u2-feats.npy";
   Py.join root "u3-feats.npy"].
Proof.
  intros Hp. rewrite (sorted_perm_eq _ _ (walk_perm fs root _ _ Hp)).
  change (List.map (Py.join root)
            (Py.fnmatch_filter (filenames three_feats) "*-feats.npy")
          ++ flat_map (find_in "*-feats.npy" root) three_feats)%list
    with (List.map (Py.join root)
            ["u1-feats.npy"; "u2-feats.npy"; "u3-feats.npy"] ++ [])%list.
  rewrite app_nil_r, sorted_join by (repeat constructor). reflexivity.
Qed.

(** C1 (amended): over a directory that holds exactly the three files
    [u1-feats.npy], [u2-feats.npy] and [u3-feats.npy], in whatever order
    the directory lists them, the source-only dataset with
    [return_utt_id=True] is constructed after one search of the root, has
    length 3, and its items are, in this order, [("u1-feats", arr1)],
    [("u2-feats", arr2)] and [("u3-feats", arr3)], where [arr_i] is what
    the load function returns for [u_i-feats.npy]: the utterance id is the
    file name without its extension, with the [-feats] marker. *)
Theorem C1_source_only_items fs root (ld : load_fn) a1 a2 a3 allow_cache :
  fs root ≡ₚ three_feats ->
  ld (Py.join root "u1-feats.npy") = Ok a1 ->
  ld (Py.join root "u2-feats.npy") = Ok a2 ->
  ld (Py.join root "u3-feats.npy") = Ok a3 ->
  exists ds,
    new (SourceVCMelDataset.__init__ fs root "*-feats.npy" ld true allow_cache)
    = (Ok ds, [FindFiles root "*-feats.npy"]) /\
    value_of SourceVCMelDataset.__len__ ds = Ok 3%nat /\
    value_of (first_items 3) ds
    = Ok [VTuple [VStr "u1-feats"; VArr a1];
          VTuple [VStr "u2-feats"; VArr a2];
          VTuple [VStr "u3-feats"; VArr a3]].
Proof.
  intros Hp H1 H2 H3.
  pose proof (three_feats_sorted fs root Hp) as Hfiles.
  assert (Hids : List.map (fun f => fst (Py.splitext (Py.basename f)))
                          (Py.sorted (walk fs root "*-feats.npy"))
                 = ["u1-feats"; "u2-feats"; "u3-feats"]).
  { rewrite Hfiles. cbn [List.map].
    rewrite !basename_join by reflexivity. reflexivity. }
  eexists. split.
  - unfold new, SourceVCMelDataset.__init__, find_files. run.
    rewrite Hids, Hfiles. reflexivity.
  - revert H1 H2 H3.
    generalize (Py.join root "u1-feats.npy") (Py.join root "u2-feats.npy")
               (Py.join root "u3-feats.npy").
    intros f1 f2 f3 H1 H2 H3. split; [reflexivity|].
    destruct allow_cache; cbv; rewrite H1; cbv; rewrite H2; cbv; rewrite H3;
      reflexivity.
Qed.

(** C1 at work on the directory [dump]. *)
Lemma C1_witness :
  let fs := roots [("dump", [File "u3-feats.npy"; File "u1-feats.npy";
                             File "u2-feats.npy"])] in
  let ld := load_table [("dump/u1-feats.npy", mel 4 1);
                        ("dump/u2-feats.npy", mel 5 2);
                        ("dump/u3-feats.npy", mel 6 3)] in
  fs "dump" ≡ₚ three_feats /\
  ld (Py.join "dump" "u1-feats.npy") = Ok (mel 4 1) /\
  ld (Py.join "dump" "u2-feats.npy") = Ok (mel 5 2) /\
  ld (Py.join "dump" "u3-feats.npy") = Ok (mel 6 3) /\
  exists ds,
    new (SourceVCMelDataset.__init__ fs "dump" "*-feats.npy" ld true true)
    = (Ok ds, [FindFiles "dump" "*-feats.npy"]) /\
    value_of SourceVCMelDataset.__len__ ds = Ok 3%nat /\
    value_of (first_items 3) ds
    = Ok [VTuple [VStr "u1-feats"; VArr (mel 4 1)];
          VTuple [VStr "u2-feats"; VArr (mel 5 2)];
          VTuple [VStr "u3-feats"; VArr (mel 6 3)]].
Proof.
  intros fs ld.
  assert (Hp : fs "dump" ≡ₚ three_feats).
  { change (fs "dump") with [File "u3-feats.npy"; File "u1-feats.npy";
                             File "u2-feats.npy"].
    unfold three_feats.
    apply perm_trans with [File "u1-feats.npy"; File "u3-feats.npy";
                           File "u2-feats.npy"]; [apply perm_swap|].
    apply perm_skip, perm_swap. }
  assert (H1 : ld (Py.join "dump" "u1-feats.npy") = Ok (mel 4 1))
    by reflexivity.
  assert (H2 : ld (Py.join "dump" "u2-feats.npy") = Ok (mel 5 2))
    by reflexivity.
  assert (H3 : ld (Py.join "dump" "u3-feats.npy") = Ok (mel 6 3))
    by reflexivity.
  split; [exact Hp|]. split; [exact H1|]. split; [exact H2|].
  split; [exact H3|].
  exact (C1_source_only_items fs "dump" ld _ _ _ true Hp H1 H2 H3).
Defined.

(** ** C7: the decode driver and its input flags *)

Section DriverFacts.
Import VcDecode.

Lemma bind_run {Self A B} (c : M Self A) (k : A -> M Self B) p :
  bind c k p =
  match c p with
  | (Ok a, p') => k a p'
  | (Raise e, p') => (Raise e, p')
  end.
Proof. reflexivity. Qed.

Lemma emit_run {Self} ev (p : proc Self) :
  emit ev p = (Ok tt, mk_proc (self p) (trace p ++ [ev])).
Proof. reflexivity. Qed.

Lemma mapM_emit {Self A} (f : A -> event) l (p : proc Self) :
  mapM (fun x => emit (f x)) l p =
  (Ok (List.map (fun _ => tt) l),
   mk_proc (self p) (trace p ++ List.map f l)).
Proof.
  revert p. induction l as [|x l IH]; intros p; simpl.
  - unfold ret. rewrite app_nil_r. destruct p; reflexivity.
  - rewrite bind_run, emit_run, bind_run, IH. simpl.
    rewrite <- app_assoc. reflexivity.
Qed.

Lemma logger_run (a : args) (p : proc unit) :
  (if 1 <? verbose a then emit (LogBasicConfig "DEBUG")
   else if 0 <? verbose a then emit (LogBasicConfig "INFO")
   else (emit (LogBasicConfig "WARN") ;;
         emit (LogWarning (Msg "Skip DEBUG/INFO messages")))) p
  = (Ok tt, mk_proc (self p) (trace p ++ logger_events a)).
Proof.
  unfold logger_events.
  destruct (1 <? verbose a); [reflexivity|].
  destruct (0 <? verbose a); [reflexivity|].
  rewrite bind_run, !emit_run. simpl. rewrite <- app_assoc. reflexivity.
Qed.

Lemma bad_flags_test a :
  bad_flags a ->
  (bool_decide (feats_scp a <> None) && bool_decide (dumpdir a <> None))
  || (bool_decide (feats_scp a = None) && bool_decide (dumpdir a = None))
  = true.
Proof.
  intros [[H1 H2]|[H1 H2]].
  - rewrite !bool_decide_eq_true_2 by assumption. reflexivity.
  - rewrite (bool_decide_eq_true_2 (feats_scp a = None)) by assumption.
    rewrite (bool_decide_eq_true_2 (dumpdir a = None)) by assumption.
    apply orb_true_r.
Qed.

Lemma logger_events_quiet a :
  Forall (fun ev => ~ dataset_event ev) (logger_events a).
Proof.
  unfold logger_events.
  destruct (1 <? verbose a); [repeat constructor; auto|].
  destruct (0 <? verbose a); repeat constructor; auto.
Qed.

Lemma config_events_quiet a cfg :
  Forall (fun ev => ~ dataset_event ev) (config_events a cfg).
Proof.
  unfold config_events. apply Forall_forall. intros ev Hev.
  apply list_elem_of_In, in_map_iff in Hev as (kv & <- & _). auto.
Qed.

Ltac drive :=
  repeat first
    [ rewrite bind_run
    | rewrite emit_run
    | rewrite mapM_emit
    | progress unfold os_path_exists, os_makedirs, open_yaml, do_read_hdf5
    | progress unfold ret, lift, raise
    | progress cbn [self trace fst snd negb feats_scp dumpdir trg_stats
                    outdir checkpoint config src_feat_type trg_feat_type
                    verbose] ].

Lemma makedirs_quiet (b : bool) path :
  Forall (fun ev => ~ dataset_event ev) (if b then [] else [MakeDirs path]).
Proof. destruct b; repeat constructor; auto. Qed.

Ltac quiet :=
  rewrite <- ?app_assoc; eexists _, _; split; [reflexivity|];
  rewrite ?Forall_app;
  repeat split;
  first [ apply logger_events_quiet | apply config_events_quiet
        | apply makedirs_quiet | repeat constructor; auto ].

(** C7 (amended): when the decode driver is invoked with both
    [--feats-scp] and [--dumpdir], or with neither, it raises an error
    before it opens any dataset (it never searches a root nor loads a
    feature file, and it does not reach the generation); when the output
    directory exists or can be made and the configuration file and the
    target statistics can be read, that error is the [ValueError] about
    the flags, and it is raised after the driver has configured the
    logger, tested and, if missing, created the output directory, read
    the configuration file, logged the merged configuration and read the
    [mean] and [scale] of the target statistics. *)
Theorem C7_flags_checked_after_io w a generation p :
  bad_flags a ->
  let r := main w a generation p in
  (exists e evs,
      r = (Raise e, mk_proc (self p) (trace p ++ evs)) /\
      Forall (fun ev => ~ dataset_event ev) evs) /\
  forall cfg mean scale,
    (path_exists w (outdir a) = true \/ makedirs w (outdir a) = Ok tt) ->
    yaml_load w (config_path a) = Ok cfg ->
    read_hdf5 w (trg_stats a) "mean" = Ok mean ->
    read_hdf5 w (trg_stats a) "scale" = Ok scale ->
    r = (Raise (ValueError
                  (Msg "Please specify either --dumpdir or --feats-scp.")),
         mk_proc (self p) (trace p ++ io_before_check w a cfg)).
Proof.
  intros Hbad r. subst r. unfold main.
  rewrite bind_run, logger_run. drive.
  fold (config_path a).
  destruct (path_exists w (outdir a)) eqn:Ex; drive.
  2: destruct (makedirs w (outdir a)) as [[]|e] eqn:Emk; drive.
  3:{ split; [quiet|]. intros ? ? ? [H|H]; discriminate. }
  all: destruct (yaml_load w (config_path a)) as [cfg|e] eqn:Ey;
    [|split; [quiet|]; intros ? ? ? _ [=]].
  all: drive; fold (config_events a cfg).
  all: destruct (read_hdf5 w (trg_stats a) "mean") as [mean|e] eqn:Em;
    [|split; [quiet|]; intros ? ? ? _ _ [=]].
  all: drive.
  all: destruct (read_hdf5 w (trg_stats a) "scale") as [scale|e] eqn:Es;
    [|split; [quiet|]; intros ? ? ? _ _ _ [=]].
  all: drive; rewrite (bad_flags_test a Hbad); drive.
  all: split; [quiet|].
  all: intros cfg' mean' scale' _ [= <-] _ _.
  all: unfold io_before_check; rewrite Ex, <- !app_assoc; reflexivity.
Qed.

End DriverFacts.

(** C7, as stated, fails: with neither flag given, the driver raises the
    error only after it has created the output directory, read the
    configuration file and read both fields of the target statistics. *)
Lemma C7_counterexample :
  VcDecode.main bare_world bare_args (fun _ _ => ret tt) (mk_proc tt [])
  = (Raise (ValueError (Msg "Please specify either --dumpdir or --feats-scp.")),
     mk_proc tt
       [LogBasicConfig "INFO"; PathExists "exp/out"; MakeDirs "exp/out";
        OpenYaml "exp/config.yml";
        LogInfo (Msg "model_type = VTN");
        LogInfo (Msg "feats_scp = None"); LogInfo (Msg "dumpdir = None");
        LogInfo (Msg "trg_stats = stats.h5");
        LogInfo (Msg "outdir = exp/out");
        LogInfo (Msg "checkpoint = exp/checkpoint-100.pkl");
        LogInfo (Msg "config = exp/config.yml");
        LogInfo (Msg "src_feat_type = feats");
        LogInfo (Msg "trg_feat_type = feats"); LogInfo (Msg "verbose = 1");
        ReadHdf5 "stats.h5" "mean"; ReadHdf5 "stats.h5" "scale"]).
Proof. vm_compute. reflexivity. Qed.

(** C7 at work on the run with neither flag. *)
Lemma C7_witness :
  bad_flags bare_args /\
  let r := VcDecode.main bare_world bare_args (fun _ _ => ret tt)
                         (mk_proc tt []) in
  (exists e evs,
      r = (Raise e, mk_proc tt ([] ++ evs)) /\
      Forall (fun ev => ~ dataset_event ev) evs) /\
  forall cfg mean scale,
    (VcDecode.path_exists bare_world (VcDecode.outdir bare_args) = true \/
     VcDecode.makedirs bare_world (VcDecode.outdir bare_args) = Ok tt) ->
    VcDecode.yaml_load bare_world (config_path bare_args) = Ok cfg ->
    VcDecode.read_hdf5 bare_world (VcDecode.trg_stats bare_args) "mean"
    = Ok mean ->
    VcDecode.read_hdf5 bare_world (VcDecode.trg_stats bare_args) "scale"
    = Ok scale ->
    r = (Raise (ValueError
                  (Msg "Please specify either --dumpdir or --feats-scp.")),
         mk_proc tt ([] ++ io_before_check bare_world bare_args cfg)).
Proof.
  assert (H : bad_flags bare_args) by (right; split; reflexivity).
  split; [exact H|].
  exact (C7_flags_checked_after_io bare_world bare_args (fun _ _ => ret tt)
           (mk_proc tt []) H).
Defined.

(** C10 at work on [one_mel_ds]: the first [get(0)] fills slot 0, which
    held the empty tuple, and the length stays 1. *)
Lemma C10_witness :
  let p1 := snd (MelDataset.__getitem__ 0 (mk_proc one_mel_ds [])) in
  MelDataset_constructed one_mel_ds /\
  after_gets MelDataset.__getitem__ one_mel_ds (self p1) /\
  (forall c, cache_update c (self p1) = cache_update c one_mel_ds) /\
  MelDataset.__len__ (mk_proc (self p1) [])
  = (Ok (length (MelDataset.mel_files one_mel_ds)), mk_proc (self p1) []).
Proof.
  intros p1.
  assert (H1 := one_mel_ds_constructed).
  assert (H2 : after_gets MelDataset.__getitem__ one_mel_ds (self p1))
    by (apply (after_get MelDataset.__getitem__ one_mel_ds one_mel_ds 0 []);
        constructor).
  split; [exact H1|]. split; [exact H2|]. split.
  - exact (proj1 (proj1 (proj1 (proj2 (proj2 C10_get_frame)))
                        one_mel_ds (self p1) H1 H2)).
  - exact (proj2 (proj1 (proj2 (proj2 C10_get_frame)))
                 one_mel_ds (self p1) [] H1 H2).
Defined.

(* ===================================================================== *)
(** * Further properties of the code *)
(* ===================================================================== *)

Lemma getitem_rejects {A} (l : list A) n idx :
  length l = n -> norm_index n idx = None ->
  getitem l idx = Raise (IndexError (Msg "list index out of range")).
Proof. intros <- Hn. unfold getitem. rewrite Hn. reflexivity. Qed.

Lemma slots_ready_fresh {Self} `{Cache Self} (s : Self) b n :
  cache_enabled s = b -> cache_slots s = fresh_caches b n -> slots_ready n s.
Proof.
  intros Hb Hc. split.
  - rewrite Hb, Hc. intros ->. discriminate.
  - intros c. rewrite Hc. apply fresh_caches_length.
Qed.

Lemma getitem_lookup {A} (l : list A) idx i :
  norm_index (length l) idx = Some i ->
  exists x, l !! i = Some x /\ getitem l idx = Ok x.
Proof.
  intros Hn. pose proof (norm_index_lt _ _ _ Hn) as Hlt.
  destruct (lookup_lt_is_Some_2 l i Hlt) as [x Hx].
  exists x. split; [exact Hx|]. unfold getitem. rewrite Hn, Hx. reflexivity.
Qed.

Section PositionFacts.
Context {Self : Type} `{CacheLaws Self}.
Context (items : Z -> M Self pyval) (wf : Self -> Prop)
        (shaped : Self -> pyval -> Prop).
Context `{!DatasetFacts items wf shaped}.
Variable len : Self -> nat.
Variable lists_ok : Self -> Prop.
Hypothesis len_frame : forall s c, len (cache_update c s) = len s.
Hypothesis lists_frame : forall s c, lists_ok (cache_update c s) <-> lists_ok s.

Lemma slots_ready_get n idx p :
  slots_ready n (self p) -> slots_ready n (self (snd (with_cache idx (items idx) p))).
Proof.
  intros Hr.
  destruct (get_outcome items wf shaped idx p)
    as [Hoff|e Hon|c v m Hon Hc Hg' Hl|c v e Hon Hc Hg' Hl Hv
        |c v i its Hon Hc Hg' Hl Hn Hi Hv]; simpl; try assumption.
  destruct Hr as [_ Hlen]. split.
  - rewrite cache_update_slots. discriminate.
  - intros c'. rewrite cache_update_slots. intros [= <-].
    rewrite length_insert. auto.
Qed.

Lemma slots_ready_after n s0 s :
  slots_ready n s0 -> after_gets (fun idx => with_cache idx (items idx)) s0 s -> slots_ready n s.
Proof.
  intros Hs0. induction 1 as [|s idx tr _ IH]; [assumption|].
  apply (slots_ready_get n idx (mk_proc s tr)), IH.
Qed.

Lemma len_after s0 s : after_gets (fun idx => with_cache idx (items idx)) s0 s -> len s = len s0.
Proof.
  intros Hafter.
  pose proof (after_gets_config items wf shaped s0 s Hafter []) as E.
  rewrite <- (len_frame s []), E. apply len_frame.
Qed.

Lemma lists_after s0 s : lists_ok s0 -> after_gets (fun idx => with_cache idx (items idx)) s0 s -> lists_ok s.
Proof.
  intros Hs0 Hafter.
  pose proof (after_gets_config items wf shaped s0 s Hafter []) as E.
  apply (lists_frame s []). rewrite E. apply lists_frame. exact Hs0.
Qed.

(** An index out of range is rejected before anything is loaded. *)
Lemma get_out_of_range s idx tr :
  (forall s idx, lists_ok s -> norm_index (len s) idx = None ->
      items idx (mk_proc s [])
      = (Raise (IndexError (Msg "list index out of range")), mk_proc s [])) ->
  lists_ok s -> slots_ready (len s) s ->
  norm_index (len s) idx = None ->
  with_cache idx (items idx) (mk_proc s tr)
  = (Raise (IndexError (Msg "list index out of range")), mk_proc s tr).
Proof.
  intros Hrej Hl [Hsome Hlen] Hn.
  destruct (cache_enabled s) eqn:Hon.
  - destruct (cache_slots s) as [c|] eqn:Hc.
    + apply (with_cache_bad_index (items idx)) with (c := c); try assumption.
      apply getitem_rejects with (n := len s); [|assumption].
      apply Hlen; reflexivity.
    + exfalso. apply Hsome; reflexivity.
  - rewrite (with_cache_disabled (items idx) (items_readonly idx))
      by assumption.
    unfold value_of, events_of. simpl. rewrite (Hrej s idx Hl Hn).
    simpl. rewrite app_nil_r. reflexivity.
Qed.

(** Two indices of one position lead to the same run. *)
Hypothesis items_same :
  forall s idx idx' i, lists_ok s ->
    norm_index (len s) idx = Some i -> norm_index (len s) idx' = Some i ->
    items idx (mk_proc s []) = items idx' (mk_proc s []).

Lemma get_same_position p idx idx' i :
  lists_ok (self p) -> slots_ready (len (self p)) (self p) ->
  norm_index (len (self p)) idx = Some i ->
  norm_index (len (self p)) idx' = Some i ->
  with_cache idx (items idx) p = with_cache idx' (items idx') p.
Proof.
  intros Hl [Hsome Hlen] Hn Hn'.
  pose proof (items_same (self p) idx idx' i Hl Hn Hn') as Hi.
  assert (Hv : value_of (items idx) (self p) = value_of (items idx') (self p))
    by (unfold value_of; rewrite Hi; reflexivity).
  assert (He : events_of (items idx) (self p) = events_of (items idx') (self p))
    by (unfold events_of; rewrite Hi; reflexivity).
  destruct (cache_enabled (self p)) eqn:Hon.
  2:{ rewrite !with_cache_disabled by (assumption || apply items_readonly).
      rewrite Hv, He. reflexivity. }
  destruct (cache_slots (self p)) as [c|] eqn:Hc.
  2:{ exfalso. apply Hsome; reflexivity. }
  specialize (Hlen c eq_refl).
  assert (Hg : getitem c idx = getitem c idx').
  { apply (getitem_same_position c (len (self p)) idx idx' i); assumption. }
  rewrite <- Hlen in Hn, Hn'.
  destruct (getitem c idx) as [v|e] eqn:Hgi.
  2:{ rewrite (with_cache_bad_index (items idx) idx p c e) by assumption.
      rewrite (with_cache_bad_index (items idx') idx' p c e) by congruence.
      reflexivity. }
  destruct (py_len v) as [[|n]|e] eqn:Hlv.
  - rewrite (with_cache_miss (items idx) (items_readonly idx) idx p c v i)
      by assumption.
    rewrite (with_cache_miss (items idx') (items_readonly idx') idx' p c v i)
      by congruence.
    rewrite Hv, He. reflexivity.
  - rewrite (with_cache_hit (items idx) idx p c v n) by assumption.
    rewrite (with_cache_hit (items idx') idx' p c v n) by congruence.
    reflexivity.
  - rewrite (with_cache_unsized (items idx) idx p c v e) by assumption.
    rewrite (with_cache_unsized (items idx') idx' p c v e) by congruence.
    reflexivity.
Qed.

(** The cache holds what loading yields. *)

Lemma faithful_get idx p :
  cache_faithful items (fun s => lists_ok s /\ slots_ready (len s) s) (self p) ->
  cache_faithful items (fun s => lists_ok s /\ slots_ready (len s) s) (self (snd (with_cache idx (items idx) p))).
Proof.
  intros [[Hl Hr] Hinv].
  assert (Hr' := slots_ready_get _ idx p Hr).
    destruct (get_outcome items wf shaped idx p)
    as [Hoff|e Hon|c v n Hon Hc Hg Hlv|c v e Hon Hc Hg Hlv Hv
        |c v i its Hon Hc Hg Hlv Hn Hi Hv]; simpl in *;
    try (split; [split|]; assumption).
  split; [split|].
  - apply lists_frame. exact Hl.
  - rewrite len_frame. exact Hr'.
  - intros c'. rewrite cache_update_slots. intros [= <-] j w Hj.
    rewrite length_insert.
    assert (Hlen : length c = len (self p)) by (apply Hr; exact Hc).
    destruct (decide (i = j)) as [->|Hne].
    + rewrite list_lookup_insert_eq in Hj by (eapply lookup_lt_Some; eauto).
      injection Hj as <-. right.
      intros idx' Hn'. rewrite items_frame_value.
      rewrite Hlen in Hn, Hn'.
      pose proof (items_same (self p) idx idx' j Hl Hn Hn') as E.
      unfold value_of in *. rewrite <- E. exact Hv.
    + rewrite list_lookup_insert_ne in Hj by assumption.
      destruct (Hinv c Hc j w Hj) as [->|Hw]; [left; reflexivity|].
      right. intros idx' Hn'. rewrite items_frame_value. auto.
Qed.

Lemma faithful_after s0 s :
  cache_faithful items (fun s => lists_ok s /\ slots_ready (len s) s) s0 -> after_gets (fun idx => with_cache idx (items idx)) s0 s ->
  cache_faithful items (fun s => lists_ok s /\ slots_ready (len s) s) s.
Proof.
  intros Hs0. induction 1 as [|s idx tr _ IH]; [assumption|].
  apply (faithful_get idx (mk_proc s tr)), IH.
Qed.

Lemma faithful_fresh s :
  lists_ok s -> slots_ready (len s) s ->
  (forall c i w, cache_slots s = Some c -> c !! i = Some w -> w = VTuple []) ->
  cache_faithful items (fun s => lists_ok s /\ slots_ready (len s) s) s.
Proof. intros Hl Hr Hs. split; [split; assumption|]. intros c Hc i w Hi. eauto. Qed.

Lemma value_after s0 s idx :
  after_gets (fun idx => with_cache idx (items idx)) s0 s -> value_of (items idx) s = value_of (items idx) s0.
Proof.
  intros Hafter.
  pose proof (after_gets_config items wf shaped s0 s Hafter []) as E.
  rewrite <- (items_frame_value idx [] s), E. apply items_frame_value.
Qed.

Lemma get_sound s0 s idx tr v p1 :
  cache_faithful items (fun s => lists_ok s /\ slots_ready (len s) s) s0 -> after_gets (fun idx => with_cache idx (items idx)) s0 s ->
  with_cache idx (items idx) (mk_proc s tr) = (Ok v, p1) ->
  value_of (items idx) s0 = Ok v.
Proof.
  intros Hs0 Hafter Hget.
  rewrite <- (value_after s0 s idx Hafter).
  destruct (faithful_after s0 s Hs0 Hafter) as [_ Hinv].
  pose proof (get_outcome items wf shaped idx (mk_proc s tr)) as Hout.
  rewrite Hget in Hout.
  inversion Hout as [Hoff|e Hon' E|c w m _ Hc Hg Hl E|c w e _ Hc Hg Hl Hv E
                     |c w i its _ Hc Hg Hl Hn Hi Hv E]; subst; simpl in *.
  - congruence.
  - destruct (getitem_norm _ _ _ Hg) as (i & Hn & Hi).
    destruct (Hinv c Hc i v Hi) as [->|Hw]; [discriminate|]. auto.
  - assumption.
Qed.

Hypothesis items_index :
  forall s idx v, lists_ok s -> value_of (items idx) s = Ok v ->
                  exists i, norm_index (len s) idx = Some i.

Lemma get_complete s0 s idx tr v n :
  cache_faithful items (fun s => lists_ok s /\ slots_ready (len s) s) s0 ->
  after_gets (fun idx => with_cache idx (items idx)) s0 s ->
  value_of (items idx) s0 = Ok v -> py_len v = Ok n ->
  fst (with_cache idx (items idx) (mk_proc s tr)) = Ok v.
Proof.
  intros Hs0 Hafter Hv Hlen.
  rewrite <- (value_after s0 s idx Hafter) in Hv.
  destruct (faithful_after s0 s Hs0 Hafter) as [[Hl [Hsome Hslots]] Hinv].
  destruct (cache_enabled s) eqn:Hon.
  2:{ rewrite (with_cache_disabled (items idx) (items_readonly idx))
        by assumption. exact Hv. }
  destruct (cache_slots s) as [c|] eqn:Hc.
  2:{ exfalso. apply Hsome; reflexivity. }
  destruct (items_index s idx v Hl Hv) as [i Hn].
  rewrite <- (Hslots c eq_refl) in Hn.
  destruct (getitem_lookup c idx i Hn) as (w & Hi & Hg).
  assert (Hmiss : py_len w = Ok O ->
                  fst (with_cache idx (items idx) (mk_proc s tr)) = Ok v).
  { intros Hw.
    rewrite (with_cache_miss (items idx) (items_readonly idx) idx
               (mk_proc s tr) c w i) by assumption.
    simpl. rewrite Hv. reflexivity. }
  destruct (Hinv c eq_refl i w Hi) as [->|Hw]; [apply Hmiss; reflexivity|].
  rewrite (Hw idx Hn) in Hv. injection Hv as ->.
  destruct n as [|n]; [apply Hmiss; exact Hlen|].
  rewrite (with_cache_hit (items idx) idx (mk_proc s tr) c v n) by assumption.
  reflexivity.
Qed.

(** From the objects that a constructor makes. *)
Variable constructed : Self -> Prop.
Hypothesis constructed_ready :
  forall s, constructed s ->
    lists_ok s /\ slots_ready (len s) s /\
    forall c i w, cache_slots s = Some c -> c !! i = Some w -> w = VTuple [].

Lemma ready_after s0 s :
  constructed s0 -> after_gets (fun idx => with_cache idx (items idx)) s0 s ->
  lists_ok s /\ slots_ready (len s) s /\ len s = len s0.
Proof.
  intros Hc Hafter. destruct (constructed_ready s0 Hc) as (Hl & Hr & _).
  pose proof (len_after s0 s Hafter) as E.
  split; [eapply lists_after; eauto|]. split; [|exact E].
  rewrite E. eapply slots_ready_after; eauto.
Qed.

Lemma facts_get_rejects :
  (forall s idx, lists_ok s -> norm_index (len s) idx = None ->
      items idx (mk_proc s [])
      = (Raise (IndexError (Msg "list index out of range")), mk_proc s [])) ->
  get_rejects constructed (fun idx => with_cache idx (items idx)) len.
Proof.
  intros Hrej s0 s idx tr Hc Hafter Hn.
  destruct (ready_after s0 s Hc Hafter) as (Hl & Hr & E).
  apply get_out_of_range; try assumption. rewrite E. exact Hn.
Qed.

Lemma facts_get_by_position :
  get_by_position constructed (fun idx => with_cache idx (items idx)) len.
Proof.
  intros s0 p idx idx' i Hc Hafter Hn Hn'.
  destruct (ready_after s0 (self p) Hc Hafter) as (Hl & Hr & E).
  apply get_same_position with (i := i); try assumption; rewrite E; assumption.
Qed.

Lemma facts_get_is_load :
  get_is_load constructed (fun idx => with_cache idx (items idx)) items.
Proof.
  intros s0 s idx tr v p1 Hc Hafter Hget.
  destruct (constructed_ready s0 Hc) as (Hl & Hr & Hs).
  eapply get_sound; eauto. apply faithful_fresh; assumption.
Qed.

Lemma facts_get_returns_load :
  get_returns_load constructed (fun idx => with_cache idx (items idx)) items.
Proof.
  intros s0 s idx tr v n Hc Hafter Hv Hlen.
  destruct (constructed_ready s0 Hc) as (Hl & Hr & Hs).
  eapply get_complete; eauto. apply faithful_fresh; assumption.
Qed.

End PositionFacts.

(** ** Positions in the five classes *)

Section MelDatasetPositions.
Import MelDataset.

Lemma MelDataset_ready s :
  MelDataset_constructed s ->
  length (utt_ids s) = length (mel_files s) /\
  slots_ready (length (mel_files s)) s /\
  forall c i w, cache_slots s = Some c -> c !! i = Some w -> w = VTuple [].
Proof.
  intros (fs & root & mq & mt & mld & r & c & p & p' & E).
  apply MelDataset_init_inv in E as (mf & -> & _).
  simpl. split; [apply mel_utt_ids_length|]. split.
  - eapply slots_ready_fresh; reflexivity.
  - intros c0 i w. apply fresh_caches_sentinel.
Qed.

Lemma MelDataset_reject s idx :
  length (utt_ids s) = length (mel_files s) ->
  norm_index (length (mel_files s)) idx = None ->
  load_items idx (mk_proc s [])
  = (Raise (IndexError (Msg "list index out of range")), mk_proc s []).
Proof.
  intros Hl Hn. rewrite MelDataset_load_items.
  rewrite (getitem_rejects (utt_ids s) _ idx Hl Hn). reflexivity.
Qed.

Lemma MelDataset_same s idx idx' i :
  length (utt_ids s) = length (mel_files s) ->
  norm_index (length (mel_files s)) idx = Some i ->
  norm_index (length (mel_files s)) idx' = Some i ->
  load_items idx (mk_proc s []) = load_items idx' (mk_proc s []).
Proof.
  intros Hl Hn Hn'. rewrite !MelDataset_load_items.
  rewrite (getitem_same_position (utt_ids s) _ idx idx' i Hl Hn Hn').
  rewrite (getitem_same_position (mel_files s) _ idx idx' i eq_refl Hn Hn').
  reflexivity.
Qed.

Lemma MelDataset_load_value s idx v :
  length (utt_ids s) = length (mel_files s) ->
  value_of (load_items idx) s = Ok v <->
  exists i u f a,
    norm_index (length (mel_files s)) idx = Some i /\
    utt_ids s !! i = Some u /\ mel_files s !! i = Some f /\
    mel_load_fn s f = Ok a /\ v = single_item (return_utt_id s) u a.
Proof.
  intros Hl. unfold value_of. rewrite MelDataset_load_items. split.
  - destruct (getitem (utt_ids s) idx) as [u|] eqn:Hu; [|discriminate].
    destruct (getitem (mel_files s) idx) as [f|] eqn:Hf; [|discriminate].
    simpl. destruct (mel_load_fn s f) as [a|] eqn:Ha; [|discriminate].
    intros [= <-].
    apply getitem_norm in Hu as (i & Hn & Hi).
    apply getitem_norm in Hf as (i' & Hn' & Hi').
    rewrite Hl in Hn. assert (i' = i) by congruence. subst i'.
    exists i, u, f, a. auto.
  - intros (i & u & f & a & Hn & Hu & Hf & Ha & ->).
    destruct (getitem_lookup (mel_files s) idx i Hn) as (f' & Hf' & ->).
    rewrite <- Hl in Hn.
    destruct (getitem_lookup (utt_ids s) idx i Hn) as (u' & Hu' & ->).
    simpl. replace f' with f by congruence. replace u' with u by congruence.
    rewrite Ha. reflexivity.
Qed.

Lemma MelDataset_index s idx v :
  length (utt_ids s) = length (mel_files s) ->
  value_of (load_items idx) s = Ok v ->
  exists i, norm_index (length (mel_files s)) idx = Some i.
Proof.
  intros Hl Hv. apply MelDataset_load_value in Hv as (i & _ & _ & _ & Hn & _);
    eauto.
Qed.

End MelDatasetPositions.

Section AudioDatasetPositions.
Import AudioDataset.

Lemma AudioDataset_ready s :
  AudioDataset_constructed s ->
  length (utt_ids s) = length (audio_files s) /\
  slots_ready (length (audio_files s)) s /\
  forall c i w, cache_slots s = Some c -> c !! i = Some w -> w = VTuple [].
Proof.
  intros (fs & root & aq & at_ & ald & r & c & p & p' & E).
  apply AudioDataset_init_inv in E as (af & -> & _).
  simpl. split; [apply audio_utt_ids_length|]. split.
  - eapply slots_ready_fresh; reflexivity.
  - intros c0 i w. apply fresh_caches_sentinel.
Qed.

Lemma AudioDataset_reject s idx :
  length (utt_ids s) = length (audio_files s) ->
  norm_index (length (audio_files s)) idx = None ->
  load_items idx (mk_proc s [])
  = (Raise (IndexError (Msg "list index out of range")), mk_proc s []).
Proof.
  intros Hl Hn. rewrite AudioDataset_load_items.
  rewrite (getitem_rejects (utt_ids s) _ idx Hl Hn). reflexivity.
Qed.

Lemma AudioDataset_same s idx idx' i :
  length (utt_ids s) = length (audio_files s) ->
  norm_index (length (audio_files s)) idx = Some i ->
  norm_index (length (audio_files s)) idx' = Some i ->
  load_items idx (mk_proc s []) = load_items idx' (mk_proc s []).
Proof.
  intros Hl Hn Hn'. rewrite !AudioDataset_load_items.
  rewrite (getitem_same_position (utt_ids s) _ idx idx' i Hl Hn Hn').
  rewrite (getitem_same_position (audio_files s) _ idx idx' i eq_refl Hn Hn').
  reflexivity.
Qed.

Lemma AudioDataset_load_value s idx v :
  length (utt_ids s) = length (audio_files s) ->
  value_of (load_items idx) s = Ok v <->
  exists i u f a,
    norm_index (length (audio_files s)) idx = Some i /\
    utt_ids s !! i = Some u /\ audio_files s !! i = Some f /\
    audio_load_fn s f = Ok a /\ v = single_item (return_utt_id s) u a.
Proof.
  intros Hl. unfold value_of. rewrite AudioDataset_load_items. split.
  - destruct (getitem (utt_ids s) idx) as [u|] eqn:Hu; [|discriminate].
    destruct (getitem (audio_files s) idx) as [f|] eqn:Hf; [|discriminate].
    simpl. destruct (audio_load_fn s f) as [a|] eqn:Ha; [|discriminate].
    intros [= <-].
    apply getitem_norm in Hu as (i & Hn & Hi).
    apply getitem_norm in Hf as (i' & Hn' & Hi').
    rewrite Hl in Hn. assert (i' = i) by congruence. subst i'.
    exists i, u, f, a. auto.
  - intros (i & u & f & a & Hn & Hu & Hf & Ha & ->).
    destruct (getitem_lookup (audio_files s) idx i Hn) as (f' & Hf' & ->).
    rewrite <- Hl in Hn.
    destruct (getitem_lookup (utt_ids s) idx i Hn) as (u' & Hu' & ->).
    simpl. replace f' with f by congruence. replace u' with u by congruence.
    rewrite Ha. reflexivity.
Qed.

Lemma AudioDataset_index s idx v :
  length (utt_ids s) = length (audio_files s) ->
  value_of (load_items idx) s = Ok v ->
  exists i, norm_index (length (audio_files s)) idx = Some i.
Proof.
  intros Hl Hv. apply AudioDataset_load_value in Hv as (i & _ & _ & _ & Hn & _);
    eauto.
Qed.

End AudioDatasetPositions.

Section SourceVCMelDatasetPositions.
Import SourceVCMelDataset.

Lemma SourceVCMelDataset_ready s :
  SourceVCMelDataset_constructed s ->
  length (utt_ids s) = length (src_mel_files s) /\
  slots_ready (length (src_mel_files s)) s /\
  forall c i w, cache_slots s = Some c -> c !! i = Some w -> w = VTuple [].
Proof.
  intros (fs & root & mq & mld & r & c & p & p' & E).
  apply SourceVCMelDataset_init_inv in E as (-> & _).
  simpl. split; [apply length_map|]. split.
  - eapply slots_ready_fresh; reflexivity.
  - intros c0 i w. apply fresh_caches_sentinel.
Qed.

Lemma SourceVCMelDataset_reject s idx :
  length (utt_ids s) = length (src_mel_files s) ->
  norm_index (length (src_mel_files s)) idx = None ->
  load_items idx (mk_proc s [])
  = (Raise (IndexError (Msg "list index out of range")), mk_proc s []).
Proof.
  intros Hl Hn. rewrite SourceVCMelDataset_load_items.
  rewrite (getitem_rejects (utt_ids s) _ idx Hl Hn). reflexivity.
Qed.

Lemma SourceVCMelDataset_same s idx idx' i :
  length (utt_ids s) = length (src_mel_files s) ->
  norm_index (length (src_mel_files s)) idx = Some i ->
  norm_index (length (src_mel_files s)) idx' = Some i ->
  load_items idx (mk_proc s []) = load_items idx' (mk_proc s []).
Proof.
  intros Hl Hn Hn'. rewrite !SourceVCMelDataset_load_items.
  rewrite (getitem_same_position (utt_ids s) _ idx idx' i Hl Hn Hn').
  rewrite (getitem_same_position (src_mel_files s) _ idx idx' i eq_refl Hn Hn').
  reflexivity.
Qed.

Lemma SourceVCMelDataset_load_value s idx v :
  length (utt_ids s) = length (src_mel_files s) ->
  value_of (load_items idx) s = Ok v <->
  exists i u f a,
    norm_index (length (src_mel_files s)) idx = Some i /\
    utt_ids s !! i = Some u /\ src_mel_files s !! i = Some f /\
    mel_load_fn s f = Ok a /\ v = single_item (return_utt_id s) u a.
Proof.
  intros Hl. unfold value_of. rewrite SourceVCMelDataset_load_items. split.
  - destruct (getitem (utt_ids s) idx) as [u|] eqn:Hu; [|discriminate].
    destruct (getitem (src_mel_files s) idx) as [f|] eqn:Hf; [|discriminate].
    simpl. destruct (mel_load_fn s f) as [a|] eqn:Ha; [|discriminate].
    intros [= <-].
    apply getitem_norm in Hu as (i & Hn & Hi).
    apply getitem_norm in Hf as (i' & Hn' & Hi').
    rewrite Hl in Hn. assert (i' = i) by congruence. subst i'.
    exists i, u, f, a. auto.
  - intros (i & u & f & a & Hn & Hu & Hf & Ha & ->).
    destruct (getitem_lookup (src_mel_files s) idx i Hn) as (f' & Hf' & ->).
    rewrite <- Hl in Hn.
    destruct (getitem_lookup (utt_ids s) idx i Hn) as (u' & Hu' & ->).
    simpl. replace f' with f by congruence. replace u' with u by congruence.
    rewrite Ha. reflexivity.
Qed.

Lemma SourceVCMelDataset_index s idx v :
  length (utt_ids s) = length (src_mel_files s) ->
  value_of (load_items idx) s = Ok v ->
  exists i, norm_index (length (src_mel_files s)) idx = Some i.
Proof.
  intros Hl Hv. apply SourceVCMelDataset_load_value in Hv as (i & _ & _ & _ & Hn & _);
    eauto.
Qed.

End SourceVCMelDatasetPositions.

Section AudioMelDatasetPositions.
Import AudioMelDataset.

Lemma AudioMelDataset_ready s :
  AudioMelDataset_constructed s ->
  (length (utt_ids s) = length (audio_files s) /\
   length (mel_files s) = length (audio_files s)) /\
  slots_ready (length (audio_files s)) s /\
  forall c i w, cache_slots s = Some c -> c !! i = Some w -> w = VTuple [].
Proof.
  intros (fs & root & aq & mq & ald & mld & at_ & mt & r & c & p & p' & E).
  apply AudioMelDataset_init_inv in E as (af & mf & -> & _ & Hlen).
  simpl. split; [split; [apply audio_utt_ids_length|congruence]|]. split.
  - eapply slots_ready_fresh; reflexivity.
  - intros c0 i w. apply fresh_caches_sentinel.
Qed.

Lemma AudioMelDataset_reject s idx :
  length (utt_ids s) = length (audio_files s) /\
  length (mel_files s) = length (audio_files s) ->
  norm_index (length (audio_files s)) idx = None ->
  load_items idx (mk_proc s [])
  = (Raise (IndexError (Msg "list index out of range")), mk_proc s []).
Proof.
  intros [Hl _] Hn. rewrite AudioMelDataset_load_items.
  rewrite (getitem_rejects (utt_ids s) _ idx Hl Hn). reflexivity.
Qed.

Lemma AudioMelDataset_same s idx idx' i :
  length (utt_ids s) = length (audio_files s) /\
  length (mel_files s) = length (audio_files s) ->
  norm_index (length (audio_files s)) idx = Some i ->
  norm_index (length (audio_files s)) idx' = Some i ->
  load_items idx (mk_proc s []) = load_items idx' (mk_proc s []).
Proof.
  intros [Hl Hm] Hn Hn'. rewrite !AudioMelDataset_load_items.
  rewrite (getitem_same_position (utt_ids s) _ idx idx' i Hl Hn Hn').
  rewrite (getitem_same_position (audio_files s) _ idx idx' i eq_refl Hn Hn').
  rewrite (getitem_same_position (mel_files s) _ idx idx' i Hm Hn Hn').
  reflexivity.
Qed.

Lemma AudioMelDataset_load_value s idx v :
  length (utt_ids s) = length (audio_files s) /\
  length (mel_files s) = length (audio_files s) ->
  value_of (load_items idx) s = Ok v <->
  exists i u fa fm a m,
    norm_index (length (audio_files s)) idx = Some i /\
    utt_ids s !! i = Some u /\
    audio_files s !! i = Some fa /\ mel_files s !! i = Some fm /\
    audio_load_fn s fa = Ok a /\ mel_load_fn s fm = Ok m /\
    v = pair_item (return_utt_id s) u a m.
Proof.
  intros [Hl Hm]. unfold value_of. rewrite AudioMelDataset_load_items. split.
  - destruct (getitem (utt_ids s) idx) as [u|] eqn:Hu; [|discriminate].
    destruct (getitem (audio_files s) idx) as [fa|] eqn:Hfa; [|discriminate].
    destruct (audio_load_fn s fa) as [a|] eqn:Ha; [|discriminate].
    destruct (getitem (mel_files s) idx) as [fm|] eqn:Hfm; [|discriminate].
    simpl. destruct (mel_load_fn s fm) as [m|] eqn:Hmm; [|discriminate].
    intros [= <-].
    apply getitem_norm in Hu as (i & Hn & Hi).
    apply getitem_norm in Hfa as (i' & Hn' & Hi').
    apply getitem_norm in Hfm as (i'' & Hn'' & Hi'').
    rewrite Hl in Hn. rewrite Hm in Hn''.
    assert (i' = i) by congruence. assert (i'' = i) by congruence. subst.
    exists i, u, fa, fm, a, m. auto 10.
  - intros (i & u & fa & fm & a & m & Hn & Hu & Hfa & Hfm & Ha & Hmm & ->).
    destruct (getitem_lookup (audio_files s) idx i Hn) as (fa' & Hfa' & ->).
    pose proof Hn as Hn1. rewrite <- Hl in Hn1.
    destruct (getitem_lookup (utt_ids s) idx i Hn1) as (u' & Hu' & ->).
    rewrite <- Hm in Hn.
    destruct (getitem_lookup (mel_files s) idx i Hn) as (fm' & Hfm' & ->).
    replace fa' with fa by congruence. replace u' with u by congruence.
    replace fm' with fm by congruence.
    rewrite Ha. simpl. rewrite Hmm. reflexivity.
Qed.

Lemma AudioMelDataset_index s idx v :
  length (utt_ids s) = length (audio_files s) /\
  length (mel_files s) = length (audio_files s) ->
  value_of (load_items idx) s = Ok v ->
  exists i, norm_index (length (audio_files s)) idx = Some i.
Proof.
  intros Hl Hv.
  apply AudioMelDataset_load_value in Hv as (i & _ & _ & _ & _ & _ & Hn & _);
    eauto.
Qed.

End AudioMelDatasetPositions.

Section ParallelVCMelDatasetPositions.
Import ParallelVCMelDataset.

Lemma ParallelVCMelDataset_ready s :
  ParallelVCMelDataset_constructed s ->
  slots_ready (length (mel_files s)) s /\
  forall c i w, cache_slots s = Some c -> c !! i = Some w -> w = VTuple [].
Proof.
  intros (fs & src & trg & mq & sld & tld & r & c & p & p' & E).
  apply ParallelVCMelDataset_init_inv in E as (-> & _).
  simpl. split.
  - eapply slots_ready_fresh; reflexivity.
  - intros c0 i w. apply fresh_caches_sentinel.
Qed.

Lemma ParallelVCMelDataset_reject s idx :
  norm_index (length (mel_files s)) idx = None ->
  load_items idx (mk_proc s [])
  = (Raise (IndexError (Msg "list index out of range")), mk_proc s []).
Proof.
  intros Hn. rewrite ParallelVCMelDataset_load_items.
  rewrite (getitem_rejects (mel_files s) _ idx eq_refl Hn).
  destruct (getitem (utt_ids s) idx) as [u|e] eqn:Hu; [reflexivity|].
  unfold getitem in Hu.
  destruct (norm_index (length (utt_ids s)) idx) as [i|];
    [destruct (utt_ids s !! i)|]; congruence.
Qed.

Lemma ParallelVCMelDataset_same s idx idx' i :
  length (utt_ids s) = length (mel_files s) ->
  norm_index (length (mel_files s)) idx = Some i ->
  norm_index (length (mel_files s)) idx' = Some i ->
  load_items idx (mk_proc s []) = load_items idx' (mk_proc s []).
Proof.
  intros Hl Hn Hn'. rewrite !ParallelVCMelDataset_load_items.
  rewrite (getitem_same_position (utt_ids s) _ idx idx' i Hl Hn Hn').
  rewrite (getitem_same_position (mel_files s) _ idx idx' i eq_refl Hn Hn').
  reflexivity.
Qed.

Lemma ParallelVCMelDataset_load_value s idx v :
  length (utt_ids s) = length (mel_files s) ->
  value_of (load_items idx) s = Ok v <->
  exists i u fs ft a m,
    norm_index (length (mel_files s)) idx = Some i /\
    utt_ids s !! i = Some u /\ mel_files s !! i = Some (fs, ft) /\
    src_load_fn s fs = Ok a /\ trg_load_fn s ft = Ok m /\
    v = pair_item (return_utt_id s) u a m.
Proof.
  intros Hl. unfold value_of. rewrite ParallelVCMelDataset_load_items. split.
  - destruct (getitem (utt_ids s) idx) as [u|] eqn:Hu; [|discriminate].
    destruct (getitem (mel_files s) idx) as [[fs ft]|] eqn:Hf; [|discriminate].
    simpl. destruct (src_load_fn s fs) as [a|] eqn:Ha; [|discriminate].
    simpl. destruct (trg_load_fn s ft) as [m|] eqn:Hm; [|discriminate].
    intros [= <-].
    apply getitem_norm in Hu as (i & Hn & Hi).
    apply getitem_norm in Hf as (i' & Hn' & Hi').
    rewrite Hl in Hn. assert (i' = i) by congruence. subst i'.
    exists i, u, fs, ft, a, m. auto 10.
  - intros (i & u & fs & ft & a & m & Hn & Hu & Hf & Ha & Hm & ->).
    destruct (getitem_lookup (mel_files s) idx i Hn) as (f' & Hf' & ->).
    rewrite <- Hl in Hn.
    destruct (getitem_lookup (utt_ids s) idx i Hn) as (u' & Hu' & ->).
    replace f' with (fs, ft) by congruence. replace u' with u by congruence.
    simpl. rewrite Ha. simpl. rewrite Hm. reflexivity.
Qed.

Lemma ParallelVCMelDataset_index s idx v :
  length (utt_ids s) = length (mel_files s) ->
  value_of (load_items idx) s = Ok v ->
  exists i, norm_index (length (mel_files s)) idx = Some i.
Proof.
  intros Hl Hv.
  apply ParallelVCMelDataset_load_value in Hv as (i & _ & _ & _ & _ & _ & Hn & _);
    eauto.
Qed.

End ParallelVCMelDatasetPositions.

(** ** Indices out of range *)

(** X1: on a dataset of any of the five classes that was constructed and
    then used, [get(idx)] with [idx >= length()] or [idx < -length()]
    raises [IndexError], calls no load function and leaves the object and
    its cache as they are. *)
Theorem X1_index_out_of_range :
  get_rejects AudioMelDataset_constructed AudioMelDataset.__getitem__
    (fun s => length (AudioMelDataset.audio_files s)) /\
  get_rejects AudioDataset_constructed AudioDataset.__getitem__
    (fun s => length (AudioDataset.audio_files s)) /\
  get_rejects MelDataset_constructed MelDataset.__getitem__
    (fun s => length (MelDataset.mel_files s)) /\
  get_rejects ParallelVCMelDataset_constructed ParallelVCMelDataset.__getitem__
    (fun s => length (ParallelVCMelDataset.mel_files s)) /\
  get_rejects SourceVCMelDataset_constructed SourceVCMelDataset.__getitem__
    (fun s => length (SourceVCMelDataset.src_mel_files s)).
Proof.
  split; [|split; [|split; [|split]]].
  - apply (facts_get_rejects AudioMelDataset.load_items _ _ _
             (fun s => length (AudioMelDataset.utt_ids s)
                       = length (AudioMelDataset.audio_files s) /\
                       length (AudioMelDataset.mel_files s)
                       = length (AudioMelDataset.audio_files s)));
      [reflexivity|reflexivity|apply AudioMelDataset_ready
      |apply AudioMelDataset_reject].
  - apply (facts_get_rejects AudioDataset.load_items _ _ _
             (fun s => length (AudioDataset.utt_ids s)
                       = length (AudioDataset.audio_files s)));
      [reflexivity|reflexivity|apply AudioDataset_ready
      |apply AudioDataset_reject].
  - apply (facts_get_rejects MelDataset.load_items _ _ _
             (fun s => length (MelDataset.utt_ids s)
                       = length (MelDataset.mel_files s)));
      [reflexivity|reflexivity|apply MelDataset_ready
      |apply MelDataset_reject].
  - apply (facts_get_rejects ParallelVCMelDataset.load_items _ _ _
             (fun _ => True));
      [reflexivity|reflexivity| |].
    + intros s Hs. split; [exact I|]. apply ParallelVCMelDataset_ready, Hs.
    + intros s idx _. apply ParallelVCMelDataset_reject.
  - apply (facts_get_rejects SourceVCMelDataset.load_items _ _ _
             (fun s => length (SourceVCMelDataset.utt_ids s)
                       = length (SourceVCMelDataset.src_mel_files s)));
      [reflexivity|reflexivity|apply SourceVCMelDataset_ready
      |apply SourceVCMelDataset_reject].
Qed.

(** X1 at work: [one_mel_ds] has one file, and [get(1)] is rejected. *)
Lemma X1_witness :
  MelDataset_constructed one_mel_ds /\
  after_gets MelDataset.__getitem__ one_mel_ds one_mel_ds /\
  norm_index (length (MelDataset.mel_files one_mel_ds)) 1 = None /\
  MelDataset.__getitem__ 1 (mk_proc one_mel_ds [])
  = (Raise (IndexError (Msg "list index out of range")),
     mk_proc one_mel_ds []).
Proof.
  assert (H1 := one_mel_ds_constructed).
  assert (H2 : after_gets MelDataset.__getitem__ one_mel_ds one_mel_ds)
    by constructor.
  assert (H3 : norm_index (length (MelDataset.mel_files one_mel_ds)) 1 = None)
    by reflexivity.
  split; [exact H1|]. split; [exact H2|]. split; [exact H3|].
  exact (proj1 (proj2 (proj2 X1_index_out_of_range))
               one_mel_ds one_mel_ds 1 [] H1 H2 H3).
Defined.

(** ** Negative indices, and the cache seen from outside *)

Ltac position_class lemma its ln lists same index ready :=
  eapply lemma with (items := its) (len := ln) (lists_ok := lists);
  first [ typeclasses eauto | reflexivity | apply same | apply index | apply ready
        | intros ? [? ?]; split; [assumption|]; apply ready; assumption ].

Ltac audio_mel_class lemma :=
  position_class lemma AudioMelDataset.load_items
    (fun s => length (AudioMelDataset.audio_files s))
    (fun s => length (AudioMelDataset.utt_ids s)
              = length (AudioMelDataset.audio_files s) /\
              length (AudioMelDataset.mel_files s)
              = length (AudioMelDataset.audio_files s))
    AudioMelDataset_same AudioMelDataset_index AudioMelDataset_ready.

Ltac audio_class lemma :=
  position_class lemma AudioDataset.load_items
    (fun s => length (AudioDataset.audio_files s))
    (fun s => length (AudioDataset.utt_ids s)
              = length (AudioDataset.audio_files s))
    AudioDataset_same AudioDataset_index AudioDataset_ready.

Ltac mel_class lemma :=
  position_class lemma MelDataset.load_items
    (fun s => length (MelDataset.mel_files s))
    (fun s => length (MelDataset.utt_ids s)
              = length (MelDataset.mel_files s))
    MelDataset_same MelDataset_index MelDataset_ready.

Ltac parallel_class lemma :=
  position_class lemma ParallelVCMelDataset.load_items
    (fun s => length (ParallelVCMelDataset.mel_files s))
    (fun s => length (ParallelVCMelDataset.utt_ids s)
              = length (ParallelVCMelDataset.mel_files s))
    ParallelVCMelDataset_same ParallelVCMelDataset_index
    ParallelVCMelDataset_ready.

Ltac source_class lemma :=
  position_class lemma SourceVCMelDataset.load_items
    (fun s => length (SourceVCMelDataset.src_mel_files s))
    (fun s => length (SourceVCMelDataset.utt_ids s)
              = length (SourceVCMelDataset.src_mel_files s))
    SourceVCMelDataset_same SourceVCMelDataset_index
    SourceVCMelDataset_ready.

Ltac five_classes lemma :=
  split; [audio_mel_class lemma
         |split; [audio_class lemma
                 |split; [mel_class lemma
                         |split; [parallel_class lemma
                                 |source_class lemma]]]].

(** X2: on a dataset that was constructed and then used, two indices that
    denote the same position, such as [-1] and [length() - 1], are
    interchangeable: [get] returns the same result, emits the same calls
    and leaves the same object, cache included.  (For the parallel
    dataset, when there is an utterance id per pair of files.) *)
Theorem X2_negative_index :
  get_by_position AudioMelDataset_constructed AudioMelDataset.__getitem__
    (fun s => length (AudioMelDataset.audio_files s)) /\
  get_by_position AudioDataset_constructed AudioDataset.__getitem__
    (fun s => length (AudioDataset.audio_files s)) /\
  get_by_position MelDataset_constructed MelDataset.__getitem__
    (fun s => length (MelDataset.mel_files s)) /\
  get_by_position ParallelVCMelDataset_paired ParallelVCMelDataset.__getitem__
    (fun s => length (ParallelVCMelDataset.mel_files s)) /\
  get_by_position SourceVCMelDataset_constructed SourceVCMelDataset.__getitem__
    (fun s => length (SourceVCMelDataset.src_mel_files s)).
Proof.
  five_classes @facts_get_by_position.
Qed.

(** X2 at work on [one_mel_ds]: [get(-1)] is [get(0)]. *)
Lemma X2_witness :
  let p := mk_proc one_mel_ds [] in
  MelDataset_constructed one_mel_ds /\
  after_gets MelDataset.__getitem__ one_mel_ds (self p) /\
  norm_index (length (MelDataset.mel_files one_mel_ds)) (-1) = Some O /\
  norm_index (length (MelDataset.mel_files one_mel_ds)) 0 = Some O /\
  MelDataset.__getitem__ (-1) p = MelDataset.__getitem__ 0 p.
Proof.
  intros p.
  assert (H1 := one_mel_ds_constructed).
  assert (H2 : after_gets MelDataset.__getitem__ one_mel_ds (self p))
    by constructor.
  assert (H3 : norm_index (length (MelDataset.mel_files one_mel_ds)) (-1)
               = Some O) by reflexivity.
  assert (H4 : norm_index (length (MelDataset.mel_files one_mel_ds)) 0
               = Some O) by reflexivity.
  split; [exact H1|]. split; [exact H2|]. split; [exact H3|].
  split; [exact H4|].
  exact (proj1 (proj2 (proj2 X2_negative_index))
               one_mel_ds p (-1) 0 O H1 H2 H3 H4).
Defined.

(** X3: the cache is transparent.  On a dataset that was constructed and
    then used, with caching enabled or not and whatever the cache holds,
    a value that [get(idx)] returns is the value that the loading part of
    [__getitem__] returns for [idx] on the dataset as constructed (no
    stale item and no item of another index is served); and conversely,
    when that part returns a value that has a length (every item but a
    bare array without dimensions), [get(idx)] returns it.  (For the
    parallel dataset, when there is an utterance id per pair of files.) *)
Theorem X3_cache_transparent :
  ((get_is_load AudioMelDataset_constructed AudioMelDataset.__getitem__
      AudioMelDataset.load_items /\
    get_is_load AudioDataset_constructed AudioDataset.__getitem__
      AudioDataset.load_items /\
    get_is_load MelDataset_constructed MelDataset.__getitem__
      MelDataset.load_items /\
    get_is_load ParallelVCMelDataset_paired ParallelVCMelDataset.__getitem__
      ParallelVCMelDataset.load_items /\
    get_is_load SourceVCMelDataset_constructed SourceVCMelDataset.__getitem__
      SourceVCMelDataset.load_items)) /\
  ((get_returns_load AudioMelDataset_constructed AudioMelDataset.__getitem__
      AudioMelDataset.load_items /\
    get_returns_load AudioDataset_constructed AudioDataset.__getitem__
      AudioDataset.load_items /\
    get_returns_load MelDataset_constructed MelDataset.__getitem__
      MelDataset.load_items /\
    get_returns_load ParallelVCMelDataset_paired
      ParallelVCMelDataset.__getitem__ ParallelVCMelDataset.load_items /\
    get_returns_load SourceVCMelDataset_constructed
      SourceVCMelDataset.__getitem__ SourceVCMelDataset.load_items)).
Proof.
  split; [five_classes @facts_get_is_load
         |five_classes @facts_get_returns_load].
Qed.

(** X3 at work on [one_mel_ds] after a first call: the second call
    returns, from the cache, what loading returns. *)
Lemma X3_witness :
  let s1 := self (snd (MelDataset.__getitem__ 0 (mk_proc one_mel_ds []))) in
  let v := VArr (mel 3 1) in
  MelDataset_constructed one_mel_ds /\
  after_gets MelDataset.__getitem__ one_mel_ds s1 /\
  MelDataset.__getitem__ 0 (mk_proc s1 []) = (Ok v, mk_proc s1 []) /\
  value_of (MelDataset.load_items 0) one_mel_ds = Ok v.
Proof.
  intros s1 v.
  assert (H1 := one_mel_ds_constructed).
  assert (H2 : after_gets MelDataset.__getitem__ one_mel_ds s1)
    by (apply (after_get MelDataset.__getitem__ one_mel_ds one_mel_ds 0 []);
        constructor).
  assert (H3 : MelDataset.__getitem__ 0 (mk_proc s1 [])
               = (Ok v, mk_proc s1 [])) by (vm_compute; reflexivity).
  split; [exact H1|]. split; [exact H2|]. split; [exact H3|].
  exact (proj1 (proj2 (proj2 (proj1 X3_cache_transparent)))
               one_mel_ds s1 0 [] v (mk_proc s1 []) H1 H2 H3).
Defined.

(** ** What an item is made of *)

Lemma ids_of_files (g : string -> string) (ids files : list string) i u f :
  ids = List.map g files -> ids !! i = Some u -> files !! i = Some f ->
  u = g f.
Proof.
  intros -> Hu Hf.
  change (List.map g files) with (g <$> files) in Hu.
  rewrite list_lookup_fmap, Hf in Hu. simpl in Hu. congruence.
Qed.

Lemma mel_utt_ids_of_files q files i u f :
  mel_utt_ids q files !! i = Some u -> files !! i = Some f ->
  u = Py.replace (Py.basename f) "-feats.npy" EmptyString \/
  u = fst (Py.splitext (Py.basename f)).
Proof.
  unfold mel_utt_ids. destruct (Py.contains ".npy" q); intros Hu Hf.
  - left.
    exact (ids_of_files
             (fun f => Py.replace (Py.basename f) "-feats.npy" EmptyString)
             _ files i u f eq_refl Hu Hf).
  - right.
    exact (ids_of_files (fun f => fst (Py.splitext (Py.basename f)))
                        _ files i u f eq_refl Hu Hf).
Qed.

Lemma audio_utt_ids_of_files q files i u f :
  audio_utt_ids q files !! i = Some u -> files !! i = Some f ->
  u = Py.replace (Py.basename f) "-wave.npy" EmptyString \/
  u = fst (Py.splitext (Py.basename f)).
Proof.
  unfold audio_utt_ids. destruct (Py.contains ".npy" q); intros Hu Hf.
  - left.
    exact (ids_of_files
             (fun f => Py.replace (Py.basename f) "-wave.npy" EmptyString)
             _ files i u f eq_refl Hu Hf).
  - right.
    exact (ids_of_files (fun f => fst (Py.splitext (Py.basename f)))
                        _ files i u f eq_refl Hu Hf).
Qed.

(** X4: in the four classes with one root, an item belongs to one file
    position.  On a dataset that was constructed and then used, a value
    that [get(idx)] returns is made of the array(s) that the load
    function(s) return for the file(s) at the position of [idx] in the
    sorted, filtered file list(s) and, with [return_utt_id], of the
    utterance id derived from the name of that very file (of the audio
    file in [AudioMelDataset]): its base name without [-feats.npy] or
    [-wave.npy], or without its extension. *)
Theorem X4_item_of_position :
  (forall s0 s idx tr v p1,
      AudioMelDataset_constructed s0 ->
      after_gets AudioMelDataset.__getitem__ s0 s ->
      AudioMelDataset.__getitem__ idx (mk_proc s tr) = (Ok v, p1) ->
      exists i fa fm a m u,
        norm_index (length (AudioMelDataset.audio_files s0)) idx = Some i /\
        AudioMelDataset.audio_files s0 !! i = Some fa /\
        AudioMelDataset.mel_files s0 !! i = Some fm /\
        AudioMelDataset.audio_load_fn s0 fa = Ok a /\
        AudioMelDataset.mel_load_fn s0 fm = Ok m /\
        (u = Py.replace (Py.basename fa) "-wave.npy" EmptyString \/
         u = fst (Py.splitext (Py.basename fa))) /\
        v = pair_item (AudioMelDataset.return_utt_id s0) u a m) /\
  (forall s0 s idx tr v p1,
      AudioDataset_constructed s0 ->
      after_gets AudioDataset.__getitem__ s0 s ->
      AudioDataset.__getitem__ idx (mk_proc s tr) = (Ok v, p1) ->
      exists i f a u,
        norm_index (length (AudioDataset.audio_files s0)) idx = Some i /\
        AudioDataset.audio_files s0 !! i = Some f /\
        AudioDataset.audio_load_fn s0 f = Ok a /\
        (u = Py.replace (Py.basename f) "-wave.npy" EmptyString \/
         u = fst (Py.splitext (Py.basename f))) /\
        v = single_item (AudioDataset.return_utt_id s0) u a) /\
  (forall s0 s idx tr v p1,
      MelDataset_constructed s0 ->
      after_gets MelDataset.__getitem__ s0 s ->
      MelDataset.__getitem__ idx (mk_proc s tr) = (Ok v, p1) ->
      exists i f a u,
        norm_index (length (MelDataset.mel_files s0)) idx = Some i /\
        MelDataset.mel_files s0 !! i = Some f /\
        MelDataset.mel_load_fn s0 f = Ok a /\
        (u = Py.replace (Py.basename f) "-feats.npy" EmptyString \/
         u = fst (Py.splitext (Py.basename f))) /\
        v = single_item (MelDataset.return_utt_id s0) u a) /\
  (forall s0 s idx tr v p1,
      SourceVCMelDataset_constructed s0 ->
      after_gets SourceVCMelDataset.__getitem__ s0 s ->
      SourceVCMelDataset.__getitem__ idx (mk_proc s tr) = (Ok v, p1) ->
      exists i f a,
        norm_index (length (SourceVCMelDataset.src_mel_files s0)) idx
        = Some i /\
        SourceVCMelDataset.src_mel_files s0 !! i = Some f /\
        SourceVCMelDataset.mel_load_fn s0 f = Ok a /\
        v = single_item (SourceVCMelDataset.return_utt_id s0)
                        (fst (Py.splitext (Py.basename f))) a).
Proof.
  split; [|split; [|split]].
  - intros s0 s idx tr v p1 Hc Hafter Hget.
    assert (Hv : value_of (AudioMelDataset.load_items idx) s0 = Ok v).
    { revert Hc Hafter Hget. revert s0 s idx tr v p1.
      change (get_is_load AudioMelDataset_constructed
                AudioMelDataset.__getitem__ AudioMelDataset.load_items).
      audio_mel_class @facts_get_is_load. }
    destruct (AudioMelDataset_ready s0 Hc) as (Hl & _ & _).
    apply (AudioMelDataset_load_value s0 idx v Hl) in Hv
      as (i & u & fa & fm & a & m & Hn & Hu & Hfa & Hfm & Ha & Hm & ->).
    exists i, fa, fm, a, m, u. repeat (split; [assumption|]).
    split; [|reflexivity].
    destruct Hc as (fs & root & aq & mq & ald & mld & at_ & mt & r & c & p
                    & p' & E).
    apply AudioMelDataset_init_inv in E as (af & mf & -> & _ & _).
    simpl in *. eapply audio_utt_ids_of_files; eauto.
  - intros s0 s idx tr v p1 Hc Hafter Hget.
    assert (Hv : value_of (AudioDataset.load_items idx) s0 = Ok v).
    { revert Hc Hafter Hget. revert s0 s idx tr v p1.
      change (get_is_load AudioDataset_constructed
                AudioDataset.__getitem__ AudioDataset.load_items).
      audio_class @facts_get_is_load. }
    destruct (AudioDataset_ready s0 Hc) as (Hl & _ & _).
    apply (AudioDataset_load_value s0 idx v Hl) in Hv
      as (i & u & f & a & Hn & Hu & Hf & Ha & ->).
    exists i, f, a, u. repeat (split; [assumption|]).
    split; [|reflexivity].
    destruct Hc as (fs & root & aq & at_ & ald & r & c & p & p' & E).
    apply AudioDataset_init_inv in E as (af & -> & _).
    simpl in *. eapply audio_utt_ids_of_files; eauto.
  - intros s0 s idx tr v p1 Hc Hafter Hget.
    assert (Hv : value_of (MelDataset.load_items idx) s0 = Ok v).
    { revert Hc Hafter Hget. revert s0 s idx tr v p1.
      change (get_is_load MelDataset_constructed
                MelDataset.__getitem__ MelDataset.load_items).
      mel_class @facts_get_is_load. }
    destruct (MelDataset_ready s0 Hc) as (Hl & _ & _).
    apply (MelDataset_load_value s0 idx v Hl) in Hv
      as (i & u & f & a & Hn & Hu & Hf & Ha & ->).
    exists i, f, a, u. repeat (split; [assumption|]).
    split; [|reflexivity].
    destruct Hc as (fs & root & mq & mt & mld & r & c & p & p' & E).
    apply MelDataset_init_inv in E as (mf & -> & _).
    simpl in *. eapply mel_utt_ids_of_files; eauto.
  - intros s0 s idx tr v p1 Hc Hafter Hget.
    assert (Hv : value_of (SourceVCMelDataset.load_items idx) s0 = Ok v).
    { revert Hc Hafter Hget. revert s0 s idx tr v p1.
      change (get_is_load SourceVCMelDataset_constructed
                SourceVCMelDataset.__getitem__ SourceVCMelDataset.load_items).
      source_class @facts_get_is_load. }
    destruct (SourceVCMelDataset_ready s0 Hc) as (Hl & _ & _).
    apply (SourceVCMelDataset_load_value s0 idx v Hl) in Hv
      as (i & u & f & a & Hn & Hu & Hf & Ha & ->).
    exists i, f, a. repeat (split; [assumption|]).
    destruct Hc as (fs & root & mq & mld & r & c & p & p' & E).
    apply SourceVCMelDataset_init_inv in E as (-> & _).
    simpl in *. f_equal.
    exact (ids_of_files (fun f => fst (Py.splitext (Py.basename f)))
                        _ _ i u f eq_refl Hu Hf).
Qed.

(** X4 at work on [one_mel_ds]. *)
Lemma X4_witness :
  let v := VArr (mel 3 1) in
  let p1 := snd (MelDataset.__getitem__ 0 (mk_proc one_mel_ds [])) in
  MelDataset_constructed one_mel_ds /\
  after_gets MelDataset.__getitem__ one_mel_ds one_mel_ds /\
  MelDataset.__getitem__ 0 (mk_proc one_mel_ds []) = (Ok v, p1) /\
  exists i f a u,
    norm_index (length (MelDataset.mel_files one_mel_ds)) 0 = Some i /\
    MelDataset.mel_files one_mel_ds !! i = Some f /\
    MelDataset.mel_load_fn one_mel_ds f = Ok a /\
    (u = Py.replace (Py.basename f) "-feats.npy" EmptyString \/
     u = fst (Py.splitext (Py.basename f))) /\
    v = single_item (MelDataset.return_utt_id one_mel_ds) u a.
Proof.
  intros v p1.
  assert (H1 := one_mel_ds_constructed).
  assert (H2 : after_gets MelDataset.__getitem__ one_mel_ds one_mel_ds)
    by constructor.
  assert (H3 : MelDataset.__getitem__ 0 (mk_proc one_mel_ds []) = (Ok v, p1))
    by (vm_compute; reflexivity).
  split; [exact H1|]. split; [exact H2|]. split; [exact H3|].
  exact (proj1 (proj2 (proj2 X4_item_of_position))
               one_mel_ds one_mel_ds 0 [] v p1 H1 H2 H3).
Defined.

(** ** Unequal numbers of audio and feature files *)

(** X5: without length thresholds, the constructor of [AudioMelDataset]
    over a root with at least one audio file and a different number of
    feature files fails, after the two searches and before any file is
    loaded, with an [AssertionError] that states the two numbers. *)
Theorem X5_audio_mel_count_mismatch fs root aq mq ald mld r c :
  walk fs root aq <> [] ->
  length (walk fs root aq) <> length (walk fs root mq) ->
  new (AudioMelDataset.__init__ fs root aq mq ald mld None None r c)
  = (Raise (AssertionError
              (Msg ("Number of audio and mel files are different ("
                    +:+ Py.str_of_nat (length (walk fs root aq)) +:+ " vs "
                    +:+ Py.str_of_nat (length (walk fs root mq)) +:+ ")."))),
     [FindFiles root aq; FindFiles root mq]).
Proof.
  intros Ha Hne.
  unfold new, AudioMelDataset.__init__, find_files. run.
  rewrite !sorted_length.
  destruct (walk fs root aq) as [|f l] eqn:E; [contradiction|].
  simpl length at 1. cbn [Nat.eqb negb].
  apply Nat.eqb_neq in Hne. simpl in Hne. simpl. rewrite Hne. reflexivity.
Qed.

(** X5 at work: three audio files against two feature files. *)
Lemma X5_witness :
  let fs := roots [("dump", [File "u1.wav"; File "u2.wav"; File "u3.wav";
                             File "u1.h5"; File "u2.h5"])] in
  walk fs "dump" "*.wav" <> [] /\
  length (walk fs "dump" "*.wav") <> length (walk fs "dump" "*.h5") /\
  new (AudioMelDataset.__init__ fs "dump" "*.wav" "*.h5" waves mels
         None None false false)
  = (Raise (AssertionError
              (Msg "Number of audio and mel files are different (3 vs 2).")),
     [FindFiles "dump" "*.wav"; FindFiles "dump" "*.h5"]).
Proof.
  intros fs.
  assert (H1 : walk fs "dump" "*.wav" <> []) by (vm_compute; discriminate).
  assert (H2 : length (walk fs "dump" "*.wav")
               <> length (walk fs "dump" "*.h5"))
    by (vm_compute; discriminate).
  split; [exact H1|]. split; [exact H2|].
  exact (X5_audio_mel_count_mismatch fs "dump" "*.wav" "*.h5" waves mels
           false false H1 H2).
Defined.

(** ** The order in which the files are discovered *)

(** X6: a constructor depends on the discovered files only through their
    sorted list: two file systems in which the search of the root(s)
    finds the same files, in whatever order, lead to the same run of the
    constructor (the same dataset or the same error, after the same
    events). *)
Theorem X6_discovery_order fs fs' :
  (forall root aq mq ald mld at_ mt r c p,
      walk fs root aq ≡ₚ walk fs' root aq ->
      walk fs root mq ≡ₚ walk fs' root mq ->
      AudioMelDataset.__init__ fs root aq mq ald mld at_ mt r c p
      = AudioMelDataset.__init__ fs' root aq mq ald mld at_ mt r c p) /\
  (forall root aq at_ ald r c p,
      walk fs root aq ≡ₚ walk fs' root aq ->
      AudioDataset.__init__ fs root aq at_ ald r c p
      = AudioDataset.__init__ fs' root aq at_ ald r c p) /\
  (forall root mq mt mld r c p,
      walk fs root mq ≡ₚ walk fs' root mq ->
      MelDataset.__init__ fs root mq mt mld r c p
      = MelDataset.__init__ fs' root mq mt mld r c p) /\
  (forall src trg mq sld tld r c p,
      walk fs src mq ≡ₚ walk fs' src mq ->
      walk fs trg mq ≡ₚ walk fs' trg mq ->
      ParallelVCMelDataset.__init__ fs src trg mq sld tld r c p
      = ParallelVCMelDataset.__init__ fs' src trg mq sld tld r c p) /\
  (forall root mq mld r c p,
      walk fs root mq ≡ₚ walk fs' root mq ->
      SourceVCMelDataset.__init__ fs root mq mld r c p
      = SourceVCMelDataset.__init__ fs' root mq mld r c p).
Proof.
  split; [|split; [|split; [|split]]].
  - intros root aq mq ald mld at_ mt r c p Ha Hm.
    unfold AudioMelDataset.__init__, find_files. run.
    rewrite (sorted_perm_eq _ _ Ha), (sorted_perm_eq _ _ Hm). reflexivity.
  - intros root aq at_ ald r c p Ha.
    unfold AudioDataset.__init__, find_files. run.
    rewrite (sorted_perm_eq _ _ Ha). reflexivity.
  - intros root mq mt mld r c p Hm.
    unfold MelDataset.__init__, find_files. run.
    rewrite (sorted_perm_eq _ _ Hm). reflexivity.
  - intros src trg mq sld tld r c p Hs Ht.
    unfold ParallelVCMelDataset.__init__, find_files. run.
    rewrite (sorted_perm_eq _ _ Hs), (sorted_perm_eq _ _ Ht). reflexivity.
  - intros root mq mld r c p Hm.
    unfold SourceVCMelDataset.__init__, find_files. run.
    rewrite (sorted_perm_eq _ _ Hm). reflexivity.
Qed.

(** X6 at work: the directory lists its two files in either order. *)
Lemma X6_witness :
  let fs := roots [("dump", [File "u2.h5"; File "u1.h5"])] in
  let fs' := roots [("dump", [File "u1.h5"; File "u2.h5"])] in
  walk fs "dump" "*.h5" ≡ₚ walk fs' "dump" "*.h5" /\
  SourceVCMelDataset.__init__ fs "dump" "*.h5" mels true false (mk_proc tt [])
  = SourceVCMelDataset.__init__ fs' "dump" "*.h5" mels true false
      (mk_proc tt []).
Proof.
  intros fs fs'.
  assert (H : walk fs "dump" "*.h5" ≡ₚ walk fs' "dump" "*.h5")
    by (vm_compute; apply perm_swap).
  split; [exact H|].
  exact (proj2 (proj2 (proj2 (proj2 (X6_discovery_order fs fs'))))
               "dump" "*.h5" mels true false (mk_proc tt []) H).
Defined.

(** ** Utterance ids *)

Lemma string_prefix_cons a s1 b s2 :
  String.prefix (String a s1) (String b s2)
  = if ascii_dec a b then String.prefix s1 s2 else false.
Proof. reflexivity. Qed.

Lemma string_prefix_refl s : String.prefix s s = true.
Proof.
  induction s as [|a s IH]; [reflexivity|].
  rewrite string_prefix_cons. destruct (ascii_dec a a); [exact IH|contradiction].
Qed.

Lemma contains_cons sub c s :
  Py.contains sub (String c s)
  = String.prefix sub (String c s) || Py.contains sub s.
Proof. reflexivity. Qed.

Lemma replace_from_cons old new c s :
  Py.replace_from old new O (String c s)
  = if String.prefix old (String c s)
    then new +:+ Py.replace_from old new (Nat.pred (String.length old)) s
    else String c (Py.replace_from old new O s).
Proof. reflexivity. Qed.

(** Without an occurrence of [old], nothing is replaced. *)
Lemma replace_absent old new s :
  Py.contains old s = false -> Py.replace s old new = s.
Proof.
  unfold Py.replace. induction s as [|c s IH]; [reflexivity|].
  rewrite contains_cons, replace_from_cons.
  intros [Hp Hc]%orb_false_elim. rewrite Hp, IH by exact Hc. reflexivity.
Qed.

Lemma replace_skip_all old new s :
  Py.replace_from old new (String.length s) s = EmptyString.
Proof. induction s as [|c s IH]; [reflexivity|]. simpl. exact IH. Qed.

Lemma prefix_app_split p v w :
  String.prefix p (v +:+ w) = true ->
  String.prefix p v = true \/ exists t, p = v +:+ t /\ String.prefix t w = true.
Proof.
  revert p. induction v as [|x v IH]; intros p.
  - change (EmptyString +:+ w) with w. intros Hp. right. exists p. auto.
  - rewrite append_cons. destruct p as [|a p]; [left; reflexivity|].
    rewrite !string_prefix_cons. destruct (ascii_dec a x) as [->|]; [|discriminate].
    intros Hp. destruct (IH p Hp) as [Hl|(t & -> & Ht)]; [left; exact Hl|].
    right. exists t. rewrite append_cons. auto.
Qed.

Lemma rfind_head c s : Py.rfind c (String c s) <> None.
Proof.
  rewrite rfind_cons. destruct (Py.rfind c s); [discriminate|].
  rewrite Ascii.eqb_refl. discriminate.
Qed.

(** A marker whose first character does not occur again in it is stripped
    from the end of a name that does not hold it elsewhere. *)
Lemma replace_strip_suffix c r u :
  Py.rfind c r = None ->
  Py.contains (String c r) u = false ->
  Py.replace (u +:+ String c r) (String c r) EmptyString = u.
Proof.
  intros Hc. unfold Py.replace. induction u as [|x u IH].
  - intros _. change (EmptyString +:+ String c r) with (String c r).
    rewrite replace_from_cons, string_prefix_refl. simpl Nat.pred.
    rewrite replace_skip_all. reflexivity.
  - rewrite contains_cons. intros [Hp Hu]%orb_false_elim.
    rewrite append_cons, replace_from_cons.
    destruct (String.prefix (String c r) (String x (u +:+ String c r)))
      eqn:Hpre.
    + exfalso. rewrite <- append_cons in Hpre.
      destruct (prefix_app_split _ _ _ Hpre) as [Hl|(t & E & Ht)];
        [congruence|].
      destruct t as [|c' t].
      * assert (E' : String x u +:+ EmptyString = String x u).
        { clear. induction (String x u) as [|y s IHs]; [reflexivity|].
          rewrite append_cons, IHs. reflexivity. }
        rewrite E' in E. rewrite E, string_prefix_refl in Hp. discriminate.
      * rewrite string_prefix_cons in Ht.
        destruct (ascii_dec c' c) as [->|]; [|discriminate].
        rewrite append_cons in E. injection E as _ Er.
        rewrite Er, rfind_app in Hc.
        destruct (Py.rfind c (String c t)) eqn:Eh; [discriminate|].
        exact (rfind_head c t Eh).
    + rewrite IH by exact Hu. reflexivity.
Qed.

Lemma substring_prefix a b :
  String.substring 0 (String.length a) (a +:+ b) = a.
Proof.
  induction a as [|x a IH]; [destruct b; reflexivity|].
  rewrite append_cons. simpl. rewrite IH. reflexivity.
Qed.

(** The extension of a base name starts at its last dot. *)
Lemma splitext_stem u e :
  Py.rfind "/" u = None -> Py.all_dots u = false ->
  Py.rfind "." e = None -> Py.rfind "/" e = None ->
  Py.splitext (u +:+ String "." e) = (u, String "." e).
Proof.
  intros Hu Hd He Hs. unfold Py.splitext.
  rewrite !rfind_app, !rfind_cons, He, Hs, Hu.
  cbn [Ascii.eqb Bool.eqb].
  rewrite Nat.add_0_r, Nat.sub_0_r, substring_prefix, Hd.
  cbn [Nat.leb andb negb].
  rewrite append_length, Nat.add_comm, Nat.add_sub.
  rewrite (substring_drop u (String "." e)). reflexivity.
Qed.

Lemma rfind_split c p k :
  Py.rfind c p = Some k ->
  exists a b, p = a +:+ String c b /\ String.length a = k /\ Py.rfind c b = None.
Proof.
  revert k. induction p as [|d p IH]; intros k; [discriminate|].
  rewrite rfind_cons. destruct (Py.rfind c p) as [k'|] eqn:E.
  - intros [= <-]. destruct (IH k' eq_refl) as (a & b & -> & <- & Hb).
    exists (String d a), b. rewrite append_cons. auto.
  - destruct (Ascii.eqb c d) eqn:Ec; [|discriminate].
    apply Ascii.eqb_eq in Ec. subst d. intros [= <-].
    exists EmptyString, p. auto.
Qed.

(** A base name holds no slash. *)
Lemma basename_no_slash p : Py.rfind "/" (Py.basename p) = None.
Proof.
  unfold Py.basename. destruct (Py.rfind "/" p) as [k|] eqn:E; [|exact E].
  destruct (rfind_split _ _ _ E) as (a & b & -> & <- & Hb).
  replace (a +:+ String "/" b) with ((a +:+ "/") +:+ b)
    by (rewrite append_assoc; reflexivity).
  replace (S (String.length a)) with (String.length (a +:+ "/"))
    by (rewrite append_length; simpl; lia).
  replace (String.length ((a +:+ "/") +:+ b) - String.length (a +:+ "/"))%nat
    with (String.length b) by (rewrite (append_length (a +:+ "/") b); lia).
  rewrite substring_drop. exact Hb.
Qed.

Lemma rfind_app_none c a b :
  Py.rfind c (a +:+ b) = None -> Py.rfind c a = None /\ Py.rfind c b = None.
Proof.
  rewrite rfind_app. destruct (Py.rfind c b); [discriminate|]. auto.
Qed.

(** The stem of a file whose base name is [u.e]. *)
Lemma stem_of_basename f u e :
  Py.basename f = u +:+ String "." e ->
  Py.all_dots u = false -> Py.rfind "." e = None ->
  fst (Py.splitext (Py.basename f)) = u.
Proof.
  intros Hb Hd He. pose proof (basename_no_slash f) as Hs.
  rewrite Hb in *. apply rfind_app_none in Hs as [Hu Hs].
  rewrite rfind_cons in Hs. destruct (Py.rfind "/" e) eqn:E; [discriminate|].
  rewrite splitext_stem by assumption. reflexivity.
Qed.

Lemma lookup_map_Some {A B} (g : A -> B) (l : list A) i x :
  l !! i = Some x -> List.map g l !! i = Some (g x).
Proof.
  intros Hx. change (List.map g l) with (g <$> l).
  rewrite list_lookup_fmap, Hx. reflexivity.
Qed.

Lemma mel_id_stripped q files i f u :
  Py.contains ".npy" q = true -> files !! i = Some f ->
  Py.basename f = u +:+ "-feats.npy" ->
  Py.contains "-feats.npy" u = false ->
  mel_utt_ids q files !! i = Some u.
Proof.
  intros Hq Hf Hb Hu. unfold mel_utt_ids. rewrite Hq.
  rewrite (lookup_map_Some _ _ _ _ Hf), Hb. f_equal.
  apply (replace_strip_suffix "-" "feats.npy"); [reflexivity|exact Hu].
Qed.

Lemma mel_id_unmarked q files i f :
  Py.contains ".npy" q = true -> files !! i = Some f ->
  Py.contains "-feats.npy" (Py.basename f) = false ->
  mel_utt_ids q files !! i = Some (Py.basename f).
Proof.
  intros Hq Hf Hb. unfold mel_utt_ids. rewrite Hq.
  rewrite (lookup_map_Some _ _ _ _ Hf). f_equal.
  apply replace_absent. exact Hb.
Qed.

Lemma mel_id_stem q files i f u e :
  Py.contains ".npy" q = false -> files !! i = Some f ->
  Py.basename f = u +:+ String "." e ->
  Py.all_dots u = false -> Py.rfind "." e = None ->
  mel_utt_ids q files !! i = Some u.
Proof.
  intros Hq Hf Hb Hd He. unfold mel_utt_ids. rewrite Hq.
  rewrite (lookup_map_Some _ _ _ _ Hf). f_equal.
  eapply stem_of_basename; eauto.
Qed.

Lemma audio_id_stripped q files i f u :
  Py.contains ".npy" q = true -> files !! i = Some f ->
  Py.basename f = u +:+ "-wave.npy" ->
  Py.contains "-wave.npy" u = false ->
  audio_utt_ids q files !! i = Some u.
Proof.
  intros Hq Hf Hb Hu. unfold audio_utt_ids. rewrite Hq.
  rewrite (lookup_map_Some _ _ _ _ Hf), Hb. f_equal.
  apply (replace_strip_suffix "-" "wave.npy"); [reflexivity|exact Hu].
Qed.

Lemma audio_id_unmarked q files i f :
  Py.contains ".npy" q = true -> files !! i = Some f ->
  Py.contains "-wave.npy" (Py.basename f) = false ->
  audio_utt_ids q files !! i = Some (Py.basename f).
Proof.
  intros Hq Hf Hb. unfold audio_utt_ids. rewrite Hq.
  rewrite (lookup_map_Some _ _ _ _ Hf). f_equal.
  apply replace_absent. exact Hb.
Qed.

Lemma audio_id_stem q files i f u e :
  Py.contains ".npy" q = false -> files !! i = Some f ->
  Py.basename f = u +:+ String "." e ->
  Py.all_dots u = false -> Py.rfind "." e = None ->
  audio_utt_ids q files !! i = Some u.
Proof.
  intros Hq Hf Hb Hd He. unfold audio_utt_ids. rewrite Hq.
  rewrite (lookup_map_Some _ _ _ _ Hf). f_equal.
  eapply stem_of_basename; eauto.
Qed.

(** X7: with a query that names [.npy] files, the utterance id of a kept
    file whose base name is [u-feats.npy] ([u-wave.npy] for audio), where
    [u] does not hold the marker itself, is [u]; a file whose base name
    does not hold the marker keeps its whole base name, extension
    included, as its id. *)
Theorem X7_marker_stripped :
  (forall fs root mq mt mld r c p s p' i f,
      MelDataset.__init__ fs root mq mt mld r c p = (Ok s, p') ->
      Py.contains ".npy" mq = true ->
      MelDataset.mel_files s !! i = Some f ->
      (forall u, Py.basename f = u +:+ "-feats.npy" ->
                 Py.contains "-feats.npy" u = false ->
                 MelDataset.utt_ids s !! i = Some u) /\
      (Py.contains "-feats.npy" (Py.basename f) = false ->
       MelDataset.utt_ids s !! i = Some (Py.basename f))) /\
  (forall fs root aq at_ ald r c p s p' i f,
      AudioDataset.__init__ fs root aq at_ ald r c p = (Ok s, p') ->
      Py.contains ".npy" aq = true ->
      AudioDataset.audio_files s !! i = Some f ->
      (forall u, Py.basename f = u +:+ "-wave.npy" ->
                 Py.contains "-wave.npy" u = false ->
                 AudioDataset.utt_ids s !! i = Some u) /\
      (Py.contains "-wave.npy" (Py.basename f) = false ->
       AudioDataset.utt_ids s !! i = Some (Py.basename f))) /\
  (forall fs root aq mq ald mld at_ mt r c p s p' i f,
      AudioMelDataset.__init__ fs root aq mq ald mld at_ mt r c p
      = (Ok s, p') ->
      Py.contains ".npy" aq = true ->
      AudioMelDataset.audio_files s !! i = Some f ->
      (forall u, Py.basename f = u +:+ "-wave.npy" ->
                 Py.contains "-wave.npy" u = false ->
                 AudioMelDataset.utt_ids s !! i = Some u) /\
      (Py.contains "-wave.npy" (Py.basename f) = false ->
       AudioMelDataset.utt_ids s !! i = Some (Py.basename f))).
Proof.
  split; [|split].
  - intros fs root mq mt mld r c p s p' i f Hinit Hq Hf.
    apply MelDataset_init_inv in Hinit as (mf & -> & _). simpl in *.
    split; [intros u; apply mel_id_stripped|apply mel_id_unmarked];
      assumption.
  - intros fs root aq at_ ald r c p s p' i f Hinit Hq Hf.
    apply AudioDataset_init_inv in Hinit as (af & -> & _). simpl in *.
    split; [intros u; apply audio_id_stripped|apply audio_id_unmarked];
      assumption.
  - intros fs root aq mq ald mld at_ mt r c p s p' i f Hinit Hq Hf.
    apply AudioMelDataset_init_inv in Hinit as (af & mf & -> & _ & _).
    simpl in *.
    split; [intros u; apply audio_id_stripped|apply audio_id_unmarked];
      assumption.
Qed.

(** X7 at work: [u1-feats.npy] has the id [u1] in [MelDataset]. *)
Lemma X7_witness :
  let fs := roots [("dump", [File "u1-feats.npy"])] in
  let ld := load_table [("dump/u1-feats.npy", mel 3 1)] in
  let f := "dump/u1-feats.npy" in
  MelDataset.__init__ fs "dump" "*-feats.npy" None ld false true (mk_proc tt [])
  = (Ok one_mel_ds, mk_proc tt [FindFiles "dump" "*-feats.npy"]) /\
  Py.contains ".npy" "*-feats.npy" = true /\
  MelDataset.mel_files one_mel_ds !! O = Some f /\
  Py.basename f = "u1" +:+ "-feats.npy" /\
  Py.contains "-feats.npy" "u1" = false /\
  MelDataset.utt_ids one_mel_ds !! O = Some "u1".
Proof.
  intros fs ld f.
  assert (H1 : MelDataset.__init__ fs "dump" "*-feats.npy" None ld false true
                 (mk_proc tt [])
               = (Ok one_mel_ds, mk_proc tt [FindFiles "dump" "*-feats.npy"]))
    by (vm_compute; reflexivity).
  assert (H2 : Py.contains ".npy" "*-feats.npy" = true) by reflexivity.
  assert (H3 : MelDataset.mel_files one_mel_ds !! O = Some f) by reflexivity.
  assert (H4 : Py.basename f = "u1" +:+ "-feats.npy") by reflexivity.
  assert (H5 : Py.contains "-feats.npy" "u1" = false) by reflexivity.
  repeat (split; [assumption|]).
  exact (proj1 (proj1 X7_marker_stripped _ _ _ _ _ _ _ _ _ _ O f H1 H2 H3)
               "u1" H4 H5).
Defined.

(** X8: where the utterance id is the stem of the file name (always in
    [SourceVCMelDataset]; in [MelDataset], [AudioDataset] and
    [AudioMelDataset] when the query does not name [.npy] files), the id
    of a kept file whose base name is [u.e], with no dot in [e] and [u]
    not made of dots only, is [u]. *)
Theorem X8_stem_is_id :
  (forall fs root mq mld r c p s p' i f u e,
      SourceVCMelDataset.__init__ fs root mq mld r c p = (Ok s, p') ->
      SourceVCMelDataset.src_mel_files s !! i = Some f ->
      Py.basename f = u +:+ String "." e ->
      Py.all_dots u = false -> Py.rfind "." e = None ->
      SourceVCMelDataset.utt_ids s !! i = Some u) /\
  (forall fs root mq mt mld r c p s p' i f u e,
      MelDataset.__init__ fs root mq mt mld r c p = (Ok s, p') ->
      Py.contains ".npy" mq = false ->
      MelDataset.mel_files s !! i = Some f ->
      Py.basename f = u +:+ String "." e ->
      Py.all_dots u = false -> Py.rfind "." e = None ->
      MelDataset.utt_ids s !! i = Some u) /\
  (forall fs root aq at_ ald r c p s p' i f u e,
      AudioDataset.__init__ fs root aq at_ ald r c p = (Ok s, p') ->
      Py.contains ".npy" aq = false ->
      AudioDataset.audio_files s !! i = Some f ->
      Py.basename f = u +:+ String "." e ->
      Py.all_dots u = false -> Py.rfind "." e = None ->
      AudioDataset.utt_ids s !! i = Some u) /\
  (forall fs root aq mq ald mld at_ mt r c p s p' i f u e,
      AudioMelDataset.__init__ fs root aq mq ald mld at_ mt r c p
      = (Ok s, p') ->
      Py.contains ".npy" aq = false ->
      AudioMelDataset.audio_files s !! i = Some f ->
      Py.basename f = u +:+ String "." e ->
      Py.all_dots u = false -> Py.rfind "." e = None ->
      AudioMelDataset.utt_ids s !! i = Some u).
Proof.
  split; [|split; [|split]].
  - intros fs root mq mld r c p s p' i f u e Hinit Hf Hb Hd He.
    apply SourceVCMelDataset_init_inv in Hinit as (-> & _). simpl in *.
    rewrite (lookup_map_Some _ _ _ _ Hf). f_equal.
    eapply stem_of_basename; eauto.
  - intros fs root mq mt mld r c p s p' i f u e Hinit Hq Hf Hb Hd He.
    apply MelDataset_init_inv in Hinit as (mf & -> & _). simpl in *.
    eapply mel_id_stem; eauto.
  - intros fs root aq at_ ald r c p s p' i f u e Hinit Hq Hf Hb Hd He.
    apply AudioDataset_init_inv in Hinit as (af & -> & _). simpl in *.
    eapply audio_id_stem; eauto.
  - intros fs root aq mq ald mld at_ mt r c p s p' i f u e Hinit Hq Hf Hb
           Hd He.
    apply AudioMelDataset_init_inv in Hinit as (af & mf & -> & _ & _).
    simpl in *. eapply audio_id_stem; eauto.
Qed.

(** X8 at work: [u1.h5] has the id [u1] in [SourceVCMelDataset]. *)
Lemma X8_witness :
  let fs := roots [("dump", [File "u1.h5"])] in
  let s := SourceVCMelDataset.mk ["dump/u1.h5"] mels ["u1"] true false None in
  SourceVCMelDataset.__init__ fs "dump" "*.h5" mels true false (mk_proc tt [])
  = (Ok s, mk_proc tt [FindFiles "dump" "*.h5"]) /\
  SourceVCMelDataset.src_mel_files s !! O = Some "dump/u1.h5" /\
  Py.basename "dump/u1.h5" = "u1" +:+ String "." "h5" /\
  Py.all_dots "u1" = false /\ Py.rfind "." "h5" = None /\
  SourceVCMelDataset.utt_ids s !! O = Some "u1".
Proof.
  intros fs s.
  assert (H1 : SourceVCMelDataset.__init__ fs "dump" "*.h5" mels true false
                 (mk_proc tt [])
               = (Ok s, mk_proc tt [FindFiles "dump" "*.h5"]))
    by (vm_compute; reflexivity).
  assert (H2 : SourceVCMelDataset.src_mel_files s !! O = Some "dump/u1.h5")
    by reflexivity.
  assert (H3 : Py.basename "dump/u1.h5" = "u1" +:+ String "." "h5")
    by reflexivity.
  assert (H4 : Py.all_dots "u1" = false) by reflexivity.
  assert (H5 : Py.rfind "." "h5" = None) by reflexivity.
  repeat (split; [assumption|]).
  exact (proj1 X8_stem_is_id _ _ _ _ _ _ _ _ _ O "dump/u1.h5" "u1" "h5"
               H1 H2 H3 H4 H5).
Defined.

Lemma shape0_ok a n dims : shape a = n :: dims -> shape0 a = Ok n.
Proof. unfold shape0. intros ->. reflexivity. Qed.

Section FilterRuns.
Context {Self : Type}.

Lemma lengths_of_total name load files (p : proc Self) :
  Forall (measurable load) files ->
  exists lens,
    lengths_of name load files p
    = (Ok lens, mk_proc (self p) (trace p ++ List.map (Call name) files)).
Proof.
  unfold lengths_of. intros Hall. revert p.
  induction Hall as [|f files (a & n & dims & Ha & Hs) _ IH]; intros p.
  - exists []. simpl. unfold ret. rewrite app_nil_r. destruct p; reflexivity.
  - destruct (IH (mk_proc (self p) (trace p ++ [Call name f]))) as [lens E].
    exists (n :: lens). simpl.
    rewrite bind_run. unfold call at 1. rewrite !bind_run, emit_run.
    unfold lift at 1. rewrite Ha. unfold lift at 1.
    rewrite (shape0_ok _ _ _ Hs).
    rewrite bind_run, E. simpl. unfold ret. rewrite <- app_assoc.
    reflexivity.
Qed.

Lemma lengths_of_fails name load pre f post e (p : proc Self) :
  Forall (measurable load) pre -> load f = Raise e ->
  lengths_of name load (pre ++ f :: post) p
  = (Raise e,
     mk_proc (self p) (trace p ++ List.map (Call name) pre ++ [Call name f])).
Proof.
  unfold lengths_of. intros Hall Hf. revert p.
  induction Hall as [|g pre (a & n & dims & Ha & Hs) _ IH]; intros p.
  - simpl.
    rewrite bind_run. unfold call at 1. rewrite !bind_run, emit_run.
    unfold lift at 1. rewrite Hf. reflexivity.
  - simpl.
    rewrite bind_run. unfold call at 1. rewrite !bind_run, emit_run.
    unfold lift at 1. rewrite Ha. unfold lift at 1.
    rewrite (shape0_ok _ _ _ Hs).
    rewrite bind_run, IH. simpl. rewrite <- app_assoc. reflexivity.
Qed.

Lemma select_total (files : list string) idxs (p : proc Self) :
  Forall (fun i => (i < length files)%nat) idxs ->
  exists r, select files idxs p = (Ok r, p).
Proof.
  unfold select. induction 1 as [|i idxs Hi _ [r IH]].
  - exists []. reflexivity.
  - destruct (lookup_lt_is_Some_2 files i Hi) as [f Hf].
    exists (f :: r). simpl.
    rewrite bind_run. unfold lift at 1. rewrite getitem_of_nat, Hf.
    rewrite bind_run, IH. reflexivity.
Qed.

Lemma filter_seq_lt (Q : nat -> bool) n :
  Forall (fun i => (i < n)%nat) (List.filter Q (seq 0 n)).
Proof.
  apply Forall_forall. intros i Hi.
  apply list_elem_of_In, filter_In in Hi as [Hi _].
  apply in_seq in Hi. lia.
Qed.

End FilterRuns.

(** The filter of a constructor on files that can all be measured. *)
Lemma filter_runs {Self} name load (files : list string) threshold
  (p : proc Self) :
  Forall (measurable load) files ->
  exists lens idxs,
    lengths_of name load files p
    = (Ok lens, mk_proc (self p) (trace p ++ List.map (Call name) files)) /\
    (forall q : proc Self,
        keep_idxs (length files) lens threshold q = (Ok idxs, q)) /\
    (forall q : proc Self,
        select files idxs q
        = (Ok (List.filter (exceeds load threshold) files), q)) /\
    length idxs = length (List.filter (exceeds load threshold) files).
Proof.
  intros Hall.
  destruct (lengths_of_total name load files p Hall) as [lens El].
  pose proof (lengths_of_ok _ _ _ _ _ _ El) as Hlens.
  pose proof (Forall2_length _ _ _ Hlens) as Hlen.
  set (idxs := List.filter
                 (fun i => match lens !! i with
                           | Some x => threshold <? Z.of_nat x
                           | None => false
                           end) (seq 0 (length files))).
  assert (Hk : forall q : proc Self,
             keep_idxs (length files) lens threshold q = (Ok idxs, q))
    by (intros q; apply keep_idxs_ok; lia).
  assert (Hs : forall q : proc Self,
             select files idxs q
             = (Ok (List.filter (exceeds load threshold) files), q)).
  { intros q.
    destruct (select_total files idxs q (filter_seq_lt _ _)) as [r Er].
    rewrite Er. f_equal. f_equal.
    destruct (filter_stage _ _ _ _ _ _ _ _ _ _ _ _ _ _ _ _ _
                El (Hk p) Er Er) as [-> _].
    apply filter_zip_diag. }
  exists lens, idxs. split; [exact El|]. split; [exact Hk|].
  split; [exact Hs|].
  destruct (select_ok _ _ _ _ _ (Hs p)) as [_ HF].
  apply (Forall2_length _ _ _ HF).
Qed.

(** ** Construction with a length threshold *)

(** X9: the constructor of [MelDataset] with a length threshold, over
    files that can all be loaded and measured and of which at least one is
    longer than the threshold, returns the dataset of the files that are
    longer, in sorted order, with their ids and an empty cache.  It has
    searched the root once, called the load function once per discovered
    file, in sorted order, and logged one warning with the two counts if
    and only if it dropped a file. *)
Theorem X9_mel_construction fs root mq t ld r c :
  let files := Py.sorted (walk fs root mq) in
  let kept := List.filter (exceeds ld t) files in
  Forall (measurable ld) files -> kept <> [] ->
  new (MelDataset.__init__ fs root mq (Some t) ld r c)
  = (Ok (MelDataset.mk kept ld (mel_utt_ids mq kept) r c
                       (fresh_caches c (length kept))),
     FindFiles root mq
     :: filter_events "mel_load_fn" "Some files are filtered by mel"
                      files kept).
Proof.
  intros files kept Hall Hkept.
  unfold new, MelDataset.__init__, find_files. run.
  fold files.
  destruct (filter_runs "mel_load_fn" ld files t
              (mk_proc tt [FindFiles root mq]) Hall)
    as (lens & idxs & El & Hk & Hs & Hlen).
  rewrite El. simpl. rewrite Hk. simpl. rewrite Hlen. fold kept.
  assert (Hne : negb (length kept =? 0)%nat = true)
    by (destruct kept; [contradiction|reflexivity]).
  unfold filter_events.
  destruct (length files =? length kept)%nat; simpl;
    rewrite Hs; fold kept; simpl; rewrite Hne; simpl;
    rewrite <- ?app_assoc, ?app_nil_r; reflexivity.
Qed.

Lemma corpus_measurable :
  Forall (measurable waves) (Py.sorted (walk corpus "dump" "*.h5")).
Proof.
  repeat constructor; red; vm_compute; eexists _, _, _; split; reflexivity.
Qed.

(** X9 at work: of the three files of [corpus], the threshold 10 drops
    [u1], with a warning. *)
Lemma X9_witness :
  let files := Py.sorted (walk corpus "dump" "*.h5") in
  let kept := List.filter (exceeds waves 10) files in
  Forall (measurable waves) files /\ kept <> [] /\
  new (MelDataset.__init__ corpus "dump" "*.h5" (Some 10) waves false false)
  = (Ok (MelDataset.mk kept waves (mel_utt_ids "*.h5" kept) false false
                       (fresh_caches false (length kept))),
     FindFiles "dump" "*.h5"
     :: filter_events "mel_load_fn" "Some files are filtered by mel"
                      files kept).
Proof.
  intros files kept.
  assert (H1 := corpus_measurable).
  assert (H2 : kept <> []) by (vm_compute; discriminate).
  split; [exact H1|]. split; [exact H2|].
  exact (X9_mel_construction corpus "dump" "*.h5" 10 waves false false H1 H2).
Defined.

Lemma filter_all_length {A} (f : A -> bool) (l : list A) :
  List.filter f l = l <-> length (List.filter f l) = length l.
Proof.
  split; [intros ->; reflexivity|].
  intros H. apply forallb_filter_id, filter_length_forallb, H.
Qed.

(** X10: the constructor of [AudioDataset] with a length threshold, over
    files that can all be loaded and measured: when every file is longer
    than the threshold it returns the dataset of all the files, after one
    call of the load function per file; when at least one file is not, it
    raises [AttributeError] (the misspelt [logging.waning]) after the same
    calls, without a warning and whatever the number of files that are
    left. *)
Theorem X10_audio_construction fs root aq t ld r c :
  let files := Py.sorted (walk fs root aq) in
  let kept := List.filter (exceeds ld t) files in
  Forall (measurable ld) files ->
  (files <> [] -> kept = files ->
   new (AudioDataset.__init__ fs root aq (Some t) ld r c)
   = (Ok (AudioDataset.mk files ld r (audio_utt_ids aq files) c
                          (fresh_caches c (length files))),
      FindFiles root aq :: List.map (Call "audio_load_fn") files)) /\
  (kept <> files ->
   new (AudioDataset.__init__ fs root aq (Some t) ld r c)
   = (Raise (AttributeError
               (Msg "module 'logging' has no attribute 'waning'")),
      FindFiles root aq :: List.map (Call "audio_load_fn") files)).
Proof.
  intros files kept Hall.
  destruct (filter_runs "audio_load_fn" ld files t
              (mk_proc tt [FindFiles root aq]) Hall)
    as (lens & idxs & El & Hk & Hs & Hlen).
  fold kept in Hs, Hlen.
  split.
  - intros Hne Hkept.
    unfold new, AudioDataset.__init__, find_files. run. fold files.
    rewrite El. simpl. rewrite Hk. simpl. rewrite Hlen, Hkept.
    rewrite Nat.eqb_refl. simpl. rewrite Hs, Hkept. simpl.
    destruct files; [contradiction|reflexivity].
  - intros Hkept.
    assert (Hl : (length files =? length kept)%nat = false).
    { apply Nat.eqb_neq. intros E. apply Hkept.
      apply filter_all_length. symmetry. exact E. }
    unfold new, AudioDataset.__init__, find_files. run. fold files.
    rewrite El. simpl. rewrite Hk. simpl. rewrite Hlen, Hl. reflexivity.
Qed.

(** X10 at work: on the same corpus the audio-only dataset fails. *)
Lemma X10_witness :
  let files := Py.sorted (walk corpus "dump" "*.h5") in
  let kept := List.filter (exceeds waves 10) files in
  Forall (measurable waves) files /\ kept <> files /\
  new (AudioDataset.__init__ corpus "dump" "*.h5" (Some 10) waves false false)
  = (Raise (AttributeError
              (Msg "module 'logging' has no attribute 'waning'")),
     FindFiles "dump" "*.h5" :: List.map (Call "audio_load_fn") files).
Proof.
  intros files kept.
  assert (H1 := corpus_measurable).
  assert (H2 : kept <> files) by (vm_compute; discriminate).
  split; [exact H1|]. split; [exact H2|].
  exact (proj2 (X10_audio_construction corpus "dump" "*.h5" 10 waves
                  false false H1) H2).
Defined.

(** X11: a file that cannot be loaded aborts the construction with a
    length threshold: the constructor raises the error of the load
    function at the first such file, in sorted order, after the calls for
    the files before it, which could be measured, and for that file; no
    later file is loaded. *)
Theorem X11_load_error_aborts fs root q t ld e pre f post :
  Py.sorted (walk fs root q) = (pre ++ f :: post)%list ->
  Forall (measurable ld) pre -> ld f = Raise e ->
  (forall r c,
      new (MelDataset.__init__ fs root q (Some t) ld r c)
      = (Raise e,
         FindFiles root q
         :: (List.map (Call "mel_load_fn") pre ++ [Call "mel_load_fn" f])%list)) /\
  (forall r c,
      new (AudioDataset.__init__ fs root q (Some t) ld r c)
      = (Raise e,
         FindFiles root q
         :: (List.map (Call "audio_load_fn") pre
             ++ [Call "audio_load_fn" f])%list)) /\
  (forall mq mld mt r c,
      new (AudioMelDataset.__init__ fs root q mq ld mld (Some t) mt r c)
      = (Raise e,
         FindFiles root q :: FindFiles root mq
         :: (List.map (Call "audio_load_fn") pre
             ++ [Call "audio_load_fn" f])%list)).
Proof.
  intros Hfiles Hpre Hf. split; [|split].
  - intros r c. unfold new, MelDataset.__init__, find_files. run.
    rewrite Hfiles, (lengths_of_fails _ _ _ _ _ e) by assumption.
    reflexivity.
  - intros r c. unfold new, AudioDataset.__init__, find_files. run.
    rewrite Hfiles, (lengths_of_fails _ _ _ _ _ e) by assumption.
    reflexivity.
  - intros mq mld mt r c. unfold new, AudioMelDataset.__init__, find_files.
    run.
    rewrite Hfiles, (lengths_of_fails _ _ _ _ _ e) by assumption.
    reflexivity.
Qed.

(** X11 at work: the second of three files cannot be read. *)
Lemma X11_witness :
  let e := OSError (Msg "No such file or directory") in
  Py.sorted (walk corpus "dump" "*.h5")
  = (["dump/u1.h5"] ++ "dump/u2.h5" :: ["dump/u3.h5"])%list /\
  Forall (measurable first_only) ["dump/u1.h5"] /\
  first_only "dump/u2.h5" = Raise e /\
  new (MelDataset.__init__ corpus "dump" "*.h5" (Some 10) first_only
         false false)
  = (Raise e,
     FindFiles "dump" "*.h5"
     :: (List.map (Call "mel_load_fn") ["dump/u1.h5"]
         ++ [Call "mel_load_fn" "dump/u2.h5"])%list).
Proof.
  intros e.
  assert (H1 : Py.sorted (walk corpus "dump" "*.h5")
               = (["dump/u1.h5"] ++ "dump/u2.h5" :: ["dump/u3.h5"])%list)
    by (vm_compute; reflexivity).
  assert (H2 : Forall (measurable first_only) ["dump/u1.h5"])
    by (repeat constructor; red; vm_compute; eexists _, _, _;
        split; reflexivity).
  assert (H3 : first_only "dump/u2.h5" = Raise e) by reflexivity.
  split; [exact H1|]. split; [exact H2|]. split; [exact H3|].
  exact (proj1 (X11_load_error_aborts corpus "dump" "*.h5" 10 first_only e
                  ["dump/u1.h5"] "dump/u2.h5" ["dump/u3.h5"] H1 H2 H3)
               false false).
Defined.

(** ** Construction without a length threshold *)

(** X12: without a length threshold a constructor loads no file: whether
    it returns a dataset or fails, it has done nothing but search its
    root(s).  ([ParallelVCMelDataset] and [SourceVCMelDataset] take no
    threshold.) *)
Theorem X12_lazy_construction fs :
  (forall root aq mq ald mld r c,
      snd (new (AudioMelDataset.__init__ fs root aq mq ald mld None None r c))
      = [FindFiles root aq; FindFiles root mq]) /\
  (forall root aq ald r c,
      snd (new (AudioDataset.__init__ fs root aq None ald r c))
      = [FindFiles root aq]) /\
  (forall root mq mld r c,
      snd (new (MelDataset.__init__ fs root mq None mld r c))
      = [FindFiles root mq]) /\
  (forall src trg mq sld tld r c,
      snd (new (ParallelVCMelDataset.__init__ fs src trg mq sld tld r c))
      = [FindFiles src mq; FindFiles trg mq]) /\
  (forall root mq mld r c,
      snd (new (SourceVCMelDataset.__init__ fs root mq mld r c))
      = [FindFiles root mq]).
Proof.
  split; [|split; [|split; [|split]]].
  - intros. unfold new, AudioMelDataset.__init__, find_files. run. steps.
  - intros. unfold new, AudioDataset.__init__, find_files. run. steps.
  - intros. unfold new, MelDataset.__init__, find_files. run. steps.
  - intros. unfold new, ParallelVCMelDataset.__init__, find_files. run. steps.
  - intros. unfold new, SourceVCMelDataset.__init__, find_files. run. steps.
Qed.

Section DriverRuns.
Import VcDecode.

Ltac drive :=
  repeat first
    [ rewrite bind_run
    | rewrite emit_run
    | rewrite mapM_emit
    | progress unfold os_path_exists, os_makedirs, open_yaml, do_read_hdf5
    | progress unfold ret, lift, raise
    | progress cbn [self trace fst snd negb feats_scp dumpdir trg_stats
                    outdir checkpoint config src_feat_type trg_feat_type
                    verbose] ].

(** Runs the driver up to the check of the flags. *)
Ltac reach_check Hio :=
  let Hout := fresh "Hout" in
  let Hy := fresh "Hy" in
  let Hm := fresh "Hm" in
  let Hs := fresh "Hs" in
  destruct Hio as (Hout & Hy & Hm & Hs);
  unfold main; rewrite bind_run, logger_run; drive;
  match goal with
  | |- context [config_path ?a] => idtac
  | _ => idtac
  end;
  match goal with
  | a : args |- _ =>
      fold (config_path a); fold (resolved a);
      destruct (path_exists _ (outdir a)) eqn:?Ex; drive;
      [|destruct Hout as [Hout|Hout]; [discriminate|rewrite Hout; drive]];
      rewrite Hy; drive; fold (config_events a); rewrite Hm; drive;
      rewrite Hs; drive
  end.

Lemma one_flag_test a :
  (feats_scp a <> None /\ dumpdir a = None) \/
  (feats_scp a = None /\ dumpdir a <> None) ->
  (bool_decide (feats_scp a <> None) && bool_decide (dumpdir a <> None))
  || (bool_decide (feats_scp a = None) && bool_decide (dumpdir a = None))
  = false.
Proof.
  intros [[H1 H2]|[H1 H2]].
  - rewrite (bool_decide_eq_false_2 (dumpdir a <> None)) by auto.
    rewrite (bool_decide_eq_false_2 (feats_scp a = None)) by auto.
    rewrite andb_false_r. reflexivity.
  - rewrite (bool_decide_eq_false_2 (feats_scp a <> None)) by auto.
    rewrite (bool_decide_eq_false_2 (dumpdir a = None)) by auto.
    rewrite andb_false_r. reflexivity.
Qed.

(** X13: [--feats-scp] is declared and not implemented: with
    [--feats-scp] alone, when the output directory exists or can be made
    and the configuration and the statistics can be read, the driver
    raises [NotImplementedError] after that work; it opens no dataset and
    does not reach the generation. *)
Theorem X13_feats_scp_unimplemented w a generation p cfg mean scale scp :
  feats_scp a = Some scp -> dumpdir a = None ->
  io_ok w a cfg mean scale ->
  main w a generation p
  = (Raise NotImplementedError,
     mk_proc (self p) (trace p ++ io_before_check w a cfg)).
Proof.
  intros Hscp Hdump Hio.
  assert (Hflags :
            (bool_decide (feats_scp a <> None)
             && bool_decide (dumpdir a <> None))
            || (bool_decide (feats_scp a = None)
                && bool_decide (dumpdir a = None)) = false)
    by (apply one_flag_test; left; split; congruence).
  reach_check Hio.
  all: rewrite Hflags, Hdump; drive.
  all: unfold io_before_check; rewrite Ex, <- !app_assoc; reflexivity.
Qed.

Lemma bare_io_ok :
  io_ok bare_world scp_args [("model_type", VcDecode.YOther "VTN")]
        (mel 1 0) (mel 1 0).
Proof. split; [right; reflexivity|]. repeat split. Qed.

(** X13 at work. *)
Lemma X13_witness :
  let cfg := [("model_type", VcDecode.YOther "VTN")] in
  VcDecode.feats_scp scp_args = Some "feats.scp" /\
  VcDecode.dumpdir scp_args = None /\
  io_ok bare_world scp_args cfg (mel 1 0) (mel 1 0) /\
  VcDecode.main bare_world scp_args (fun _ _ => ret tt) (mk_proc tt [])
  = (Raise NotImplementedError,
     mk_proc tt ([] ++ io_before_check bare_world scp_args cfg)).
Proof.
  intros cfg.
  assert (H1 : VcDecode.feats_scp scp_args = Some "feats.scp") by reflexivity.
  assert (H2 : VcDecode.dumpdir scp_args = None) by reflexivity.
  assert (H3 := bare_io_ok).
  split; [exact H1|]. split; [exact H2|]. split; [exact H3|].
  exact (X13_feats_scp_unimplemented bare_world scp_args (fun _ _ => ret tt)
           (mk_proc tt []) cfg (mel 1 0) (mel 1 0) "feats.scp" H1 H2 H3).
Defined.

(** X14: with [--dumpdir] alone, when the output directory exists or can
    be made and the configuration and the statistics can be read, the
    driver searches the dump directory for [*.h5] files.  When there is
    none it fails with the [AssertionError] that names the directory.
    Otherwise it logs the number of files and hands over to the
    generation the merged configuration and the source-only dataset of
    the sorted files, which reads each file with [--src-feat-type] as
    key, returns utterance ids and does not cache; no feature file has
    been read by then. *)
Theorem X14_dumpdir_dataset w a generation p cfg mean scale d :
  feats_scp a = None -> dumpdir a = Some d ->
  io_ok w a cfg mean scale ->
  let found := walk (fs w) d "*.h5" in
  let searched :=
    (trace p ++ io_before_check w a cfg ++ [FindFiles d "*.h5"])%list in
  (found = [] ->
   main w a generation p
   = (Raise (AssertionError (not_found_msg "mel" d)),
      mk_proc (self p) searched)) /\
  (found <> [] ->
   main w a generation p
   = generation (merged_config a cfg mean scale) (decode_dataset w a d)
       (mk_proc (self p)
          (searched
           ++ [LogInfo (Msg ("The number of features to be decoded = "
                             +:+ Py.str_of_nat (length found) +:+ "."))]))).
Proof.
  intros Hscp Hdump Hio found searched. subst found searched.
  assert (Hflags :
            (bool_decide (feats_scp a <> None)
             && bool_decide (dumpdir a <> None))
            || (bool_decide (feats_scp a = None)
                && bool_decide (dumpdir a = None)) = false)
    by (apply one_flag_test; right; split; congruence).
  split; intros Hfound; reach_check Hio.
  all: rewrite Hflags, Hdump; drive.
  all: unfold SourceVCMelDataset.__init__, find_files; drive.
  all: unfold assert.
  1, 2: rewrite Hfound; drive;
        unfold io_before_check; rewrite Ex, <- !app_assoc; reflexivity.
  all: assert (Hne : negb (length (Py.sorted (walk (fs w) d "*.h5")) =? 0)%nat
                     = true)
         by (rewrite sorted_length;
             destruct (walk (fs w) d "*.h5"); [contradiction|reflexivity]).
  all: rewrite Hne; drive.
  all: cbn [SourceVCMelDataset.src_mel_files fresh_caches].
  all: rewrite !sorted_length.
  all: unfold io_before_check, merged_config, decode_dataset;
       rewrite Ex, <- !app_assoc; reflexivity.
Qed.

Lemma dump_io_ok :
  io_ok dump_world dump_args [("model_type", VcDecode.YOther "VTN")]
        (mel 1 0) (mel 1 0).
Proof. split; [left; reflexivity|]. repeat split. Qed.

(** X14 at work on the dump directory with two feature files. *)
Lemma X14_witness :
  let cfg := [("model_type", VcDecode.YOther "VTN")] in
  let found := walk (VcDecode.fs dump_world) "dump" "*.h5" in
  VcDecode.feats_scp dump_args = None /\
  VcDecode.dumpdir dump_args = Some "dump" /\
  io_ok dump_world dump_args cfg (mel 1 0) (mel 1 0) /\
  found <> [] /\
  VcDecode.main dump_world dump_args (fun _ _ => ret tt) (mk_proc tt [])
  = (Ok tt,
     mk_proc tt
       (([] ++ io_before_check dump_world dump_args cfg
            ++ [FindFiles "dump" "*.h5"])
        ++ [LogInfo (Msg ("The number of features to be decoded = "
                          +:+ Py.str_of_nat (length found) +:+ "."))])).
Proof.
  intros cfg found.
  assert (H1 : VcDecode.feats_scp dump_args = None) by reflexivity.
  assert (H2 : VcDecode.dumpdir dump_args = Some "dump") by reflexivity.
  assert (H3 := dump_io_ok).
  assert (H4 : found <> []) by (vm_compute; discriminate).
  split; [exact H1|]. split; [exact H2|]. split; [exact H3|].
  split; [exact H4|].
  exact (proj2 (X14_dumpdir_dataset dump_world dump_args (fun _ _ => ret tt)
                  (mk_proc tt []) cfg (mel 1 0) (mel 1 0) "dump" H1 H2 H3)
               H4).
Defined.

(** ** The merged configuration *)

Lemma dict_get_set_eq k v d : dict_get k (dict_set k v d) = Some v.
Proof.
  induction d as [|[k' v'] d IH]; simpl.
  - rewrite String.eqb_refl. reflexivity.
  - destruct (String.eqb k k') eqn:E; simpl; rewrite ?String.eqb_refl, ?E;
      [reflexivity|exact IH].
Qed.

Lemma dict_get_set_ne k k' v d :
  k <> k' -> dict_get k (dict_set k' v d) = dict_get k d.
Proof.
  intros Hne. apply String.eqb_neq in Hne as Hkk.
  induction d as [|[k0 v0] d IH]; simpl.
  - rewrite Hkk. reflexivity.
  - destruct (String.eqb k' k0) eqn:E; simpl.
    + apply String.eqb_eq in E. subst k0. rewrite Hkk. reflexivity.
    + destruct (String.eqb k k0); [reflexivity|exact IH].
Qed.

Ltac lookup :=
  unfold merged_config, dict_update, vars; cbn [fold_left fst snd resolved
    feats_scp dumpdir trg_stats outdir checkpoint config src_feat_type
    trg_feat_type verbose];
  repeat (rewrite dict_get_set_ne by discriminate);
  rewrite ?dict_get_set_eq; try reflexivity.

(** X15: the command line takes precedence over the configuration file.
    In the configuration that the driver works with, every key that is a
    command-line argument holds the value of the command line ([None] for
    a flag that was not given), [config] holds the path that the
    configuration was read from, [trg_stats] holds the statistics read
    from the file and no longer its path, and every other key holds what
    the configuration file says. *)
Theorem X15_command_line_overrides a cfg mean scale :
  let m := merged_config a cfg mean scale in
  dict_get "feats_scp" m = Some (str_of_opt (feats_scp a)) /\
  dict_get "dumpdir" m = Some (str_of_opt (dumpdir a)) /\
  dict_get "trg_stats" m = Some (YStats mean scale) /\
  dict_get "outdir" m = Some (YStr (outdir a)) /\
  dict_get "checkpoint" m = Some (YStr (checkpoint a)) /\
  dict_get "config" m = Some (YStr (config_path a)) /\
  dict_get "src_feat_type" m = Some (YStr (src_feat_type a)) /\
  dict_get "trg_feat_type" m = Some (YStr (trg_feat_type a)) /\
  dict_get "verbose" m = Some (YInt (verbose a)) /\
  forall k, ~ In k (List.map fst (vars a)) -> dict_get k m = dict_get k cfg.
Proof.
  intros m. subst m. repeat split; try (lookup; fail).
  intros k Hk. simpl in Hk.
  unfold merged_config, dict_update, vars. cbn [fold_left fst snd].
  repeat (rewrite dict_get_set_ne by (intros ->; apply Hk; tauto)).
  reflexivity.
Qed.

(** X15 at work: a key of the file that is no argument is kept. *)
Lemma X15_witness :
  let m := merged_config bare_args [("model_type", YOther "VTN");
                                    ("outdir", YStr "elsewhere")]
                         (mel 1 0) (mel 1 1) in
  ~ In "model_type" (List.map fst (vars bare_args)) /\
  dict_get "model_type" m = Some (YOther "VTN") /\
  dict_get "outdir" m = Some (YStr "exp/out").
Proof.
  intros m.
  assert (H : ~ In "model_type" (List.map fst (vars bare_args))).
  { simpl. intros H. repeat destruct H as [H|H]; try discriminate H. exact H. }
  split; [exact H|]. split.
  - exact (proj2 (proj2 (proj2 (proj2 (proj2 (proj2 (proj2 (proj2 (proj2
             (X15_command_line_overrides bare_args _ (mel 1 0) (mel 1 1)))))))))) "model_type" H).
  - reflexivity.
Defined.

(** ** Failures before the check of the flags *)

(** X16: an input or output step that fails aborts the driver with the
    error of that step, whatever the flags are: the steps before it have
    been done, and none after it (when the output directory cannot be
    made, no configuration is read; when the configuration cannot be
    read, no statistics are read; and so on).  No dataset is opened and
    the generation is not reached. *)
Theorem X16_io_failure_aborts w a generation p e :
  let made := if path_exists w (outdir a) then [] else [MakeDirs (outdir a)] in
  let start := (trace p ++ logger_events a ++ [PathExists (outdir a)])%list in
  (path_exists w (outdir a) = false -> makedirs w (outdir a) = Raise e ->
   main w a generation p
   = (Raise e, mk_proc (self p) (start ++ [MakeDirs (outdir a)]))) /\
  ((path_exists w (outdir a) = true \/ makedirs w (outdir a) = Ok tt) ->
   (yaml_load w (config_path a) = Raise e ->
    main w a generation p
    = (Raise e,
       mk_proc (self p) (start ++ made ++ [OpenYaml (config_path a)]))) /\
   (forall cfg,
       yaml_load w (config_path a) = Ok cfg ->
       let logged :=
         (start ++ made ++ [OpenYaml (config_path a)]
          ++ config_events a cfg)%list in
       (read_hdf5 w (trg_stats a) "mean" = Raise e ->
        main w a generation p
        = (Raise e,
           mk_proc (self p) (logged ++ [ReadHdf5 (trg_stats a) "mean"]))) /\
       (forall mean,
           read_hdf5 w (trg_stats a) "mean" = Ok mean ->
           read_hdf5 w (trg_stats a) "scale" = Raise e ->
           main w a generation p
           = (Raise e,
              mk_proc (self p)
                (logged ++ [ReadHdf5 (trg_stats a) "mean";
                            ReadHdf5 (trg_stats a) "scale"]))))).
Proof.
  intros made start. subst made start. split; [|intros Hout; split].
  - intros Ex Hmk. unfold main. rewrite bind_run, logger_run. drive.
    rewrite Ex. drive. rewrite Hmk. drive.
    rewrite <- !app_assoc. reflexivity.
  - intros Hy. unfold main. rewrite bind_run, logger_run. drive.
    fold (config_path a).
    destruct (path_exists w (outdir a)) eqn:Ex; drive;
      [|destruct Hout as [Hout|Hout]; [discriminate|rewrite Hout; drive]].
    all: rewrite Hy; drive; rewrite <- !app_assoc; reflexivity.
  - intros cfg Hy logged. subst logged. split.
    + intros Hm. unfold main. rewrite bind_run, logger_run. drive.
      fold (config_path a).
      destruct (path_exists w (outdir a)) eqn:Ex; drive;
        [|destruct Hout as [Hout|Hout]; [discriminate|rewrite Hout; drive]].
      all: rewrite Hy; drive; fold (config_events a cfg).
      all: rewrite Hm; drive; rewrite <- !app_assoc; reflexivity.
    + intros mean Hm Hs. unfold main. rewrite bind_run, logger_run. drive.
      fold (config_path a).
      destruct (path_exists w (outdir a)) eqn:Ex; drive;
        [|destruct Hout as [Hout|Hout]; [discriminate|rewrite Hout; drive]].
      all: rewrite Hy; drive; fold (config_events a cfg).
      all: rewrite Hm; drive; rewrite Hs; drive.
      all: rewrite <- !app_assoc; reflexivity.
Qed.

(** X16 at work: the configuration file is missing. *)
Lemma X16_witness :
  let e := OSError (Msg "No such file or directory") in
  (VcDecode.path_exists unconfigured_world (VcDecode.outdir bare_args) = true \/
   VcDecode.makedirs unconfigured_world (VcDecode.outdir bare_args) = Ok tt) /\
  VcDecode.yaml_load unconfigured_world (config_path bare_args) = Raise e /\
  VcDecode.main unconfigured_world bare_args (fun _ _ => ret tt)
                (mk_proc tt [])
  = (Raise e,
     mk_proc tt
       (([] ++ logger_events bare_args
            ++ [PathExists (VcDecode.outdir bare_args)])
        ++ (if VcDecode.path_exists unconfigured_world
                  (VcDecode.outdir bare_args)
            then [] else [MakeDirs (VcDecode.outdir bare_args)])
        ++ [OpenYaml (config_path bare_args)])).
Proof.
  intros e.
  assert (H1 : VcDecode.path_exists unconfigured_world
                 (VcDecode.outdir bare_args) = true \/
               VcDecode.makedirs unconfigured_world
                 (VcDecode.outdir bare_args) = Ok tt)
    by (left; reflexivity).
  assert (H2 : VcDecode.yaml_load unconfigured_world (config_path bare_args)
               = Raise e) by reflexivity.
  split; [exact H1|]. split; [exact H2|].
  exact (proj1 (proj2 (X16_io_failure_aborts unconfigured_world bare_args
                         (fun _ _ => ret tt) (mk_proc tt []) e) H1) H2).
Defined.

(** ** Where the configuration is read from *)

Lemma rstrip_slash_app_slash d :
  Py.rstrip_slash (d +:+ "/") = Py.rstrip_slash d.
Proof.
  induction d as [|c d IH]; [reflexivity|].
  rewrite append_cons. simpl. rewrite IH. reflexivity.
Qed.

Lemma rstrip_slash_length s :
  (String.length (Py.rstrip_slash s) <= String.length s)%nat.
Proof.
  induction s as [|c s IH]; simpl; [lia|].
  destruct (Py.rstrip_slash s) eqn:E.
  - destruct (Ascii.eqb c "/"); simpl; lia.
  - simpl in *. lia.
Qed.

(** A path that [rstrip] leaves alone does not end with a slash. *)
Lemma rstrip_slash_fixed d c :
  Py.rstrip_slash d = d ->
  String.get (Nat.pred (String.length d)) d = Some c -> c <> "/"%char.
Proof.
  intros Hfix Hget ->. destruct (last_char d _ Hget) as [q ->].
  rewrite rstrip_slash_app_slash in Hfix.
  pose proof (rstrip_slash_length q) as Hlen.
  rewrite Hfix, append_length in Hlen. simpl in Hlen. lia.
Qed.

Lemma join_relative d n :
  d <> EmptyString -> Py.rstrip_slash d = d ->
  String.prefix "/" n = false ->
  Py.join d n = d +:+ "/" +:+ n.
Proof.
  intros Hd Hfix Hn. unfold Py.join. rewrite Hn.
  destruct (String.eqb d EmptyString) eqn:E;
    [apply String.eqb_eq in E; contradiction|].
  destruct (String.get (Nat.pred (String.length d)) d) as [c|] eqn:Hg;
    [|reflexivity].
  pose proof (rstrip_slash_fixed d c Hfix Hg) as Hc.
  apply Ascii.eqb_neq in Hc. rewrite Hc. reflexivity.
Qed.

Lemma dirname_of_file d n :
  d <> EmptyString -> Py.rstrip_slash d = d -> Py.rfind "/" n = None ->
  Py.dirname (d +:+ "/" +:+ n) = d.
Proof.
  intros Hd Hfix Hn. unfold Py.dirname.
  rewrite rfind_app. change ("/" +:+ n) with (String "/" n).
  rewrite rfind_cons, Hn. cbn [Ascii.eqb Bool.eqb].
  rewrite Nat.add_0_r.
  replace (d +:+ String "/" n) with ((d +:+ "/") +:+ n)
    by (rewrite append_assoc; reflexivity).
  replace (S (String.length d)) with (String.length (d +:+ "/"))
    by (rewrite append_length; simpl; lia).
  rewrite substring_prefix, rstrip_slash_app_slash, Hfix.
  destruct d; [contradiction|reflexivity].
Qed.

(** X17: the configuration is read from the path given with [--config];
    without that flag, from the file [config.yml] in the directory of the
    checkpoint: [d/config.yml] for a checkpoint [d/name], where [d] is not
    empty and does not end with a slash, and [config.yml] in the working
    directory for a checkpoint given by its bare name. *)
Theorem X17_config_beside_checkpoint a :
  (forall c, config a = Some c -> config_path a = c) /\
  (config a = None ->
   (Py.rfind "/" (checkpoint a) = None -> config_path a = "config.yml") /\
   (forall d name,
       checkpoint a = d +:+ "/" +:+ name ->
       d <> EmptyString -> Py.rstrip_slash d = d ->
       Py.rfind "/" name = None ->
       config_path a = d +:+ "/config.yml")).
Proof.
  unfold config_path. split; [intros c ->; reflexivity|].
  intros ->. split.
  - intros Hn. unfold Py.dirname. rewrite Hn. reflexivity.
  - intros d name -> Hd Hfix Hn.
    rewrite dirname_of_file, join_relative by (assumption || reflexivity).
    reflexivity.
Qed.

(** X17 at work on [exp/checkpoint-100.pkl]. *)
Lemma X17_witness :
  config bare_args = None /\
  checkpoint bare_args = "exp" +:+ "/" +:+ "checkpoint-100.pkl" /\
  "exp" <> EmptyString /\ Py.rstrip_slash "exp" = "exp" /\
  Py.rfind "/" "checkpoint-100.pkl" = None /\
  config_path bare_args = "exp" +:+ "/config.yml".
Proof.
  assert (H1 : config bare_args = None) by reflexivity.
  assert (H2 : checkpoint bare_args = "exp" +:+ "/" +:+ "checkpoint-100.pkl")
    by reflexivity.
  assert (H3 : "exp" <> EmptyString) by discriminate.
  assert (H4 : Py.rstrip_slash "exp" = "exp") by reflexivity.
  assert (H5 : Py.rfind "/" "checkpoint-100.pkl" = None) by reflexivity.
  repeat (split; [assumption|]).
  exact (proj2 (proj2 (X17_config_beside_checkpoint bare_args) H1)
               "exp" "checkpoint-100.pkl" H2 H3 H4 H5).
Defined.

End DriverRuns.

Lemma decode_loop_step fuel body ds i p :
  decode_loop (S fuel) body ds i p
  = match SourceVCMelDataset.__getitem__ (Z.of_nat i)
            (mk_proc ds (trace p)) with
    | (Ok item, q) =>
        (body (S i) item ;; decode_loop fuel body (self q) (S i))
          (mk_proc tt (trace q))
    | (Raise (IndexError m), q) => (Ok true, mk_proc tt (trace q))
    | (Raise e, q) => (Raise e, mk_proc tt (trace q))
    end.
Proof. reflexivity. Qed.

Lemma decode_loop_suffix (load : load_fn) body r files k :
  (forall i v, readonly (body i v)) ->
  (forall i v, value_of (body i v) tt = Ok tt) ->
  let ds := SourceVCMelDataset.mk files load
              (List.map (fun f => fst (Py.splitext (Py.basename f))) files)
              true false r in
  forall rest done i tr,
    files = (done ++ rest)%list -> i = length done ->
    decode_loop (S (length rest) + k) body ds i (mk_proc tt tr)
    = (loop_result load rest,
       mk_proc tt (tr ++ loop_events load body i rest)).
Proof.
  intros Hro Hok ds rest.
  induction rest as [|f rest IH]; intros done i tr Hfiles Hi.
  - cbn [length Nat.add]. rewrite decode_loop_step.
    unfold SourceVCMelDataset.__getitem__.
    rewrite (with_cache_disabled (SourceVCMelDataset.load_items _)
               (items_readonly _)) by reflexivity.
    unfold value_of, events_of. cbn [self trace].
    rewrite SourceVCMelDataset_load_items.
    assert (Hn : norm_index (length (SourceVCMelDataset.utt_ids ds))
                            (Z.of_nat i) = None).
    { simpl. rewrite length_map, Hfiles, app_nil_r, Hi.
      unfold norm_index.
      rewrite (proj2 (Z.ltb_ge _ _)) by lia.
      rewrite Z.ltb_irrefl, andb_false_r. reflexivity. }
    rewrite (getitem_rejects _ _ _ eq_refl Hn). simpl.
    rewrite !app_nil_r. reflexivity.
  - cbn [length Nat.add]. rewrite decode_loop_step.
    unfold SourceVCMelDataset.__getitem__.
    rewrite (with_cache_disabled (SourceVCMelDataset.load_items _)
               (items_readonly _)) by reflexivity.
    unfold value_of, events_of. cbn [self trace].
    rewrite SourceVCMelDataset_load_items.
    assert (Hf : files !! i = Some f).
    { rewrite Hfiles, Hi. apply list_lookup_middle. reflexivity. }
    rewrite !getitem_of_nat.
    cbn [SourceVCMelDataset.utt_ids SourceVCMelDataset.src_mel_files
         SourceVCMelDataset.mel_load_fn SourceVCMelDataset.return_utt_id ds].
    rewrite (lookup_map_Some _ _ _ _ Hf), Hf.
    destruct (load f) as [x|e] eqn:El; cbn [fst snd self trace].
    + rewrite bind_run, (Hro _ _ (mk_proc tt _)). cbn [self trace].
      rewrite Hok.
      rewrite (IH (done ++ [f])%list (S i))
        by (rewrite <- ?app_assoc, ?length_app; simpl; (assumption || lia)).
      cbn [loop_result loop_events]. rewrite El.
      rewrite <- !app_assoc. reflexivity.
    + cbn [loop_result loop_events]. rewrite El.
      destruct e; rewrite ?app_nil_r; reflexivity.
Qed.

Lemma loop_result_ok (load : load_fn) files :
  Forall (fun f => exists x, load f = Ok x) files ->
  loop_result load files = Ok true.
Proof.
  induction 1 as [|f files [x Hx] _ IH]; simpl; [reflexivity|].
  rewrite Hx. exact IH.
Qed.

Lemma loop_result_fails (load : load_fn) pre f post e :
  Forall (fun f => exists x, load f = Ok x) pre -> load f = Raise e ->
  loop_result load (pre ++ f :: post)
  = match e with IndexError _ => Ok true | _ => Raise e end.
Proof.
  induction 1 as [|g pre [x Hx] _ IH]; simpl; intros Hf.
  - rewrite Hf. destruct e; reflexivity.
  - rewrite Hx. apply IH, Hf.
Qed.

Lemma loop_events_fails (load : load_fn) body i pre f post e :
  Forall (fun f => exists x, load f = Ok x) pre -> load f = Raise e ->
  loop_events load body i (pre ++ f :: post)
  = (loop_events load body i pre ++ [Call "mel_load_fn" f])%list.
Proof.
  intros Hpre Hf. revert i.
  induction Hpre as [|g pre [x Hx] _ IH]; intros i; simpl.
  - rewrite Hf. reflexivity.
  - rewrite Hx, IH, <- app_assoc. reflexivity.
Qed.

(** ** The loop of the driver *)

(** X18: the loop of the driver over the dataset of the dump directory
    ends: with room for one call of [__getitem__] more than there are
    files, it calls the body once for each [*.h5] file, in sorted order,
    with the numbers 1, 2, ... and the item [(utt_id, array)] of the file
    read with [--src-feat-type] as key, and leaves at the [IndexError] of
    the index after the last file.  (The body stands for the inference,
    the plots and the output files; it is assumed to return and to emit
    events only.)  A file that cannot be read ends the run with its
    error after the files before it, unless the error is an [IndexError],
    which ends the loop as if the dataset were exhausted: the files after
    it are skipped and no error is reported. *)
Theorem X18_decode_loop w a d body k tr :
  (forall i v, readonly (body i v)) ->
  (forall i v, value_of (body i v) tt = Ok tt) ->
  let load : load_fn := fun x => VcDecode.read_hdf5 w x (VcDecode.src_feat_type a) in
  let files := Py.sorted (walk (VcDecode.fs w) d "*.h5") in
  decode_loop (S (length files) + k) body (decode_dataset w a d) O
              (mk_proc tt tr)
  = (loop_result load files,
     mk_proc tt (tr ++ loop_events load body O files)) /\
  (Forall (fun f => exists x, load f = Ok x) files ->
   loop_result load files = Ok true) /\
  (forall pre f post e,
      files = (pre ++ f :: post)%list ->
      Forall (fun f => exists x, load f = Ok x) pre -> load f = Raise e ->
      loop_result load files
      = match e with IndexError _ => Ok true | _ => Raise e end /\
      loop_events load body O files
      = (loop_events load body O pre ++ [Call "mel_load_fn" f])%list).
Proof.
  intros Hro Hok load files. split; [|split].
  - exact (decode_loop_suffix load body None files k Hro Hok files [] O tr
             eq_refl eq_refl).
  - apply loop_result_ok.
  - intros pre f post e -> Hpre Hf. split.
    + apply loop_result_fails; assumption.
    + eapply loop_events_fails; eassumption.
Qed.

(** X18 at work: the loop over the two files of the dump directory, with
    a body that does nothing. *)
Lemma X18_witness :
  let body : nat -> pyval -> M unit unit := fun _ _ => ret tt in
  let load : load_fn :=
    fun x => VcDecode.read_hdf5 dump_world x
               (VcDecode.src_feat_type dump_args) in
  let files := Py.sorted (walk (VcDecode.fs dump_world) "dump" "*.h5") in
  (forall i v, readonly (body i v)) /\
  (forall i v, value_of (body i v) tt = Ok tt) /\
  decode_loop (S (length files) + 0) body
              (decode_dataset dump_world dump_args "dump") O (mk_proc tt [])
  = (loop_result load files,
     mk_proc tt ([] ++ loop_events load body O files)) /\
  loop_result load files = Ok true /\
  loop_events load body O files
  = [Call "mel_load_fn" "dump/a.h5"; Call "mel_load_fn" "dump/b.h5"].
Proof.
  intros body load files.
  assert (H1 : forall i v, readonly (body i v))
    by (intros i v; apply readonly_ret).
  assert (H2 : forall i v, value_of (body i v) tt = Ok tt) by reflexivity.
  split; [exact H1|]. split; [exact H2|]. split.
  - exact (proj1 (X18_decode_loop dump_world dump_args "dump" body O []
                    H1 H2)).
  - split; vm_compute; reflexivity.
Defined.

(** ** Pairs of files *)

Lemma stems_join root names :
  Forall (fun n => Py.rfind "/" n = None) names ->
  ParallelVCMelDataset.stems (List.map (Py.join root) names)
  = List.map (fun n => fst (Py.splitext n)) names.
Proof.
  unfold ParallelVCMelDataset.stems.
  induction 1 as [|n names Hn _ IH]; simpl; [reflexivity|].
  rewrite (basename_join root n Hn), IH. reflexivity.
Qed.

Lemma zip_map_same {A B C} (f : A -> B) (g : A -> C) (l : list A) :
  zip (List.map f l) (List.map g l) = List.map (fun x => (f x, g x)) l.
Proof. induction l as [|x l IH]; simpl; [reflexivity|]. rewrite IH. reflexivity. Qed.

(** X19: over two roots that hold, directly in them, files of the same
    names, the parallel dataset is constructed and pairs each source file
    with the target file of the same name, in the sorted order of the
    names; its utterance ids are the sorted stems of the names, which are
    the stems of the files position by position when sorting the names
    sorts their stems. *)
Theorem X19_parallel_same_names fs src trg q names names' sld tld r c :
  walk fs src q = List.map (Py.join src) names ->
  walk fs trg q = List.map (Py.join trg) names' ->
  names ≡ₚ names' -> names <> [] ->
  Forall (fun n => Py.rfind "/" n = None) names ->
  let sorted_names := Py.sorted names in
  let stems := List.map (fun n => fst (Py.splitext n)) sorted_names in
  exists ds,
    new (ParallelVCMelDataset.__init__ fs src trg q sld tld r c)
    = (Ok ds, [FindFiles src q; FindFiles trg q]) /\
    ParallelVCMelDataset.mel_files ds
    = List.map (fun n => (Py.join src n, Py.join trg n)) sorted_names /\
    ParallelVCMelDataset.utt_ids ds = Py.sorted stems /\
    (Sorted str_le stems -> ParallelVCMelDataset.utt_ids ds = stems).
Proof.
  intros Hs Ht Hperm Hne Hnames sorted_names stems.
  assert (Hnames' : Forall (fun n => Py.rfind "/" n = None) sorted_names).
  { rewrite Forall_forall in *. intros n Hn. apply Hnames.
    unfold sorted_names in Hn. rewrite sorted_perm in Hn. exact Hn. }
  assert (Hrel : forall l, Forall (fun n => Py.rfind "/" n = None) l ->
                           Forall (fun n => String.prefix "/" n = false) l).
  { intros l Hl. eapply Forall_impl; [exact Hl|].
    intros n. apply rfind_none_prefix. }
  assert (Hnames2 : Forall (fun n => Py.rfind "/" n = None) names').
  { rewrite Forall_forall in *. intros n Hn. apply Hnames.
    rewrite Hperm. exact Hn. }
  assert (Es : Py.sorted (walk fs src q) = List.map (Py.join src) sorted_names)
    by (rewrite Hs; apply sorted_join, Hrel, Hnames).
  assert (Et : Py.sorted (walk fs trg q) = List.map (Py.join trg) sorted_names).
  { rewrite Ht, sorted_join by (apply Hrel, Hnames2).
    unfold sorted_names. rewrite (sorted_perm_eq _ _ Hperm). reflexivity. }
  assert (Hlen : negb (length sorted_names =? 0)%nat = true).
  { unfold sorted_names. rewrite sorted_length.
    destruct names; [contradiction|reflexivity]. }
  eexists. split.
  - unfold new, ParallelVCMelDataset.__init__, find_files. run.
    rewrite Es, Et, !length_map, Hlen. simpl.
    rewrite !stems_join by exact Hnames'.
    rewrite bool_decide_eq_true_2 by reflexivity. simpl. reflexivity.
  - simpl. split; [apply zip_map_same|]. split; [reflexivity|].
    intros Hsorted. apply sorted_unique; [reflexivity|exact Hsorted].
Qed.

(** X19 at work on two roots with the files [x.npy] and [y.npy]. *)
Lemma X19_witness :
  let fs := roots [("src", [File "y.npy"; File "x.npy"]);
                   ("trg", [File "x.npy"; File "y.npy"])] in
  let names := ["y.npy"; "x.npy"] in
  let names' := ["x.npy"; "y.npy"] in
  walk fs "src" "*.npy" = List.map (Py.join "src") names /\
  walk fs "trg" "*.npy" = List.map (Py.join "trg") names' /\
  names ≡ₚ names' /\ names <> [] /\
  Forall (fun n => Py.rfind "/" n = None) names /\
  exists ds,
    new (ParallelVCMelDataset.__init__ fs "src" "trg" "*.npy"
           nested_mels nested_mels true false)
    = (Ok ds, [FindFiles "src" "*.npy"; FindFiles "trg" "*.npy"]) /\
    ParallelVCMelDataset.mel_files ds
    = List.map (fun n => (Py.join "src" n, Py.join "trg" n))
               (Py.sorted names).
Proof.
  intros fs names names'.
  assert (H1 : walk fs "src" "*.npy" = List.map (Py.join "src") names)
    by (vm_compute; reflexivity).
  assert (H2 : walk fs "trg" "*.npy" = List.map (Py.join "trg") names')
    by (vm_compute; reflexivity).
  assert (H3 : names ≡ₚ names') by apply perm_swap.
  assert (H4 : names <> []) by discriminate.
  assert (H5 : Forall (fun n => Py.rfind "/" n = None) names)
    by (repeat constructor).
  repeat (split; [assumption|]).
  destruct (X19_parallel_same_names fs "src" "trg" "*.npy" names names'
              nested_mels nested_mels true false H1 H2 H3 H4 H5)
    as (ds & Hds & Hfiles & _).
  exists ds. split; [exact Hds|exact Hfiles].
Defined.

Lemma filter_zip_same {A} (P : A * A -> bool) (l : list A) :
  (List.filter P (zip l l)).*1 = (List.filter P (zip l l)).*2.
Proof.
  induction l as [|x l IH]; simpl; [reflexivity|].
  destruct (P (x, x)); simpl; [f_equal|]; exact IH.
Qed.

(** X20: with one query for the audio and for the features (as with the
    default [*.h5], where one file holds both), every position of an
    [AudioMelDataset] pairs the audio and the features of the same file,
    whatever the thresholds are. *)
Theorem X20_audio_mel_same_file fs root q ald mld at_ mt r c p s p' :
  AudioMelDataset.__init__ fs root q q ald mld at_ mt r c p = (Ok s, p') ->
  AudioMelDataset.audio_files s = AudioMelDataset.mel_files s.
Proof.
  intros Hinit.
  destruct (AudioMelDataset_init_files _ _ _ _ _ _ _ _ _ _ _ _ _ Hinit)
    as [-> ->].
  apply filter_zip_same.
Qed.

(** X20 at work on the corpus of three utterances. *)
Lemma X20_witness :
  let s := AudioMelDataset.mk ["dump/u2.h5"] waves mels ["dump/u2.h5"]
                              ["u2"] false false None in
  exists p',
    AudioMelDataset.__init__ corpus "dump" "*.h5" "*.h5" waves mels
      (Some 10) (Some 10) false false (mk_proc tt []) = (Ok s, p') /\
    AudioMelDataset.audio_files s = AudioMelDataset.mel_files s.
Proof.
  intros s. eexists.
  assert (H : AudioMelDataset.__init__ corpus "dump" "*.h5" "*.h5" waves mels
                (Some 10) (Some 10) false false (mk_proc tt [])
              = (Ok s, _)) by (vm_compute; reflexivity).
  split; [exact H|].
  exact (X20_audio_mel_same_file _ _ _ _ _ _ _ _ _ _ _ _ H).
Defined.

(** The filter on the first of two lists, of which the second is not the
    shorter one. *)
Lemma filter_runs_pairs {Self} name load (X Y : list string) threshold
  (p : proc Self) :
  Forall (measurable load) X -> (length X <= length Y)%nat ->
  let kept := List.filter (fun xy => exceeds load threshold (fst xy))
                          (zip X Y) in
  exists lens idxs,
    lengths_of name load X p
    = (Ok lens, mk_proc (self p) (trace p ++ List.map (Call name) X)) /\
    (forall q : proc Self,
        keep_idxs (length X) lens threshold q = (Ok idxs, q)) /\
    (forall q : proc Self, select X idxs q = (Ok kept.*1, q)) /\
    (forall q : proc Self, select Y idxs q = (Ok kept.*2, q)) /\
    length idxs = length kept.
Proof.
  intros Hall Hle kept.
  destruct (lengths_of_total name load X p Hall) as [lens El].
  pose proof (lengths_of_ok _ _ _ _ _ _ El) as Hlens.
  pose proof (Forall2_length _ _ _ Hlens) as Hlen.
  set (idxs := List.filter
                 (fun i => match lens !! i with
                           | Some x => threshold <? Z.of_nat x
                           | None => false
                           end) (seq 0 (length X))).
  assert (Hk : forall q : proc Self,
             keep_idxs (length X) lens threshold q = (Ok idxs, q))
    by (intros q; apply keep_idxs_ok; lia).
  assert (HY : Forall (fun i => (i < length Y)%nat) idxs).
  { eapply Forall_impl; [apply filter_seq_lt|]. simpl. intros i Hi. lia. }
  destruct (select_total X idxs p (filter_seq_lt _ _)) as [rx Ex].
  destruct (select_total Y idxs p HY) as [ry Ey].
  destruct (filter_stage _ _ _ _ _ _ _ _ _ _ _ _ _ _ _ _ _ El (Hk p) Ex Ey)
    as [-> ->]. fold kept in Ex, Ey.
  assert (Hsx : forall q : proc Self, select X idxs q = (Ok kept.*1, q)).
  { intros q. destruct (select_total X idxs q (filter_seq_lt _ _)) as [r Er].
    rewrite Er. f_equal. f_equal.
    destruct (filter_stage _ _ _ _ _ _ _ _ _ _ _ _ _ _ _ _ _
                El (Hk p) Er Ey) as [-> _]. reflexivity. }
  assert (Hsy : forall q : proc Self, select Y idxs q = (Ok kept.*2, q)).
  { intros q. destruct (select_total Y idxs q HY) as [r Er].
    rewrite Er. f_equal. f_equal.
    destruct (filter_stage _ _ _ _ _ _ _ _ _ _ _ _ _ _ _ _ _
                El (Hk p) Ex Er) as [_ ->]. reflexivity. }
  exists lens, idxs. repeat (split; [assumption|]).
  destruct (select_ok _ _ _ _ _ (Hsx p)) as [_ HF].
  rewrite (Forall2_length _ _ _ HF), !length_fmap. reflexivity.
Qed.

(** X21: the constructor of [AudioMelDataset] with an audio threshold
    only, over audio files that can all be loaded and measured and at
    least as many feature files, returns the dataset of the pairs (audio
    file, feature file) of equal position whose audio is longer than the
    threshold, when there is such a pair.  The numbers of audio and of
    feature files are not compared in this case: feature files beyond the
    number of audio files are ignored without an error. *)
Theorem X21_audio_mel_construction fs root aq mq t ald mld r c :
  let audio := Py.sorted (walk fs root aq) in
  let mel := Py.sorted (walk fs root mq) in
  let kept := List.filter (fun am => exceeds ald t (fst am)) (zip audio mel) in
  Forall (measurable ald) audio ->
  (length audio <= length mel)%nat -> kept <> [] ->
  new (AudioMelDataset.__init__ fs root aq mq ald mld (Some t) None r c)
  = (Ok (AudioMelDataset.mk kept.*1 ald mld kept.*2
                            (audio_utt_ids aq kept.*1) r c
                            (fresh_caches c (length kept.*1))),
     FindFiles root aq :: FindFiles root mq
     :: filter_events "audio_load_fn" "Some files are filtered by audio"
                      audio kept.*1).
Proof.
  intros audio mel kept Hall Hle Hkept.
  unfold new, AudioMelDataset.__init__, find_files. run.
  fold audio. fold mel.
  destruct (filter_runs_pairs "audio_load_fn" ald audio mel t
              (mk_proc tt [FindFiles root aq; FindFiles root mq]) Hall Hle)
    as (lens & idxs & El & Hk & Hsx & Hsy & Hlen).
  fold kept in Hsx, Hsy, Hlen.
  rewrite El. simpl. rewrite Hk. simpl. rewrite Hlen.
  assert (Hne : negb (length kept.*1 =? 0)%nat = true)
    by (rewrite length_fmap; destruct kept; [contradiction|reflexivity]).
  unfold filter_events. rewrite !length_fmap in *.
  destruct (length audio =? length kept)%nat; simpl;
    rewrite Hsx; simpl; rewrite Hsy; simpl; rewrite !length_fmap, Hne; simpl;
    rewrite Nat.eqb_refl; simpl;
    rewrite <- ?app_assoc, ?app_nil_r; reflexivity.
Qed.

(** X21 at work: two audio files and three feature files. *)
Lemma X21_witness :
  let fs := roots [("dump", [File "u2.wav"; File "u3.wav";
                             File "u1.h5"; File "u2.h5"; File "u3.h5"])] in
  let ald := load_table [("dump/u2.wav", wave 50 2);
                         ("dump/u3.wav", wave 80 3)] in
  let audio := Py.sorted (walk fs "dump" "*.wav") in
  let mel := Py.sorted (walk fs "dump" "*.h5") in
  let kept := List.filter (fun am => exceeds ald 10 (fst am)) (zip audio mel) in
  Forall (measurable ald) audio /\
  (length audio <= length mel)%nat /\ kept <> [] /\
  kept = [("dump/u2.wav", "dump/u1.h5"); ("dump/u3.wav", "dump/u2.h5")] /\
  new (AudioMelDataset.__init__ fs "dump" "*.wav" "*.h5" ald mels
         (Some 10) None false false)
  = (Ok (AudioMelDataset.mk kept.*1 ald mels kept.*2
                            (audio_utt_ids "*.wav" kept.*1) false false
                            (fresh_caches false (length kept.*1))),
     FindFiles "dump" "*.wav" :: FindFiles "dump" "*.h5"
     :: filter_events "audio_load_fn" "Some files are filtered by audio"
                      audio kept.*1).
Proof.
  intros fs ald audio mel kept.
  assert (H1 : Forall (measurable ald) audio)
    by (repeat constructor; red; vm_compute; eexists _, _, _;
        split; reflexivity).
  assert (H2 : (length audio <= length mel)%nat) by (vm_compute; lia).
  assert (H3 : kept <> []) by (vm_compute; discriminate).
  split; [exact H1|]. split; [exact H2|]. split; [exact H3|].
  split; [vm_compute; reflexivity|].
  exact (X21_audio_mel_construction fs "dump" "*.wav" "*.h5" 10 ald mels
           false false H1 H2 H3).
Defined.

(* ===================================================================== *)
(** * C4: the length filter of the constructors *)
(* ===================================================================== *)

(** The filter on the second of two lists, of which the first is not the
    shorter one. *)
Lemma filter_runs_pairs_snd {Self} name load (X Y : list string) threshold
  (p : proc Self) :
  Forall (measurable load) Y -> (length Y <= length X)%nat ->
  let kept := List.filter (fun xy => exceeds load threshold (snd xy))
                          (zip X Y) in
  exists lens idxs,
    lengths_of name load Y p
    = (Ok lens, mk_proc (self p) (trace p ++ List.map (Call name) Y)) /\
    (forall q : proc Self,
        keep_idxs (length Y) lens threshold q = (Ok idxs, q)) /\
    (forall q : proc Self, select X idxs q = (Ok kept.*1, q)) /\
    (forall q : proc Self, select Y idxs q = (Ok kept.*2, q)) /\
    length idxs = length kept.
Proof.
  intros Hall Hle kept.
  destruct (filter_runs_pairs name load Y X threshold p Hall Hle)
    as (lens & idxs & El & Hk & HsY & HsX & Hlen).
  destruct (filter_zip_swap (exceeds load threshold) X Y) as [E1 E2].
  exists lens, idxs. split; [exact El|]. split; [exact Hk|].
  split; [|split].
  - intros q. rewrite HsX. subst kept. rewrite E2. reflexivity.
  - intros q. rewrite HsY. subst kept. rewrite E1. reflexivity.
  - rewrite Hlen. subst kept.
    rewrite <- (length_fmap fst), E1, length_fmap. reflexivity.
Qed.

Lemma nonempty_test {A} (l : list A) :
  l <> [] -> negb (length l =? 0)%nat = true.
Proof. destruct l; [contradiction|reflexivity]. Qed.

(** The constructor of [AudioMelDataset] over as many feature files as
    audio files, all of which can be measured where a threshold asks for
    it: the dataset it returns and the events of the two stages of its
    filter. *)
Lemma AudioMelDataset_init_total fs root aq mq ald mld at_ mt r c :
  let audio := Py.sorted (walk fs root aq) in
  let mel := Py.sorted (walk fs root mq) in
  let long := List.filter (fun am => passes ald at_ (fst am)) (zip audio mel) in
  let kept := List.filter (fun am => passes mld mt (snd am)) long in
  length audio = length mel ->
  (at_ <> None -> Forall (measurable ald) audio) ->
  (mt <> None -> Forall (measurable mld) long.*2) ->
  kept <> [] ->
  new (AudioMelDataset.__init__ fs root aq mq ald mld at_ mt r c)
  = (Ok (AudioMelDataset.mk kept.*1 ald mld kept.*2
                            (audio_utt_ids aq kept.*1) r c
                            (fresh_caches c (length kept.*1))),
     FindFiles root aq :: FindFiles root mq
     :: stage_events "audio_load_fn" "Some files are filtered by audio"
                     at_ audio long.*1
     ++ stage_events "mel_load_fn" "Some files are filtered by mel"
                     mt long.*2 kept.*2).
Proof.
  intros audio mel long kept Hlen Ha Hm Hkept.
  assert (Hne : negb (length kept.*1 =? 0)%nat = true)
    by (rewrite length_fmap; apply nonempty_test, Hkept).
  assert (Heq : (length kept.*1 =? length kept.*2)%nat = true)
    by (rewrite !length_fmap; apply Nat.eqb_refl).
  assert (Hzip : zip long.*1 long.*2 = long) by apply zip_fst_snd.
  assert (S1 : forall ta (p0 : proc unit), at_ = Some ta ->
             exists lens idxs,
               lengths_of "audio_load_fn" ald audio p0
               = (Ok lens,
                  mk_proc (self p0)
                    (trace p0 ++ List.map (Call "audio_load_fn") audio)) /\
               (forall q : proc unit,
                   keep_idxs (length audio) lens ta q = (Ok idxs, q)) /\
               (forall q : proc unit, select audio idxs q = (Ok long.*1, q)) /\
               (forall q : proc unit, select mel idxs q = (Ok long.*2, q)) /\
               length idxs = length long).
  { intros ta p0 E. subst long kept. subst at_.
    exact (filter_runs_pairs "audio_load_fn" ald audio mel ta p0
             (Ha ltac:(discriminate)) ltac:(lia)). }
  assert (S2 : forall tm (p0 : proc unit), mt = Some tm ->
             exists lens idxs,
               lengths_of "mel_load_fn" mld long.*2 p0
               = (Ok lens,
                  mk_proc (self p0)
                    (trace p0 ++ List.map (Call "mel_load_fn") long.*2)) /\
               (forall q : proc unit,
                   keep_idxs (length long.*2) lens tm q = (Ok idxs, q)) /\
               (forall q : proc unit,
                   select long.*1 idxs q = (Ok kept.*1, q)) /\
               (forall q : proc unit,
                   select long.*2 idxs q = (Ok kept.*2, q)) /\
               length idxs = length kept).
  { intros tm p0 E. subst kept. subst mt.
    pose proof (filter_runs_pairs_snd "mel_load_fn" mld long.*1 long.*2 tm p0
                  (Hm ltac:(discriminate))
                  ltac:(rewrite !length_fmap; lia)) as S.
    rewrite Hzip in S. exact S. }
  assert (N1 : at_ = None -> long.*1 = audio /\ long.*2 = mel).
  { intros ->. subst long. simpl. rewrite filter_true.
    split; [apply fst_zip|apply snd_zip]; lia. }
  assert (N2 : mt = None -> kept = long)
    by (intros ->; apply filter_true).
  clear Ha Hm Hzip.
  unfold new, AudioMelDataset.__init__, find_files.
  unfold stage_events, filter_events.
  rewrite !length_fmap in *.
  unfold call, assert; unfold bind, lift, emit, ret, raise; simpl.
  fold audio. fold mel.
  clearbody kept. clearbody long. clearbody audio mel.
  destruct at_ as [ta|].
  - destruct (S1 ta (mk_proc tt [FindFiles root aq; FindFiles root mq])
                eq_refl) as (lens & idxs & El & Hk & Hsx & Hsy & Hl).
    clear S1 N1.
    destruct mt as [tm|].
    + clear N2. rewrite El. simpl. rewrite Hk. simpl. rewrite Hl.
      destruct (length audio =? length long)%nat; simpl;
        rewrite Hsx; simpl; rewrite Hsy; simpl;
        match goal with
        | |- context [lengths_of _ _ _ ?p0] =>
            destruct (S2 tm p0 eq_refl)
              as (lens2 & idxs2 & El2 & Hk2 & Hsx2 & Hsy2 & Hl2)
        end;
        rewrite El2; simpl; rewrite !length_fmap in *; rewrite Hk2; simpl;
        rewrite Hl2;
        (destruct (length long =? length kept)%nat; simpl;
         rewrite Hsx2; simpl; rewrite Hsy2; simpl;
         rewrite !length_fmap, Hne; simpl;
         rewrite Nat.eqb_refl; simpl;
         rewrite <- ?app_assoc, ?app_nil_r; simpl;
         rewrite <- ?app_assoc; reflexivity).
    + rewrite (N2 eq_refl) in *. clear S2 N2.
      rewrite El. simpl. rewrite Hk. simpl. rewrite Hl.
      destruct (length audio =? length long)%nat; simpl;
        rewrite Hsx; simpl; rewrite Hsy; simpl;
        rewrite !length_fmap, Hne; simpl;
        rewrite Nat.eqb_refl; simpl;
        rewrite <- ?app_assoc, ?app_nil_r; reflexivity.
  - destruct (N1 eq_refl) as [E1 E2].
    assert (EL : length long = length mel)
      by (rewrite <- E2, length_fmap; reflexivity).
    rewrite E1, E2, ?EL in *. clear S1 N1.
    destruct mt as [tm|].
    + clear N2.
      destruct (S2 tm (mk_proc tt [FindFiles root aq; FindFiles root mq])
                  eq_refl) as (lens2 & idxs2 & El2 & Hk2 & Hsx2 & Hsy2 & Hl2).
      simpl. rewrite El2. simpl. rewrite Hk2. simpl. rewrite Hl2.
      destruct (length mel =? length kept)%nat; simpl;
        rewrite Hsx2; simpl; rewrite Hsy2; simpl;
        rewrite !length_fmap, Hne; simpl;
        rewrite Nat.eqb_refl; simpl;
        rewrite <- ?app_assoc, ?app_nil_r; reflexivity.
    + rewrite (N2 eq_refl) in *. rewrite ?E1, ?E2, ?EL in *.
      simpl. rewrite Hlen in *. rewrite Hne. simpl. rewrite Nat.eqb_refl.
      reflexivity.
Qed.

(** The same for the constructor of [MelDataset]. *)
Lemma MelDataset_init_total fs root mq mt ld r c :
  let files := Py.sorted (walk fs root mq) in
  let kept := List.filter (passes ld mt) files in
  (mt <> None -> Forall (measurable ld) files) -> kept <> [] ->
  new (MelDataset.__init__ fs root mq mt ld r c)
  = (Ok (MelDataset.mk kept ld (mel_utt_ids mq kept) r c
                       (fresh_caches c (length kept))),
     FindFiles root mq
     :: stage_events "mel_load_fn" "Some files are filtered by mel"
                     mt files kept).
Proof.
  intros files kept Hall Hkept.
  pose proof (nonempty_test _ Hkept) as Hne.
  destruct mt as [t|].
  - destruct (filter_runs "mel_load_fn" ld files t
                (mk_proc tt [FindFiles root mq]) (Hall ltac:(discriminate)))
      as (lens & idxs & El & Hk & Hs & Hlen).
    change (List.filter (exceeds ld t) files) with kept in Hs, Hlen.
    unfold new, MelDataset.__init__, find_files, stage_events, filter_events.
    unfold call, assert; unfold bind, lift, emit, ret, raise; simpl.
    fold files. clearbody kept. clearbody files.
    rewrite El. simpl. rewrite Hk. simpl. rewrite Hlen.
    destruct (length files =? length kept)%nat; simpl;
      rewrite Hs; simpl; rewrite Hne; simpl;
      rewrite <- ?app_assoc, ?app_nil_r; reflexivity.
  - assert (Ek : kept = files) by apply filter_true.
    unfold new, MelDataset.__init__, find_files, stage_events.
    unfold call, assert; unfold bind, lift, emit, ret, raise; simpl.
    fold files. clearbody kept. clearbody files. subst kept.
    rewrite Hne. reflexivity.
Qed.

(** The constructor of [AudioDataset] returns only when no file is
    dropped. *)
Lemma AudioDataset_init_total fs root aq at_ ld r c :
  let files := Py.sorted (walk fs root aq) in
  let kept := List.filter (passes ld at_) files in
  (at_ <> None -> Forall (measurable ld) files) ->
  (kept = files -> files <> [] ->
   new (AudioDataset.__init__ fs root aq at_ ld r c)
   = (Ok (AudioDataset.mk files ld r (audio_utt_ids aq files) c
                          (fresh_caches c (length files))),
      FindFiles root aq
      :: match at_ with
         | Some _ => List.map (Call "audio_load_fn") files
         | None => []
         end)) /\
  (kept <> files ->
   new (AudioDataset.__init__ fs root aq at_ ld r c)
   = (Raise (AttributeError
               (Msg "module 'logging' has no attribute 'waning'")),
      FindFiles root aq :: List.map (Call "audio_load_fn") files)).
Proof.
  intros files kept Hall.
  destruct at_ as [t|].
  - destruct (filter_runs "audio_load_fn" ld files t
                (mk_proc tt [FindFiles root aq]) (Hall ltac:(discriminate)))
      as (lens & idxs & El & Hk & Hs & Hlen).
    change (List.filter (exceeds ld t) files) with kept in Hs, Hlen.
    assert (Hdiff : kept <> files ->
                    (length files =? length kept)%nat = false).
    { intros Hkept. apply Nat.eqb_neq. intros E. apply Hkept.
      apply filter_all_length. symmetry. exact E. }
    unfold new, AudioDataset.__init__, find_files.
    unfold call, assert; unfold bind, lift, emit, ret, raise; simpl.
    fold files. clearbody kept. clearbody files.
    rewrite El. simpl. rewrite Hk. simpl. rewrite Hlen.
    split.
    + intros Ek Hne. rewrite Ek in *. rewrite Nat.eqb_refl. simpl.
      rewrite Hs. simpl. rewrite (nonempty_test _ Hne). reflexivity.
    + intros Hkept. rewrite (Hdiff Hkept). reflexivity.
  - assert (Ek : kept = files) by apply filter_true.
    unfold new, AudioDataset.__init__, find_files.
    unfold call, assert; unfold bind, lift, emit, ret, raise; simpl.
    fold files. clearbody kept. clearbody files. subst kept.
    split; [|contradiction].
    intros _ Hne. rewrite (nonempty_test _ Hne). reflexivity.
Qed.


(** C4, where the code departs from it.  The constructors of
    [AudioMelDataset] and of [MelDataset] do what the claim says: over
    files that can be loaded and measured they return the dataset of
    exactly the discovered files, in sorted order, whose array has a first
    dimension strictly above every threshold that is not [None];
    [AudioMelDataset], given as many feature files as audio files, keeps
    the pairs (audio file, feature file) of equal index whose audio passes
    the audio threshold and whose features pass the feature threshold, so
    that the two lists stay aligned and of one length; with thresholds of
    [None] the lists are the discovered ones.  The constructor of
    [AudioDataset] returns such a dataset only when no file is dropped:
    when the threshold drops a file it raises [AttributeError] (the
    misspelt [logging.waning]) and constructs nothing.  Over the three
    files of [corpus], of lengths 1, 50 and 80, and the threshold 10, it
    fails where the claim has the dataset of the two longer files, which
    [MelDataset] returns on the same input. *)
Theorem C4_length_filter :
  (forall fs root aq mq ald mld at_ mt r c,
      let audio := Py.sorted (walk fs root aq) in
      let mel := Py.sorted (walk fs root mq) in
      let long :=
        List.filter (fun am => passes ald at_ (fst am)) (zip audio mel) in
      let kept := List.filter (fun am => passes mld mt (snd am)) long in
      length audio = length mel ->
      (at_ <> None -> Forall (measurable ald) audio) ->
      (mt <> None -> Forall (measurable mld) long.*2) ->
      kept <> [] ->
      new (AudioMelDataset.__init__ fs root aq mq ald mld at_ mt r c)
      = (Ok (AudioMelDataset.mk kept.*1 ald mld kept.*2
                                (audio_utt_ids aq kept.*1) r c
                                (fresh_caches c (length kept.*1))),
         FindFiles root aq :: FindFiles root mq
         :: stage_events "audio_load_fn" "Some files are filtered by audio"
                         at_ audio long.*1
         ++ stage_events "mel_load_fn" "Some files are filtered by mel"
                         mt long.*2 kept.*2) /\
      kept = List.filter
               (fun am => passes ald at_ (fst am) && passes mld mt (snd am))
               (zip audio mel) /\
      length kept.*1 = length kept.*2 /\
      (at_ = None -> mt = None -> kept.*1 = audio /\ kept.*2 = mel)) /\
  (forall fs root mq mt ld r c,
      let files := Py.sorted (walk fs root mq) in
      let kept := List.filter (passes ld mt) files in
      (mt <> None -> Forall (measurable ld) files) -> kept <> [] ->
      new (MelDataset.__init__ fs root mq mt ld r c)
      = (Ok (MelDataset.mk kept ld (mel_utt_ids mq kept) r c
                           (fresh_caches c (length kept))),
         FindFiles root mq
         :: stage_events "mel_load_fn" "Some files are filtered by mel"
                         mt files kept) /\
      (mt = None -> kept = files)) /\
  (forall fs root aq at_ ld r c,
      let files := Py.sorted (walk fs root aq) in
      let kept := List.filter (passes ld at_) files in
      (at_ <> None -> Forall (measurable ld) files) ->
      (at_ = None -> kept = files) /\
      (kept = files -> files <> [] ->
       new (AudioDataset.__init__ fs root aq at_ ld r c)
       = (Ok (AudioDataset.mk files ld r (audio_utt_ids aq files) c
                              (fresh_caches c (length files))),
          FindFiles root aq
          :: match at_ with
             | Some _ => List.map (Call "audio_load_fn") files
             | None => []
             end)) /\
      (kept <> files ->
       new (AudioDataset.__init__ fs root aq at_ ld r c)
       = (Raise (AttributeError
                   (Msg "module 'logging' has no attribute 'waning'")),
          FindFiles root aq :: List.map (Call "audio_load_fn") files))) /\
  (let files := Py.sorted (walk corpus "dump" "*.h5") in
   List.filter (passes waves (Some 10)) files = ["dump/u2.h5"; "dump/u3.h5"] /\
   new (AudioDataset.__init__ corpus "dump" "*.h5" (Some 10) waves false false)
   = (Raise (AttributeError
               (Msg "module 'logging' has no attribute 'waning'")),
      [FindFiles "dump" "*.h5";
       Call "audio_load_fn" "dump/u1.h5"; Call "audio_load_fn" "dump/u2.h5";
       Call "audio_load_fn" "dump/u3.h5"]) /\
   fst (new (MelDataset.__init__ corpus "dump" "*.h5" (Some 10) waves
               false false))
   = Ok (MelDataset.mk ["dump/u2.h5"; "dump/u3.h5"] waves ["u2"; "u3"]
                       false false None)).
Proof.
  split; [|split; [|split]].
  - intros fs root aq mq ald mld at_ mt r c audio mel long kept
           Hlen Ha Hm Hkept.
    split; [exact (AudioMelDataset_init_total fs root aq mq ald mld at_ mt
                     r c Hlen Ha Hm Hkept)|].
    split; [apply filter_filter|].
    split; [rewrite !length_fmap; reflexivity|].
    intros -> ->. subst kept long. simpl. rewrite !filter_true.
    split; [apply fst_zip|apply snd_zip]; lia.
  - intros fs root mq mt ld r c files kept Hall Hkept.
    split; [exact (MelDataset_init_total fs root mq mt ld r c Hall Hkept)|].
    intros ->. apply filter_true.
  - intros fs root aq at_ ld r c files kept Hall.
    split; [intros ->; apply filter_true|].
    exact (AudioDataset_init_total fs root aq at_ ld r c Hall).
  - repeat split; vm_compute; reflexivity.
Qed.

(** C4 at work: of three utterances, the audio threshold 10 drops [u1] and
    the feature threshold 10 then drops [u3]; both lists keep [u2]. *)
Lemma C4_witness :
  let audio := Py.sorted (walk corpus "dump" "*.h5") in
  let long :=
    List.filter (fun am => passes waves (Some 10) (fst am)) (zip audio audio) in
  let kept := List.filter (fun am => passes mels (Some 10) (snd am)) long in
  length audio = length audio /\
  (Some 10 <> None -> Forall (measurable waves) audio) /\
  (Some 10 <> None -> Forall (measurable mels) long.*2) /\
  kept <> [] /\
  long = [("dump/u2.h5", "dump/u2.h5"); ("dump/u3.h5", "dump/u3.h5")] /\
  kept = [("dump/u2.h5", "dump/u2.h5")] /\
  new (AudioMelDataset.__init__ corpus "dump" "*.h5" "*.h5" waves mels
         (Some 10) (Some 10) false false)
  = (Ok (AudioMelDataset.mk kept.*1 waves mels kept.*2
                            (audio_utt_ids "*.h5" kept.*1) false false
                            (fresh_caches false (length kept.*1))),
     FindFiles "dump" "*.h5" :: FindFiles "dump" "*.h5"
     :: stage_events "audio_load_fn" "Some files are filtered by audio"
                     (Some 10) audio long.*1
     ++ stage_events "mel_load_fn" "Some files are filtered by mel"
                     (Some 10) long.*2 kept.*2).
Proof.
  intros audio long kept.
  assert (H0 : length audio = length audio) by reflexivity.
  assert (H1 : Some 10 <> None -> Forall (measurable waves) audio)
    by (intros _; exact corpus_measurable).
  assert (H2 : Some 10 <> None -> Forall (measurable mels) long.*2)
    by (intros _; repeat constructor; red; vm_compute; eexists _, _, _;
        split; reflexivity).
  assert (H3 : kept <> []) by (vm_compute; discriminate).
  split; [exact H0|]. split; [exact H1|]. split; [exact H2|].
  split; [exact H3|].
  split; [vm_compute; reflexivity|]. split; [vm_compute; reflexivity|].
  exact (proj1 (proj1 C4_length_filter corpus "dump" "*.h5" "*.h5" waves mels
                  (Some 10) (Some 10) false false H0 H1 H2 H3)).
Defined.
